(** * texeval2mtex: RES to DAT conversion of pole-figure intensities

    A shallow embedding of [texeval2mtex.py] and the properties of its
    header search, grid extraction and table output.

    Conventions of the embedding.
    - A Python [str] is a [string]; a character is its code point below 256.
    - A Python [float] is a primitive binary64 [float]; the arithmetic of the
      script ([/], [*], [+]) is the primitive one, and conversions between
      floats, integers and text are computed on the exact value
      [m * 2^e] read off [Prim2SF]: [float(s)] and [round(x, 3)] give the
      nearest float of a decimal, ['%.2f'] and ['%.3f'] the nearest decimal
      of a float, ties to even in both directions, and [int(x)] the integer
      part.
    - A Python [int] is a [Z].
    - A call that may raise returns a [result]; the constructors of [exn]
      are the exceptions the script can meet. The script defines no
      exception of its own.
    - The DataFrame [pfs_df] is a table of [cell]s addressed by position,
      as the script does with [iloc]; the array [pfs_ints] is a list of
      lists of lists with its shape.
    - A name of the module that a function reads without receiving it
      ([step_polar] and [step_azimuthal] in [get_meta_data], [content] in
      [get_intensities]) is a parameter whose name starts with [g_].
    - The input file is the list of its lines as [readlines] returns them,
      and the count of pole figures is the [int] of the second argument.
    - The files a run writes are listed in the order of the writes, each
      with its lines.
    - numpy is the one of a 64-bit platform: a dimension and the size of
      an array in bytes are C [intp] numbers of 64 bits, and [np.zeros]
      raises when one does not fit, whether the array is empty or not.
      Below that bound memory is no limit: an array that passes these
      checks is made. [np.array] makes the same check of the size for
      the table of three columns. *)

From Stdlib Require Import ZArith Lia Bool Ascii String DecimalString DecimalZ.
From Stdlib Require Import PrimFloat SpecFloat FloatOps.
From stdpp Require Import base list strings.

Local Open Scope string_scope.
Local Open Scope Z_scope.

(** ** Exceptions and results *)

Inductive exn : Set :=
| SystemExit
| IndexError
| TypeError
| ValueError
| ZeroDivisionError
| OverflowError.

Inductive result (A : Type) : Type :=
| Ok (a : A)
| Raise (e : exn).

Arguments Ok {A} a.
Arguments Raise {A} e.

Definition bind {A B} (r : result A) (k : A -> result B) : result B :=
  match r with
  | Ok a => k a
  | Raise e => Raise e
  end.

Notation "'let*' x ':=' r 'in' k" := (bind r (fun x => k))
  (at level 10, x pattern, r at level 100, k at level 200).

Definition is_ok {A} (r : result A) : bool :=
  match r with Ok _ => true | Raise _ => false end.

(** [for x in xs: acc = f(acc, x)], stopping at the first exception. *)
Fixpoint foldM {A S} (f : S -> A -> result S) (xs : list A) (s : S) : result S :=
  match xs with
  | [] => Ok s
  | x :: xs' => let* s' := f s x in foldM f xs' s'
  end.

(** [[f(x) for x in xs]], stopping at the first exception. *)
Fixpoint mapM {A B} (f : A -> result B) (xs : list A) : result (list B) :=
  match xs with
  | [] => Ok []
  | x :: xs' => let* y := f x in let* ys := mapM f xs' in Ok (y :: ys)
  end.

(** ** Python builtins on strings *)

Module Py.

(** [c.isspace()] for a code point below 256. *)
Definition isspace (c : ascii) : bool :=
  let n := N_of_ascii c in
  ((9 <=? n) && (n <=? 13) || (28 <=? n) && (n <=? 32)
   || (n =? 133) || (n =? 160))%N.

(** [s.rstrip()]. *)
Fixpoint rstrip (s : string) : string :=
  match s with
  | EmptyString => EmptyString
  | String c s' =>
      match rstrip s' with
      | EmptyString => if isspace c then EmptyString else String c EmptyString
      | r => String c r
      end
  end.

(** [s.split()]: maximal runs of non-space characters, in order.
    [tok] is the run being read, last character first. *)
Definition flush (tok : list ascii) (rest : list string) : list string :=
  match tok with
  | [] => rest
  | _ => string_of_list_ascii (rev tok) :: rest
  end.

Fixpoint split_from (s : string) (tok : list ascii) : list string :=
  match s with
  | EmptyString => flush tok []
  | String c s' =>
      if isspace c then flush tok (split_from s' [])
      else split_from s' (c :: tok)
  end.

Definition split (s : string) : list string := split_from s [].

(** [s.endswith(suffix)]. *)
Definition endswith (s suffix : string) : bool :=
  let n := String.length s in
  let m := String.length suffix in
  (m <=? n)%nat && String.eqb (substring (n - m) m s) suffix.

(** [s[:k]] for [0 <= k] and [s[:-k]] for [0 < k]. *)
Definition prefix (k : nat) (s : string) : string := substring 0 k s.
Definition drop_last (k : nat) (s : string) : string :=
  substring 0 (String.length s - k) s.

(** [''.ljust(n)]: [n] spaces. *)
Fixpoint spaces (n : nat) : string :=
  match n with
  | O => EmptyString
  | S n' => String " " (spaces n')
  end.

(** [str(n)] for an [int]. *)
Definition str (n : Z) : string := NilZero.string_of_int (Z.to_int n).

(** [l[i]] on a list, a negative index counting from the end. *)
Definition index {A} (l : list A) (i : Z) : result A :=
  let j := if i <? 0 then i + Z.of_nat (length l) else i in
  if j <? 0 then Raise IndexError
  else match l !! Z.to_nat j with
       | Some x => Ok x
       | None => Raise IndexError
       end.

(** [l[:n]] on a list. *)
Definition slice_to {A} (l : list A) (n : Z) : list A :=
  if n <? 0 then take (length l - Z.to_nat (- n)) l else take (Z.to_nat n) l.

(** [range(n)] and [range(start, stop, step)] for a positive [step]. *)
Definition range (n : Z) : list nat := seq 0 (Z.to_nat n).

Definition range3 (start stop step : Z) : list Z :=
  map (fun t => start + step * Z.of_nat t)
      (seq 0 (Z.to_nat ((stop - start + step - 1) / step))).

End Py.

(** ** Python floats *)

Module PyFloat.

(** The nearest binary64 number to an integer: [float(n)]. *)
Definition of_int (n : Z) : float :=
  SF2Prim (binary_normalize prec emax n 0 false).

Definition signed (neg : bool) (n : Z) : Z := if neg then - n else n.

(** The nearest binary64 number (ties to even) to the decimal
    [+/- M * 10^k], [0 <= M]. For [k < 0] the quotient by [10^(-k)] is taken
    with at least 64 bits and one more bit that records a nonzero remainder,
    so that rounding the bits to 53 rounds the quotient itself. *)
Definition of_decimal (neg : bool) (M k : Z) : float :=
  if M =? 0 then (if neg then neg_zero else zero)
  else if 0 <=? k then
    SF2Prim (binary_normalize prec emax (signed neg (M * 10 ^ k)) 0 false)
  else
    let den := 10 ^ (- k) in
    let s := 64 + Z.log2 den in
    let num := Z.shiftl M s in
    let sticky := if num mod den =? 0 then 0 else 1 in
    SF2Prim (binary_normalize prec emax
               (signed neg (2 * (num / den) + sticky)) (- s - 1) false).

(** *** [float(s)] on a token *)

Definition digit_of (c : ascii) : option Z :=
  let n := N_of_ascii c in
  if ((48 <=? n) && (n <=? 57))%N then Some (Z.of_N (n - 48)) else None.

(** A maximal run of digits at the head of [s], read onto [acc]:
    the number read, how many digits it had, and what follows. One
    underscore may stand between two digits. *)
Fixpoint digits (s : string) (acc : Z) (n : nat) : Z * nat * string :=
  match s with
  | EmptyString => (acc, n, s)
  | String c s' =>
      match digit_of c with
      | Some d => digits s' (10 * acc + d) (S n)
      | None =>
          if Ascii.eqb c "_" && (0 <? n)%nat then
            match s' with
            | String c' s'' =>
                match digit_of c' with
                | Some d => digits s'' (10 * acc + d) (S n)
                | None => (acc, n, s)
                end
            | EmptyString => (acc, n, s)
            end
          else (acc, n, s)
      end
  end.

Definition parse_sign (s : string) : bool * string :=
  match s with
  | String "-" s' => (true, s')
  | String "+" s' => (false, s')
  | _ => (false, s)
  end.

Definition lower_char (c : ascii) : ascii :=
  let n := N_of_ascii c in
  if ((65 <=? n) && (n <=? 90))%N then ascii_of_N (n + 32) else c.

Fixpoint lower (s : string) : string :=
  match s with
  | EmptyString => EmptyString
  | String c s' => String (lower_char c) (lower s')
  end.

(** The exponent part, empty or [e], an optional sign and digits, up to
    the end of the token. *)
Definition parse_exponent (s : string) : option Z :=
  match s with
  | EmptyString => Some 0
  | String c s' =>
      if Ascii.eqb (lower_char c) "e" then
        let '(neg, s1) := parse_sign s' in
        let '(v, n, rest) := digits s1 0 0 in
        if (n =? 0)%nat || negb (String.eqb rest "") then None
        else Some (signed neg v)
      else None
  end.

(** What a token denotes as a float literal: an infinity, a NaN, or the
    decimal [+/- M * 10^k]. *)
Inductive literal : Set :=
| Inf (neg : bool)
| Nan
| Dec (neg : bool) (M k : Z).

(** The literal of a token: a decimal with an optional sign, fraction and
    exponent, or [inf], [infinity] or [nan] in any case. *)
Definition parse_literal (s : string) : result literal :=
  let '(neg, s0) := parse_sign s in
  let low := lower s0 in
  if String.eqb low "inf" || String.eqb low "infinity" then Ok (Inf neg)
  else if String.eqb low "nan" then Ok Nan
  else
    let '(ip, ni, s1) := digits s0 0 0 in
    let '(m, nf, s2) :=
      match s1 with
      | String "." s1' => digits s1' ip 0
      | _ => (ip, O, s1)
      end in
    if (ni + nf =? 0)%nat then Raise ValueError
    else match parse_exponent s2 with
         | Some e => Ok (Dec neg m (e - Z.of_nat nf))
         | None => Raise ValueError
         end.

Definition of_literal (l : literal) : float :=
  match l with
  | Inf neg => if neg then neg_infinity else infinity
  | Nan => nan
  | Dec neg M k => of_decimal neg M k
  end.

(** [float(s)] *)
Definition of_string (s : string) : result float :=
  let* l := parse_literal s in Ok (of_literal l).

(** *** [int(x)] *)

(** [int(x)]: the integer part of [x], towards zero. *)
Definition to_int (x : float) : result Z :=
  match Prim2SF x with
  | S754_nan => Raise ValueError
  | S754_infinity _ => Raise OverflowError
  | S754_zero _ => Ok 0
  | S754_finite s m e =>
      Ok (signed s (if 0 <=? e then Z.pos m * 2 ^ e else Z.pos m / 2 ^ (- e)))
  end.

(** [n / y] for an [int] [n] and a [float] [y]. *)
Definition int_div (n : Z) (y : float) : result float :=
  if PrimFloat.eqb y zero then Raise ZeroDivisionError
  else Ok (PrimFloat.div (of_int n) y).

(** [n * y] for an [int] [n] and a [float] [y]. *)
Definition int_mul (n : Z) (y : float) : float := PrimFloat.mul (of_int n) y.

(** *** Formatting with a fixed number of decimals *)

(** [num / den] rounded to the nearest integer, ties to even ([0 < den]). *)
Definition div_half_even (num den : Z) : Z :=
  let q := num / den in
  let r := num mod den in
  match 2 * r ?= den with
  | Lt => q
  | Gt => q + 1
  | Eq => if Z.even q then q else q + 1
  end.

(** [m * 2^e * 10^d] rounded to the nearest integer, ties to even. *)
Definition scaled (d : nat) (m : positive) (e : Z) : Z :=
  if 0 <=? e then Z.pos m * 2 ^ e * 10 ^ Z.of_nat d
  else div_half_even (Z.pos m * 10 ^ Z.of_nat d) (2 ^ (- e)).

Definition digit_char (d : Z) : ascii := ascii_of_N (48 + Z.to_N d).

(** The last [d] decimal digits of [n], zeros included. *)
Fixpoint zfill (d : nat) (n : Z) : string :=
  match d with
  | O => EmptyString
  | S d' => zfill d' (n / 10) +:+ String (digit_char (n mod 10)) EmptyString
  end.

Definition sign_str (neg : bool) : string := if neg then "-" else "".

(** ['%.<d>f' % x] for [0 < d]. *)
Definition format_f (d : nat) (x : float) : string :=
  match Prim2SF x with
  | S754_nan => "nan"
  | S754_infinity s => sign_str s +:+ "inf"
  | S754_zero s => sign_str s +:+ "0." +:+ zfill d 0
  | S754_finite s m e =>
      let N := scaled d m e in
      sign_str s +:+ Py.str (N / 10 ^ Z.of_nat d) +:+ "."
      +:+ zfill d (N mod 10 ^ Z.of_nat d)
  end.

(** ['%i' % x]: [str(int(x))]. *)
Definition format_i (x : float) : result string :=
  let* n := to_int x in Ok (Py.str n).

(** [round(x, d)]: the float nearest to [x] rounded to [d] decimals. *)
Definition round (d : nat) (x : float) : float :=
  match Prim2SF x with
  | S754_finite s m e => of_decimal s (scaled d m e) (- Z.of_nat d)
  | _ => x
  end.

End PyFloat.

(** ** The DataFrame [pfs_df] *)

(** A cell of the frame: not yet set ([NaN]), a header text or a line
    number. *)
Inductive cell : Set :=
| NaN
| Str (s : string)
| Int (n : Z).

Record DataFrame : Set := {
  index : list string;
  columns : list string;
  values : list (list cell)
}.

(** [pd.DataFrame(index=..., columns=...)]: every cell is [NaN]. *)
Definition new_frame (idx cols : list string) : DataFrame :=
  {| index := idx; columns := cols;
     values := replicate (length idx) (replicate (length cols) NaN) |}.

(** [df.iloc[i].name] *)
Definition iloc_name (df : DataFrame) (i : nat) : result string :=
  match index df !! i with
  | Some s => Ok s
  | None => Raise IndexError
  end.

(** [df.iloc[i, j]] *)
Definition iloc (df : DataFrame) (i j : nat) : result cell :=
  match values df !! i with
  | Some row =>
      match row !! j with
      | Some c => Ok c
      | None => Raise IndexError
      end
  | None => Raise IndexError
  end.

(** [df.iloc[i, j] = c] *)
Definition iloc_set (df : DataFrame) (i j : nat) (c : cell) : result DataFrame :=
  match values df !! i with
  | Some row =>
      if decide (j < length row)%nat then
        Ok {| index := index df; columns := columns df;
              values := <[i := <[j := c]> row]> (values df) |}
      else Raise IndexError
  | None => Raise IndexError
  end.

(** [c == s] for a cell and a [str]. *)
Definition cell_is (c : cell) (s : string) : bool :=
  match c with
  | Str t => String.eqb t s
  | _ => false
  end.

(** ** [get_meta_data] *)

Definition polar_max (corr_data : bool) : Z := if corr_data then 90 else 80.

(** The column of the header text; the line number goes one to its right. *)
Definition head_pos (corr_data : bool) : nat := if corr_data then 2%nat else 0%nat.

(** The text assigned at lines 69 to 73, the two sample counts given. *)
Definition header (plane_str step_azimuthal_str step_polar_str : string)
    (n_azimuthal n_polar : Z) : string :=
  Py.spaces 1 +:+ plane_str +:+ Py.spaces 7
  +:+ step_azimuthal_str +:+ Py.spaces 3 +:+ Py.str n_azimuthal
  +:+ Py.spaces 4 +:+ Py.str 0 +:+ Py.spaces 1 +:+ step_polar_str
  +:+ Py.spaces 3 +:+ Py.str n_polar +:+ Py.spaces 4
  +:+ Py.str 0.

(** [int(n / x)] *)
Definition samples (n : Z) (x : float) : result Z :=
  let* q := PyFloat.int_div n x in PyFloat.to_int q.

(** The body of the first loop. [g_step_polar] and [g_step_azimuthal] are
    the module-level floats the function reads. *)
Definition set_header (g_step_polar g_step_azimuthal : float)
    (step_polar_str step_azimuthal_str : string) (corr_data : bool)
    (df : DataFrame) (i : nat) : result DataFrame :=
  let* plane_str := iloc_name df i in
  let* n_azimuthal := samples 360 g_step_azimuthal in
  let* n_polar := samples (polar_max corr_data) g_step_polar in
  iloc_set df i (head_pos corr_data)
    (Str (header plane_str step_azimuthal_str step_polar_str n_azimuthal n_polar)).

(** The inner loop of the search, over the rows still to try for this
    line: the first row whose header equals the line gets the line number
    and ends the loop. *)
Fixpoint match_line (pos : nat) (stripped : string) (lineCount : Z)
    (rows : list nat) (df : DataFrame) : result DataFrame :=
  match rows with
  | [] => Ok df
  | i :: rows' =>
      let* c := iloc df i pos in
      if cell_is c stripped then iloc_set df i (pos + 1) (Int (lineCount - 1))
      else match_line pos stripped lineCount rows' df
  end.

(** The outer loop of the search; [lineCount] is its value before the
    line at the head of [content]. *)
Fixpoint scan (pos : nat) (content : list string) (lineCount : Z)
    (df : DataFrame) : result DataFrame :=
  match content with
  | [] => Ok df
  | line :: rest =>
      let lineCount := lineCount + 1 in
      let* df' := match_line pos (Py.rstrip line) lineCount
                    (Py.range (Z.of_nat (length (index df)))) df in
      scan pos rest lineCount df'
  end.

Definition get_meta_data (g_step_polar g_step_azimuthal : float)
    (n_pfs : Z) (pfs_df : DataFrame) (content : list string)
    (step_polar_str step_azimuthal_str : string) (corr_data : bool)
    : result DataFrame :=
  let* df :=
    foldM (set_header g_step_polar g_step_azimuthal
             step_polar_str step_azimuthal_str corr_data)
          (Py.range n_pfs) pfs_df in
  scan (head_pos corr_data) content 0 df.

(** ** [get_intensities] *)

(** A three-dimensional array of floats with its shape. *)
Record ndarray : Set := {
  shape : nat * nat * nat;
  data : list (list (list float))
}.

(** The largest C [intp]. *)
Definition intp_max : Z := 2 ^ 63 - 1.

(** Whether an [int] converts to an [intp]. *)
Definition fits_intp (n : Z) : bool := (- intp_max - 1 <=? n) && (n <=? intp_max).

(** The size in bytes numpy computes for an array of [float64]: 8 times
    its dimensions, a dimension of 0 passed over. *)
Definition nbytes (n0 n1 n2 : Z) : Z :=
  let dim n := if n =? 0 then 1 else n in
  8 * dim n0 * dim n1 * dim n2.

(** The size check of a new array of [n0] rows of [n1] cells, the
    dimensions of which are lengths of arrays: [np.zeros([n0, n1])], and
    [np.array] of [n0] flat arrays of [n1] cells. *)
Definition too_big (n0 n1 : Z) : bool := intp_max <? nbytes n0 n1 1.

(** [np.zeros((n0, n1, n2))]: a [ValueError] for a dimension that does not
    convert to an [intp], for a negative dimension, and for a size in
    bytes beyond the largest [intp], also when the array is empty; an
    array of zeros else. *)
Definition zeros (n0 n1 n2 : Z) : result ndarray :=
  if negb (fits_intp n0 && fits_intp n1 && fits_intp n2) then Raise ValueError
  else if (n0 <? 0) || (n1 <? 0) || (n2 <? 0) then Raise ValueError
  else if intp_max <? nbytes n0 n1 n2 then Raise ValueError
  else
    Ok {| shape := (Z.to_nat n0, Z.to_nat n1, Z.to_nat n2);
          data := replicate (Z.to_nat n0)
                    (replicate (Z.to_nat n1) (replicate (Z.to_nat n2) zero)) |}.

(** [row[lo:lo + len(ints)] = ints]: the slice is cut at the end of the
    row; values as many as the slice is long are stored, a single value
    given to an empty slice is dropped, anything else does not broadcast. *)
Definition assign_slice (row : list float) (lo : nat) (ints : list float)
    : result (list float) :=
  let n := length ints in
  let a := (lo `min` length row)%nat in
  let b := ((lo + n) `min` length row)%nat in
  if decide (b - a = n)%nat then Ok (take a row ++ ints ++ drop b row)%list
  else if decide (n = 1)%nat then Ok row
  else Raise ValueError.

(** [pfs_ints[i, i_pa, i_pf:(i_pf + len(ints))] = ints] *)
Definition setitem (arr : ndarray) (i i_pa i_pf : nat) (ints : list float)
    : result ndarray :=
  match data arr !! i with
  | None => Raise IndexError
  | Some pf =>
      match pf !! i_pa with
      | None => Raise IndexError
      | Some row =>
          let* row' := assign_slice row i_pf ints in
          Ok {| shape := shape arr;
                data := <[i := <[i_pa := row']> pf]> (data arr) |}
      end
  end.

(** [[round(float(x), 3) for x in line.split()]] *)
Definition parse_line (line : string) : result (list float) :=
  mapM (fun x => let* v := PyFloat.of_string x in Ok (PyFloat.round 3 v))
       (Py.split line).

(** The loop over [k]: one line of the block. The state is the array and
    [i_pf]. *)
Definition read_line (g_content : list string) (i i_pa : nat) (j : Z)
    (st : ndarray * nat) (k : nat) : result (ndarray * nat) :=
  let '(arr, i_pf) := st in
  let i_content := j + Z.of_nat k in
  let* line := Py.index g_content i_content in
  let* ints := parse_line line in
  let* arr' := setitem arr i i_pa i_pf ints in
  Ok (arr', (i_pf + length ints)%nat).

(** The loop over [j]: one block, one polar angle. The state is the array
    and [i_pa]. *)
Definition read_block (g_content : list string) (step : Z) (i : nat)
    (st : ndarray * nat) (j : Z) : result (ndarray * nat) :=
  let '(arr, i_pa) := st in
  let* st' :=
    foldM (read_line g_content i i_pa j) (Py.range step) (arr, 0%nat) in
  Ok (fst st', S i_pa).

(** [c + 1] for a cell, as far as [range] accepts the sum. *)
Definition cell_succ (c : cell) : result Z :=
  match c with
  | Int n => Ok (n + 1)
  | NaN => Raise TypeError
  | Str _ => Raise TypeError
  end.

(** The loop over [i]: one pole figure. *)
Definition read_pole_figure (g_content : list string) (pfs_df : DataFrame)
    (step : Z) (pos : nat) (stop_increment : Z)
    (arr : ndarray) (i : nat) : result ndarray :=
  let* c := iloc pfs_df i pos in
  let* start := cell_succ c in
  let stop := start + stop_increment in
  let* st' :=
    foldM (read_block g_content step i) (Py.range3 start stop step)
          (arr, 0%nat) in
  Ok (fst st').

(** [g_content] is the module-level list of lines the function reads. *)
Definition get_intensities (g_content : list string) (n_pfs : Z)
    (pfs_df : DataFrame) (step_polar step_azimuthal : float) (step : Z)
    (corr_data : bool) : result ndarray :=
  let pos := S (head_pos corr_data) in
  let* stop_increment := samples (step * polar_max corr_data) step_polar in
  let* n_polar := samples (polar_max corr_data) step_polar in
  let* n_azimuthal := samples 360 step_azimuthal in
  let* pfs_ints := zeros n_pfs n_polar n_azimuthal in
  foldM (read_pole_figure g_content pfs_df step pos stop_increment)
        (Py.range n_pfs) pfs_ints.

(** ** [write_intensities_to_file] *)

(** A written file: its name and its lines, each without the newline
    that ends it. *)
Definition file : Set := string * list string.

(** The values [k] takes in the loop over [l]: [k] at first, then
    [k += step_azimuthal] at each turn. *)
Fixpoint azimuthal_row (step_azimuthal : float) (n : nat) (k : float)
    : list float :=
  match n with
  | O => []
  | S n' => k :: azimuthal_row step_azimuthal n' (PrimFloat.add k step_azimuthal)
  end.

(** The arrays [polar] and [azimuthal] after the loop over [j]. *)
Definition polar_array (step_polar : float) (polar_max azimuthal_max : nat)
    : list (list float) :=
  map (fun j => replicate azimuthal_max (PyFloat.int_mul (Z.of_nat j) step_polar))
      (seq 0 polar_max).

Definition azimuthal_array (step_azimuthal : float)
    (polar_max azimuthal_max : nat) : list (list float) :=
  map (fun _ => azimuthal_row step_azimuthal azimuthal_max (PyFloat.of_int 0))
      (seq 0 polar_max).

(** [a.flatten()] of a two-dimensional array. *)
Definition flatten (a : list (list float)) : list float := concat a.

(** [np.array([p, a, v]).transpose()]: the rows of the table. *)
Fixpoint table (p a v : list float) : list (float * float * float) :=
  match p, a, v with
  | x :: p', y :: a', z :: v' => (x, y, z) :: table p' a' v'
  | _, _, _ => []
  end.

(** One line under [fmt=['%i', '%i', '%.3f']]. *)
Definition format_row (row : float * float * float) : result string :=
  let '(x, y, z) := row in
  let* xs := PyFloat.format_i x in
  let* ys := PyFloat.format_i y in
  Ok (xs +:+ " " +:+ ys +:+ " " +:+ PyFloat.format_f 3 z).

(** [np.savetxt]: the lines that reach the file, and the exception that
    stopped the writing if a row did not format. *)
Fixpoint savetxt (rows : list (float * float * float))
    : list string * result unit :=
  match rows with
  | [] => ([], Ok tt)
  | row :: rest =>
      match format_row row with
      | Ok line => let '(ls, r) := savetxt rest in (line :: ls, r)
      | Raise e => ([], Raise e)
      end
  end.

Definition suffix (corr_data : bool) : string :=
  if corr_data then "_corr.dat" else "_uncorr.dat".

(** The loop over [i]: the files written and how the loop ended. In a
    turn, [pfs_ints[i]] comes first, then the table of three columns that
    [np.array] makes, then the name of the row, then the writing. *)
Fixpoint write_tables (polar_flat azimuthal_flat : list float)
    (pfs_ints : ndarray) (pfs_df : DataFrame) (infile : string)
    (corr_data : bool) (rows : list nat) : list file * result unit :=
  match rows with
  | [] => ([], Ok tt)
  | i :: rows' =>
      match data pfs_ints !! i with
      | None => ([], Raise IndexError)
      | Some pf =>
          if too_big 3 (Z.of_nat (length (flatten pf))) then ([], Raise ValueError)
          else
          match iloc_name pfs_df i with
          | Raise e => ([], Raise e)
          | Ok name =>
              let outfile :=
                Py.drop_last 4 infile +:+ "_pf" +:+ name +:+ suffix corr_data in
              let '(ls, r) :=
                savetxt (table polar_flat azimuthal_flat (flatten pf)) in
              match r with
              | Raise e => ([(outfile, ls)], Raise e)
              | Ok _ =>
                  let '(fs, r') :=
                    write_tables polar_flat azimuthal_flat pfs_ints pfs_df
                      infile corr_data rows' in
                  ((outfile, ls) :: fs, r')
              end
          end
      end
  end.

(** Lines 150 to 173: [np.zeros] makes the two arrays of angles, of the
    size of one pole figure, the loops over [j] and [l] fill them, and the
    loop over [i] writes the tables. *)
Definition write_intensities_to_file (pfs_ints : ndarray) (pfs_df : DataFrame)
    (infile : string) (step_polar step_azimuthal : float) (corr_data : bool)
    : list file * result unit :=
  let '(n0, polar_max, azimuthal_max) := shape pfs_ints in
  if too_big (Z.of_nat polar_max) (Z.of_nat azimuthal_max)
  then ([], Raise ValueError)
  else
  let polar := polar_array step_polar polar_max azimuthal_max in
  let azimuthal := azimuthal_array step_azimuthal polar_max azimuthal_max in
  write_tables (flatten polar) (flatten azimuthal) pfs_ints pfs_df infile
    corr_data (seq 0 n0).

(** ** The script *)

Definition planes : list string := ["111"; "200"; "220"; "311"; "222"; "400"].

Definition newline : string := String "010" EmptyString.

Definition extension_message : string :=
  "Error: The input file must be a RES file." +:+ newline.

(** Lines 186 to 193: the correction flag and the two steps. *)
Definition sniff (content : list string) : result (bool * float * float) :=
  let* line2 := Py.index content 2 in
  let* word := Py.index (Py.split line2) 0 in
  let corr := String.eqb (Py.prefix 4 word) "LMAX" in
  let* line3 := Py.index content 3 in
  let* word1 := Py.index (Py.split line3) 1 in
  let* step_polar := PyFloat.of_string word1 in
  let* word2 := Py.index (Py.split line3) 2 in
  let* step_azimuthal := PyFloat.of_string word2 in
  Ok (corr, step_polar, step_azimuthal).

Definition frame_columns (corr : bool) : list string :=
  (["uncorr_head"; "uncorr_head_pos"]
   ++ if corr then ["corr_head"; "corr_head_pos"] else [])%list.

(** Lines 205 to 210, and 214 to 218 with [corr_data]: the three calls in
    a row, with the files written and the frame or the exception at the
    end. *)
Definition conversion_pass (infile : string) (n_pfs : Z) (content : list string)
    (step_polar step_azimuthal : float) (corr_data : bool)
    (pfs_df : DataFrame) : list file * result DataFrame :=
  match get_meta_data step_polar step_azimuthal n_pfs pfs_df content
          (PyFloat.format_f 2 step_polar) (PyFloat.format_f 2 step_azimuthal)
          corr_data with
  | Raise e => ([], Raise e)
  | Ok df =>
      match get_intensities content n_pfs df step_polar step_azimuthal 8
              corr_data with
      | Raise e => ([], Raise e)
      | Ok ints =>
          let '(fs, r) :=
            write_intensities_to_file ints df infile step_polar
              step_azimuthal corr_data in
          (fs, let* _ := r in Ok df)
      end
  end.

(** What a run leaves behind: what it printed, the files it wrote, and how
    it ended. *)
Record run : Set := {
  stdout : list string;
  files : list file;
  outcome : result unit
}.

(** The exit status of the interpreter: [sys.exit()] without an argument
    and a normal end give 0, an exception nobody caught gives 1. *)
Definition exit_status (o : result unit) : Z :=
  match o with
  | Ok _ => 0
  | Raise SystemExit => 0
  | Raise _ => 1
  end.

(** Whether the interpreter prints a stack trace at the end. *)
Definition traceback (o : result unit) : bool :=
  match o with
  | Ok _ => false
  | Raise SystemExit => false
  | Raise _ => true
  end.

(** The script from line 176 on, for the two command-line arguments, the
    second already an [int], and the lines of the input file. *)
Definition main (infile : string) (n_pfs : Z) (content : list string) : run :=
  if negb (Py.endswith infile ".RES") && negb (Py.endswith infile ".res") then
    {| stdout := [extension_message]; files := []; outcome := Raise SystemExit |}
  else
    match sniff content with
    | Raise e => {| stdout := []; files := []; outcome := Raise e |}
    | Ok (corr, step_polar, step_azimuthal) =>
        let pfs_df := new_frame (Py.slice_to planes n_pfs) (frame_columns corr) in
        let '(fs, r) :=
          conversion_pass infile n_pfs content step_polar step_azimuthal
            false pfs_df in
        match r with
        | Raise e => {| stdout := []; files := fs; outcome := Raise e |}
        | Ok df =>
            if corr then
              let '(fs', r') :=
                conversion_pass infile n_pfs content step_polar
                  step_azimuthal true df in
              {| stdout := []; files := (fs ++ fs')%list;
                 outcome := let* _ := r' in Ok tt |}
            else {| stdout := []; files := fs; outcome := Ok tt |}
        end
    end.


(** * The vocabulary of the properties *)

(** ** Frames *)

(** The cell of row [i] and column [j], if the frame has one. *)
Definition cell_at (df : DataFrame) (i j : nat) : option cell :=
  match values df !! i with
  | Some row => row !! j
  | None => None
  end.

(** Two frames with cells at the same places. *)
Definition same_shape (df df' : DataFrame) : Prop :=
  index df' = index df /\
  forall i j, is_Some (cell_at df' i j) <-> is_Some (cell_at df i j).

(** The text row [i] receives in [get_meta_data], when the two counts are
    defined. *)
Definition header_of (g_step_polar g_step_azimuthal : float)
    (step_polar_str step_azimuthal_str : string) (corr_data : bool)
    (plane : string) : result string :=
  let* n_azimuthal := samples 360 g_step_azimuthal in
  let* n_polar := samples (polar_max corr_data) g_step_polar in
  Ok (header plane step_azimuthal_str step_polar_str n_azimuthal n_polar).

(** The index of the last line of [content] that reads [h] once its
    trailing whitespace is removed. *)
Fixpoint last_match (h : string) (content : list string) : option nat :=
  match content with
  | [] => None
  | line :: rest =>
      match last_match h rest with
      | Some k => Some (S k)
      | None => if String.eqb (Py.rstrip line) h then Some O else None
      end
  end.

(** The index of the first such line. *)
Fixpoint first_match (h : string) (content : list string) : option nat :=
  match content with
  | [] => None
  | line :: rest =>
      if String.eqb (Py.rstrip line) h then Some O
      else option_map S (first_match h rest)
  end.

(** ** Blocks, rings and arrays *)

(** The tokens of the line at index [z], rounded: what the loop over [k]
    computes before it stores them. *)
Definition tokens_at (content : list string) (z : Z) : result (list float) :=
  let* line := Py.index content z in parse_line line.

(** The tokens of the [step] lines from index [j] on, line by line. *)
Definition block_tokens (content : list string) (j step : Z)
    : result (list (list float)) :=
  mapM (fun k => tokens_at content (j + Z.of_nat k)) (Py.range step).

(** A ring of [A] cells that holds the values [w] from the left, cut at
    [A], and zero after them. *)
Definition fill (A : nat) (w : list float) : list float :=
  (take A w ++ replicate (A - length w) zero)%list.

(** Whether a line of two values or more reaches past cell [A], the lines
    before it having [c] values. *)
Fixpoint wide_overflow (A c : nat) (ts : list (list float)) : bool :=
  match ts with
  | [] => false
  | t :: ts' =>
      ((2 <=? length t)%nat && (A <? c + length t)%nat)
      || wide_overflow A (c + length t) ts'
  end.

(** The array with ring [r] of pole figure [i] replaced. *)
Definition set_ring (arr : ndarray) (i r : nat) (row : list float) : ndarray :=
  match data arr !! i with
  | Some pf => {| shape := shape arr; data := <[i := <[r := row]> pf]> (data arr) |}
  | None => arr
  end.

(** The ring [r] of pole figure [i], if the array has one. *)
Definition ring_at (arr : ndarray) (i r : nat) : option (list float) :=
  match data arr !! i with
  | Some pf => pf !! r
  | None => None
  end.

(** The index of the first line of block [t] of pole figure [i], the
    header of pole figure [i] being at index [offsets i]. *)
Definition block_start (step : Z) (offsets : nat -> Z) (i t : nat) : Z :=
  offsets i + 1 + step * Z.of_nat t.

(** The frame of the script: its rows are the first [n_pfs] planes of the
    catalog, and it has no cell outside them. *)
Definition catalog_frame (n_pfs : Z) (df : DataFrame) : Prop :=
  0 <= n_pfs <= 6 /\ index df = Py.slice_to planes n_pfs /\
  forall i j, (length (index df) <= i)%nat -> cell_at df i j = None.

(** A float that is neither infinite nor a NaN. *)
Definition finite (x : float) : bool :=
  match Prim2SF x with
  | S754_zero _ | S754_finite _ _ _ => true
  | _ => false
  end.

(** A text that ends in a point and two decimal digits. *)
Definition two_decimals (s : string) : Prop :=
  exists sgn whole d1 d2,
    s = sgn +:+ whole +:+ "." +:+
        String (PyFloat.digit_char d1) (String (PyFloat.digit_char d2) EmptyString) /\
    0 <= d1 < 10 /\ 0 <= d2 < 10.

(** The lists of an array have the lengths its shape gives. *)
Definition well_shaped (arr : ndarray) : Prop :=
  length (data arr) = (shape arr).1.1 /\
  Forall (fun pf => length pf = (shape arr).1.2 /\
                    Forall (fun row => length row = (shape arr).2) pf)
         (data arr).

(** The same, for a given shape. *)
Definition shaped (sh : nat * nat * nat) (arr : ndarray) : Prop :=
  well_shaped arr /\ shape arr = sh.

(** ** Tables *)

(** The azimuthal angle of column [l]: [l] times [step_azimuthal] added
    to 0, one at a time. *)
Fixpoint azimuthal_angle (step_azimuthal : float) (l : nat) : float :=
  match l with
  | O => PyFloat.of_int 0
  | S l' => PrimFloat.add (azimuthal_angle step_azimuthal l') step_azimuthal
  end.

(** The integer parts of the angles of [n] columns from one on, the sum
    of which is [acc], are [k], [k + s], [k + 2 * s], ... for the whole
    number [s]. *)
Fixpoint whole_sums (s : Z) (acc : float) (k : Z) (n : nat) : bool :=
  match n with
  | O => true
  | S n' =>
      match PyFloat.to_int acc with Ok z => z =? k | Raise _ => false end
      && whole_sums s (PrimFloat.add acc (PyFloat.of_int s)) (k + s) n'
  end.

(** The same for all the columns of a ring under a step of [s] degrees. *)
Definition whole_step_check (s : Z) : bool :=
  match samples 360 (PyFloat.of_int s) with
  | Ok a => whole_sums s (PyFloat.of_int 0) 0 (Z.to_nat a)
  | Raise _ => true
  end.

(** The name of the table of a plane. *)
Definition outfile_name (infile plane : string) (corr_data : bool) : string :=
  Py.drop_last 4 infile +:+ "_pf" +:+ plane +:+ suffix corr_data.

(** Reading a table back, as a reader of three whitespace-separated
    fields does it. *)
Module Reader.

(** [int(s)] on a token: an optional sign and digits. *)
Definition read_int (s : string) : result Z :=
  let '(neg, s0) := PyFloat.parse_sign s in
  let '(v, n, rest) := PyFloat.digits s0 0 0 in
  if (n =? 0)%nat || negb (String.eqb rest "") then Raise ValueError
  else Ok (PyFloat.signed neg v).

(** A row read back: three fields between whitespace, the first two as
    [int], the third as the decimal its text denotes. *)
Definition read_row (line : string) : result (Z * Z * PyFloat.literal) :=
  match Py.split line with
  | [a; b; c] =>
      let* x := read_int a in
      let* y := read_int b in
      let* z := PyFloat.parse_literal c in
      Ok (x, y, z)
  | _ => Raise ValueError
  end.

End Reader.

(** The number a run of decimal digits denotes after [acc]. *)
Fixpoint uint_val (d : Decimal.uint) (acc : Z) : Z :=
  match d with
  | Decimal.Nil => acc
  | Decimal.D0 d => uint_val d (10 * acc + 0)
  | Decimal.D1 d => uint_val d (10 * acc + 1)
  | Decimal.D2 d => uint_val d (10 * acc + 2)
  | Decimal.D3 d => uint_val d (10 * acc + 3)
  | Decimal.D4 d => uint_val d (10 * acc + 4)
  | Decimal.D5 d => uint_val d (10 * acc + 5)
  | Decimal.D6 d => uint_val d (10 * acc + 6)
  | Decimal.D7 d => uint_val d (10 * acc + 7)
  | Decimal.D8 d => uint_val d (10 * acc + 8)
  | Decimal.D9 d => uint_val d (10 * acc + 9)
  end.

(** A text without whitespace. *)
Fixpoint no_space (s : string) : bool :=
  match s with
  | EmptyString => true
  | String c s' => negb (Py.isspace c) && no_space s'
  end.

(** The sign of a float. *)
Definition sign_of (v : float) : bool :=
  match Prim2SF v with
  | S754_zero s | S754_infinity s | S754_finite s _ _ => s
  | S754_nan => false
  end.

(** The magnitude of a finite float in thousandths, rounded to the
    nearest integer, ties to even. *)
Definition thousandths (v : float) : Z :=
  match Prim2SF v with
  | S754_finite _ m e => PyFloat.scaled 3 m e
  | _ => 0
  end.

(** [N] thousandths are within half a thousandth of the magnitude of
    [v], which is [m * 2^e]. *)
Definition half_thousandth_close (N : Z) (v : float) : Prop :=
  match Prim2SF v with
  | S754_finite _ m e =>
      if 0 <=? e then N = Z.pos m * 2 ^ e * 1000
      else 2 * Z.abs (N * 2 ^ (- e) - Z.pos m * 1000) <= 2 ^ (- e)
  | S754_zero _ => N = 0
  | _ => True
  end.

(** ** Counts and blank texts *)

(** The three counts of a pass are defined and [np.zeros] makes its
    array for [n_pfs] pole figures. *)
Definition array_made (n_pfs : Z) (step_polar step_azimuthal : float)
    (corr_data : bool) : Prop :=
  exists si np na arr0,
    samples (8 * polar_max corr_data) step_polar = Ok si /\
    samples (polar_max corr_data) step_polar = Ok np /\
    samples 360 step_azimuthal = Ok na /\
    zeros n_pfs np na = Ok arr0.

(** The number of blocks the loop over [j] visits:
    [len(range(start, start + stop_increment, 8))]. *)
Definition block_count (stop_increment : Z) : nat :=
  Z.to_nat ((stop_increment + 8 - 1) / 8).

(** A text of whitespace only. *)
Fixpoint all_space (s : string) : bool :=
  match s with
  | EmptyString => true
  | String c s' => Py.isspace c && all_space s'
  end.

(** * Sample files, frames and arrays *)

Module Sample.

Definition line (s : string) : string := s +:+ newline.

(** The four lines before the pole figures: the third starts with the
    correction marker or not, the fourth carries the two steps. *)
Definition preamble (third : string) : list string :=
  [line "TexEval RES"; line "sample"; line third; line "STEP 10.00 90.00"].

(** Eight lines with four values. *)
Definition block : list string :=
  [line " 12.5 30.25"; line " 7.125 0.5"; line ""; line ""; line "";
   line ""; line ""; line ""].

Definition head_111_uncorr : string :=
  line " 111       90.00   4    0 10.00   8    0".

(** One pole figure, no correction marker. *)
Definition uncorrected : list string :=
  (preamble "HKL 111" ++ [head_111_uncorr] ++ concat (replicate 8 block))%list.

(** One pole figure, the correction marker set, and no header of
    corrected intensities. *)
Definition marker_only : list string :=
  (preamble "LMAX 4" ++ [head_111_uncorr] ++ concat (replicate 8 block))%list.

(** The header of the uncorrected intensities twice. *)
Definition repeated : list string :=
  (preamble "HKL 111" ++ [head_111_uncorr] ++ concat (replicate 8 block)
   ++ [head_111_uncorr] ++ concat (replicate 8 block))%list.

(** No header at all. *)
Definition headless : list string :=
  (preamble "HKL 111" ++ concat (replicate 8 block))%list.

(** One pole figure with both steps 5: 16 blocks of 8 lines with 9 values
    each. *)
Definition five_degrees : list string :=
  ([line "TexEval RES"; line "sample"; line "HKL 111"; line "STEP 5.00 5.00";
    line " 111       5.00   72    0 5.00   16    0"]
   ++ concat (replicate 16 (replicate 8
        (line "  101.  102.5  97.25  88.  120.125  99.  100.  101.  95.5"))))%list.

End Sample.

Module Located.

(** The frame after the search in [Sample.uncorrected]. *)
Definition uncorrected : DataFrame :=
  {| index := ["111"]; columns := frame_columns false;
     values := [[Str " 111       90.00   4    0 10.00   8    0"; Int 4]] |}.

End Located.

Module Broken.

Import Sample.

(** The first block one value short. *)
Definition short_block : list string :=
  [line " 12.5 30.25"; line " 7.125"; line ""; line ""; line "";
   line ""; line ""; line ""].

(** The first block with a fifth value on a line of its own. *)
Definition single_block : list string :=
  [line " 12.5 30.25"; line " 7.125 0.5"; line " 99.0"; line ""; line "";
   line ""; line ""; line ""].

(** The first block with a fifth value at the end of its second line. *)
Definition wide_block : list string :=
  [line " 12.5 30.25"; line " 7.125 0.5 99.0"; line ""; line ""; line "";
   line ""; line ""; line ""].

Definition with_first_block (b : list string) : list string :=
  (preamble "HKL 111" ++ [head_111_uncorr] ++ b ++ concat (replicate 7 block))%list.

Definition short : list string := with_first_block short_block.
Definition single : list string := with_first_block single_block.
Definition wide : list string := with_first_block wide_block.

(** An array of one pole figure, 8 rings and 4 cells, all zero. *)
Definition blank : ndarray :=
  {| shape := (1, 8, 4)%nat;
     data := replicate 1 (replicate 8 (replicate 4 zero)) |}.

End Broken.

Module Uneven.

Import Sample.

(** A polar step of 3 degrees: [int(80 / 3.0)] is 26, and the header says
    so. The file has 27 blocks after the header. *)
Definition step_three : list string :=
  ([line "TexEval RES"; line "sample"; line "HKL 111"; line "STEP 3.00 90.00";
    line " 111       90.00   4    0 3.00   26    0"]
   ++ concat (replicate 27 block))%list.

End Uneven.

Module Grid.

(** One pole figure of two rings and two cells. *)
Definition small : ndarray :=
  {| shape := (1, 2, 2)%nat;
     data := [[[0.25%float; 1.0625%float]; [12.5%float; 0.5%float]]] |}.

End Grid.

Module Fractional.

Import Sample.

(** An azimuthal step of 2.5 degrees: 8 rings of 144 columns, of which
    the blocks give the first four. *)
Definition azimuthal : list string :=
  ([line "TexEval RES"; line "sample"; line "HKL 111"; line "STEP 10.00 2.50";
    line " 111       2.50   144    0 10.00   8    0"]
   ++ concat (replicate 8 block))%list.

End Fractional.

(** * Properties *)

(** ** Loops that may raise *)

Lemma bind_Ok {A B} (r : result A) (k : A -> result B) (b : B) :
  bind r k = Ok b -> exists a, r = Ok a /\ k a = Ok b.
Proof. destruct r as [a|e]; simpl; [eauto | discriminate]. Qed.

Lemma foldM_app {A S} (f : S -> A -> result S) (xs ys : list A) (s : S) :
  foldM f (xs ++ ys) s = bind (foldM f xs s) (foldM f ys).
Proof.
  revert s. induction xs as [|x xs IH]; intros s; simpl; [reflexivity|].
  destruct (f s x) as [s'|e]; simpl; [apply IH | reflexivity].
Qed.

Lemma foldM_snoc {A S} (f : S -> A -> result S) (xs : list A) (x : A) (s : S) :
  foldM f (xs ++ [x]) s = bind (foldM f xs s) (fun s' => f s' x).
Proof.
  rewrite foldM_app. destruct (foldM f xs s) as [s'|e]; simpl; [|reflexivity].
  destruct (f s' x); reflexivity.
Qed.

(** A loop that raises in the middle raises as a whole. *)
Lemma foldM_raise_in {A S} (f : S -> A -> result S) (xs ys : list A) (x : A)
    (s : S) :
  (forall s', is_ok (f s' x) = false) ->
  is_ok (foldM f (xs ++ x :: ys) s) = false.
Proof.
  intros Hx. rewrite foldM_app.
  destruct (foldM f xs s) as [s'|e]; simpl; [|reflexivity].
  specialize (Hx s'). destruct (f s' x); [discriminate | reflexivity].
Qed.

(** ** Cells of the frame *)

Lemma iloc_cell_at df i j :
  iloc df i j = match cell_at df i j with
                | Some c => Ok c
                | None => Raise IndexError
                end.
Proof. unfold iloc, cell_at. destruct (values df !! i); reflexivity. Qed.

Lemma iloc_Ok df i j c : iloc df i j = Ok c <-> cell_at df i j = Some c.
Proof.
  rewrite iloc_cell_at. destruct (cell_at df i j); split; congruence.
Qed.

Lemma iloc_set_Ok df i j c df' :
  iloc_set df i j c = Ok df' ->
  index df' = index df /\ columns df' = columns df /\
  forall i' j', cell_at df' i' j' =
                if decide (i' = i /\ j' = j) then Some c else cell_at df i' j'.
Proof.
  unfold iloc_set. destruct (values df !! i) as [row|] eqn:Hrow; [|discriminate].
  destruct (decide (j < length row)%nat) as [Hj|Hj]; [|discriminate].
  intros [= <-]. simpl. split; [reflexivity|]. split; [reflexivity|].
  intros i' j'. unfold cell_at. simpl.
  destruct (decide (i' = i)) as [->|Hi].
  - rewrite list_lookup_insert_eq by (eapply lookup_lt_Some; eassumption).
    rewrite Hrow. destruct (decide (j' = j)) as [->|Hj'].
    + rewrite list_lookup_insert_eq by assumption.
      destruct (decide (i = i /\ j = j)) as [_|[]]; tauto.
    + rewrite list_lookup_insert_ne by congruence.
      destruct (decide (i = i /\ j' = j)) as [[_ ?]|_]; [contradiction|reflexivity].
  - rewrite list_lookup_insert_ne by congruence.
    destruct (decide (i' = i /\ j' = j)) as [[? _]|_]; [contradiction|reflexivity].
Qed.

Lemma iloc_set_total df i j c c0 :
  cell_at df i j = Some c0 -> exists df', iloc_set df i j c = Ok df'.
Proof.
  unfold cell_at, iloc_set. destruct (values df !! i) as [row|]; [|discriminate].
  intros Hj. apply lookup_lt_Some in Hj.
  destruct (decide (j < length row)%nat); [eauto | contradiction].
Qed.

Lemma iloc_set_IndexError df i j c :
  cell_at df i j = None -> iloc_set df i j c = Raise IndexError.
Proof.
  unfold cell_at, iloc_set. destruct (values df !! i) as [row|]; [|reflexivity].
  intros Hj. apply lookup_ge_None in Hj.
  destruct (decide (j < length row)%nat); [lia | reflexivity].
Qed.

Lemma cell_at_new_frame idx cols i j :
  (i < length idx)%nat -> (j < length cols)%nat ->
  cell_at (new_frame idx cols) i j = Some NaN.
Proof.
  intros Hi Hj. unfold cell_at, new_frame. simpl.
  rewrite lookup_replicate_2 by assumption.
  apply lookup_replicate_2. assumption.
Qed.

Lemma cell_at_new_frame_None idx cols i j :
  (length idx <= i)%nat \/ (length cols <= j)%nat ->
  cell_at (new_frame idx cols) i j = None.
Proof.
  intros H. unfold cell_at, new_frame. simpl.
  destruct (replicate _ _ !! i) as [row|] eqn:Hrow; [|reflexivity].
  apply lookup_replicate in Hrow as [-> Hi].
  apply lookup_replicate_None. lia.
Qed.

Lemma iloc_name_Ok df i s : iloc_name df i = Ok s <-> index df !! i = Some s.
Proof. unfold iloc_name. destruct (index df !! i); split; congruence. Qed.

Lemma iloc_set_defined df i j c df' :
  iloc_set df i j c = Ok df' -> is_Some (cell_at df i j).
Proof.
  intros H. destruct (cell_at df i j) eqn:E; [eauto|].
  rewrite (iloc_set_IndexError _ _ _ _ E) in H. discriminate.
Qed.

Lemma same_shape_refl df : same_shape df df.
Proof. split; [reflexivity | tauto]. Qed.

Lemma same_shape_trans df1 df2 df3 :
  same_shape df1 df2 -> same_shape df2 df3 -> same_shape df1 df3.
Proof.
  intros [H1 H2] [H3 H4]. split; [congruence|].
  intros i j. rewrite H4. apply H2.
Qed.

Lemma iloc_set_same_shape df i j c df' :
  iloc_set df i j c = Ok df' -> same_shape df df'.
Proof.
  intros H. pose proof (iloc_set_defined _ _ _ _ _ H) as Hd.
  apply iloc_set_Ok in H as (Hi & _ & Hc). split; [assumption|].
  intros i' j'. rewrite Hc.
  destruct (decide (i' = i /\ j' = j)) as [[-> ->]|_]; [|tauto].
  split; eauto.
Qed.

(** ** The first loop of [get_meta_data]: the header texts *)

Section Headers.

Variables (g_step_polar g_step_azimuthal : float).
Variables (step_polar_str step_azimuthal_str : string).
Variable corr_data : bool.

Let pos := head_pos corr_data.
Let body := set_header g_step_polar g_step_azimuthal step_polar_str
              step_azimuthal_str corr_data.
Let signature_of := header_of g_step_polar g_step_azimuthal step_polar_str
                      step_azimuthal_str corr_data.

Lemma set_header_Ok df i df' :
  body df i = Ok df' ->
  exists plane h,
    index df !! i = Some plane /\ signature_of plane = Ok h /\
    iloc_set df i pos (Str h) = Ok df'.
Proof.
  unfold body, set_header, signature_of, header_of. intros H.
  apply bind_Ok in H as (plane & Hp & H). apply iloc_name_Ok in Hp.
  apply bind_Ok in H as (na & Hna & H).
  apply bind_Ok in H as (np & Hnp & H).
  exists plane, (header plane step_azimuthal_str step_polar_str na np).
  rewrite Hna, Hnp. simpl. auto.
Qed.

Lemma set_headers_Ok n df df' :
  foldM body (seq 0 n) df = Ok df' ->
  same_shape df df' /\
  (forall i, (i < n)%nat ->
     exists plane h, index df !! i = Some plane /\ signature_of plane = Ok h /\
                     cell_at df' i pos = Some (Str h)) /\
  (forall i j, ~ ((i < n)%nat /\ j = pos) -> cell_at df' i j = cell_at df i j).
Proof.
  revert df'. induction n as [|n IH]; intros df'.
  - simpl. intros [= <-]. split; [apply same_shape_refl|].
    split; [intros i Hi; lia | reflexivity].
  - rewrite seq_S, foldM_snoc. simpl. intros H.
    apply bind_Ok in H as (df1 & H1 & H).
    destruct (IH _ H1) as (Hs & Hh & Ho).
    apply set_header_Ok in H as (plane & h & Hp & Hh' & Hset).
    pose proof (iloc_set_same_shape _ _ _ _ _ Hset) as Hs'.
    apply iloc_set_Ok in Hset as (_ & _ & Hc).
    split; [eapply same_shape_trans; eassumption|]. split.
    + intros i Hi. rewrite Hc.
      destruct (decide (i = n /\ pos = pos)) as [[-> _]|Hne].
      * exists plane, h. destruct Hs as [Hidx _]. rewrite <- Hidx. auto.
      * apply Hh. lia.
    + intros i j Hij. rewrite Hc.
      destruct (decide (i = n /\ j = pos)) as [[-> ->]|_]; [lia|].
      apply Ho. lia.
Qed.

Lemma set_headers_total n df :
  (n <= length (index df))%nat ->
  (forall i, (i < n)%nat -> is_Some (cell_at df i pos)) ->
  forall na np,
  samples 360 g_step_azimuthal = Ok na ->
  samples (polar_max corr_data) g_step_polar = Ok np ->
  exists df', foldM body (seq 0 n) df = Ok df'.
Proof.
  intros Hn Hc na np Hna Hnp. induction n as [|n IH]; [simpl; eauto|].
  destruct IH as (df1 & H1); [lia | intros; apply Hc; lia |].
  rewrite seq_S, foldM_snoc, H1. simpl.
  destruct (set_headers_Ok _ _ _ H1) as ([Hidx Hsh] & _ & _).
  unfold body, set_header.
  destruct (lookup_lt_is_Some_2 (index df) n) as [plane Hp]; [lia|].
  unfold iloc_name. rewrite Hidx, Hp, Hna, Hnp. simpl.
  destruct (proj2 (Hsh n pos) (Hc n ltac:(lia))) as [c0 Hc0].
  eapply iloc_set_total. eassumption.
Qed.

End Headers.

(** ** The second loop of [get_meta_data]: the search *)

Lemma cell_is_true c s : cell_is c s = true <-> c = Str s.
Proof.
  destruct c as [|t|n]; simpl; try (split; [discriminate | discriminate]).
  rewrite String.eqb_eq. split; congruence.
Qed.

Lemma match_line_frame pos s lc rows df df' :
  match_line pos s lc rows df = Ok df' ->
  same_shape df df' /\
  forall i j, j <> (pos + 1)%nat \/ cell_at df i pos <> Some (Str s) ->
              cell_at df' i j = cell_at df i j.
Proof.
  revert df'. induction rows as [|i0 rows IH]; intros df'; simpl.
  - intros [= <-]. split; [apply same_shape_refl | reflexivity].
  - intros H. apply bind_Ok in H as (c & Hc & H). apply iloc_Ok in Hc.
    destruct (cell_is c s) eqn:Hcs; [|apply IH; assumption].
    apply cell_is_true in Hcs as ->.
    split; [eapply iloc_set_same_shape; eassumption|].
    apply iloc_set_Ok in H as (_ & _ & Hset).
    intros i j Hij. rewrite Hset.
    destruct (decide (i = i0 /\ j = (pos + 1)%nat)) as [[-> ->]|_]; [|reflexivity].
    destruct Hij as [Hj|Hi]; [contradiction | congruence].
Qed.

Lemma match_line_hit pos s lc rows df df' i :
  match_line pos s lc rows df = Ok df' ->
  i ∈ rows ->
  cell_at df i pos = Some (Str s) ->
  (forall i', i' <> i -> cell_at df i' pos <> Some (Str s)) ->
  cell_at df' i (pos + 1) = Some (Int (lc - 1)).
Proof.
  revert df'. induction rows as [|i0 rows IH]; intros df' H Hin Hi Huniq.
  - apply elem_of_nil in Hin. contradiction.
  - simpl in H. apply bind_Ok in H as (c & Hc & H). apply iloc_Ok in Hc.
    destruct (cell_is c s) eqn:Hcs.
    + apply cell_is_true in Hcs as ->.
      destruct (decide (i0 = i)) as [->|Hne]; [|exfalso; eapply Huniq; eassumption].
      apply iloc_set_Ok in H as (_ & _ & Hset). rewrite Hset.
      destruct (decide (i = i /\ (pos + 1)%nat = (pos + 1)%nat)); tauto.
    + apply elem_of_cons in Hin as [->|Hin].
      * rewrite Hi in Hc. injection Hc as <-. simpl in Hcs.
        rewrite String.eqb_refl in Hcs. discriminate.
      * apply IH; assumption.
Qed.

Lemma match_line_total pos s lc rows df :
  (forall i, i ∈ rows ->
     is_Some (cell_at df i pos) /\ is_Some (cell_at df i (pos + 1))) ->
  exists df', match_line pos s lc rows df = Ok df'.
Proof.
  induction rows as [|i0 rows IH]; intros Hc; simpl; [eauto|].
  destruct (Hc i0) as [[c Hc0] [c1 Hc1]]; [left|].
  rewrite (proj2 (iloc_Ok _ _ _ _) Hc0). simpl.
  destruct (cell_is c s).
  - eapply iloc_set_total. eassumption.
  - apply IH. intros i Hi. apply Hc. right. assumption.
Qed.

Lemma range_of_nat n : Py.range (Z.of_nat n) = seq 0 n.
Proof. unfold Py.range. rewrite Nat2Z.id. reflexivity. Qed.

Lemma scan_frame pos content lc df df' :
  scan pos content lc df = Ok df' ->
  same_shape df df' /\
  forall i j, j <> (pos + 1)%nat -> cell_at df' i j = cell_at df i j.
Proof.
  revert lc df. induction content as [|line rest IH]; intros lc df; simpl.
  - intros [= <-]. split; [apply same_shape_refl | reflexivity].
  - intros H. apply bind_Ok in H as (df1 & H1 & H).
    apply match_line_frame in H1 as [Hs1 Hf1].
    apply IH in H as [Hs Hf].
    split; [eapply same_shape_trans; eassumption|].
    intros i j Hj. rewrite Hf by assumption. apply Hf1. left. assumption.
Qed.

(** The line number a row ends with: the search writes it at every line
    that matches, so the last one stays. *)
Lemma scan_row pos content lc df df' i h :
  scan pos content lc df = Ok df' ->
  (i < length (index df))%nat ->
  cell_at df i pos = Some (Str h) ->
  (forall i', i' <> i -> cell_at df i' pos <> Some (Str h)) ->
  cell_at df' i (pos + 1) =
    match last_match h content with
    | Some k => Some (Int (lc + Z.of_nat k))
    | None => cell_at df i (pos + 1)
    end.
Proof.
  revert lc df. induction content as [|line rest IH]; intros lc df; simpl.
  - intros [= <-] _ _ _. reflexivity.
  - intros H Hi Hh Huniq. apply bind_Ok in H as (df1 & H1 & H).
    pose proof (match_line_frame _ _ _ _ _ _ H1) as [[Hidx Hs1] Hf1].
    assert (Hcol : forall i', cell_at df1 i' pos = cell_at df i' pos).
    { intros i'. apply Hf1. left. lia. }
    rewrite (IH _ _ H); try rewrite Hidx; try assumption;
      [| rewrite Hcol; assumption
       | intros i' Hi'; rewrite Hcol; apply Huniq; assumption].
    destruct (last_match h rest) as [k|].
    + f_equal. f_equal. lia.
    + destruct (String.eqb (Py.rstrip line) h) eqn:E.
      * apply String.eqb_eq in E. subst h.
        rewrite (match_line_hit _ _ _ _ _ _ i H1); try assumption.
        -- f_equal. f_equal. lia.
        -- rewrite range_of_nat. apply elem_of_seq. lia.
      * apply Hf1. right. rewrite Hh. intros [= ->].
        rewrite String.eqb_refl in E. discriminate.
Qed.

Lemma scan_total pos content lc df :
  (forall i, (i < length (index df))%nat ->
     is_Some (cell_at df i pos) /\ is_Some (cell_at df i (pos + 1))) ->
  exists df', scan pos content lc df = Ok df'.
Proof.
  revert lc df. induction content as [|line rest IH]; intros lc df Hc; simpl;
    [eauto|].
  destruct (match_line_total pos (Py.rstrip line) (lc + 1)
              (Py.range (Z.of_nat (length (index df)))) df) as [df1 H1].
  { intros i Hi. rewrite range_of_nat in Hi. apply elem_of_seq in Hi.
    apply Hc. lia. }
  rewrite H1. simpl. apply IH.
  apply match_line_frame in H1 as [[Hidx Hs] _].
  intros i Hi. rewrite !Hs. apply Hc. rewrite <- Hidx. assumption.
Qed.

(** ** One ring of [get_intensities] *)

Lemma fill_length A w : length (fill A w) = A.
Proof. unfold fill. rewrite length_app, length_take, length_replicate. lia. Qed.

Lemma fill_nil A : fill A [] = replicate A zero.
Proof. unfold fill. rewrite take_nil. simpl. f_equal. lia. Qed.

Lemma fill_exact A w : length w = A -> fill A w = w.
Proof.
  intros <-. unfold fill. rewrite take_ge by lia.
  rewrite Nat.sub_diag. simpl. apply app_nil_r.
Qed.

Lemma fill_short A w :
  (length w <= A)%nat -> fill A w = (w ++ replicate (A - length w) zero)%list.
Proof. intros H. unfold fill. rewrite take_ge by lia. reflexivity. Qed.

Lemma assign_slice_fill A w t :
  assign_slice (fill A w) (length w) t =
    if (length w + length t <=? A)%nat then Ok (fill A (w ++ t))
    else if (length t <=? 1)%nat then Ok (fill A w)
    else Raise ValueError.
Proof.
  unfold assign_slice. rewrite fill_length.
  destruct (Nat.leb_spec (length w + length t) A) as [Hfit|Hover].
  - rewrite !Nat.min_l by lia.
    destruct (decide (length w + length t - length w = length t)%nat); [|lia].
    f_equal. unfold fill. rewrite length_app.
    rewrite (take_ge w), (take_ge (w ++ t)) by (rewrite ?length_app; lia).
    rewrite take_app_length, drop_app_add, drop_replicate.
    rewrite <- app_assoc. do 3 f_equal. lia.
  - rewrite (Nat.min_r (length w + length t)) by lia.
    destruct (decide (A - length w `min` A = length t)%nat) as [E|E].
    + assert (Ht : length t = O) by lia. destruct t; [|discriminate].
      simpl in *. rewrite Nat.min_r, take_drop by lia. reflexivity.
    + destruct (decide (length t = 1)%nat) as [E1|E1].
      * rewrite E1. reflexivity.
      * destruct (Nat.leb_spec (length t) 1); [|reflexivity].
        assert (length t = O) by lia. exfalso. apply E. lia.
Qed.

Lemma fill_dropped A w t :
  (A < length w + length t)%nat -> (length t <= 1)%nat ->
  fill A (w ++ t) = fill A w.
Proof.
  intros Hover Ht. unfold fill. rewrite length_app.
  rewrite take_app_le by lia.
  replace (A - (length w + length t))%nat with O by lia.
  replace (A - length w)%nat with O by lia. reflexivity.
Qed.

Lemma assign_slice_fill' A w t :
  assign_slice (fill A w) (length w) t =
    if (2 <=? length t)%nat && (A <? length w + length t)%nat
    then Raise ValueError else Ok (fill A (w ++ t)).
Proof.
  rewrite assign_slice_fill.
  destruct (Nat.leb_spec (length w + length t) A) as [Hfit|Hover].
  - replace (A <? length w + length t)%nat with false
      by (symmetry; apply Nat.ltb_ge; lia).
    rewrite andb_false_r. reflexivity.
  - replace (A <? length w + length t)%nat with true
      by (symmetry; apply Nat.ltb_lt; lia).
    rewrite andb_true_r.
    destruct (Nat.leb_spec (length t) 1) as [Ht|Ht].
    + replace (2 <=? length t)%nat with false
        by (symmetry; apply Nat.leb_gt; lia).
      rewrite fill_dropped by assumption. reflexivity.
    + replace (2 <=? length t)%nat with true
        by (symmetry; apply Nat.leb_le; lia).
      reflexivity.
Qed.

Lemma assign_slice_length row lo ints row' :
  assign_slice row lo ints = Ok row' -> length row' = length row.
Proof.
  unfold assign_slice.
  destruct (decide _) as [E|E].
  - intros [= <-]. rewrite !length_app, length_take, length_drop. lia.
  - destruct (decide _); [|discriminate]. intros [= <-]. reflexivity.
Qed.

Lemma ring_at_set_ring arr i r row row0 i' r' :
  ring_at arr i r = Some row0 ->
  ring_at (set_ring arr i r row) i' r' =
    if decide (i' = i /\ r' = r) then Some row else ring_at arr i' r'.
Proof.
  unfold ring_at, set_ring.
  destruct (data arr !! i) as [pf|] eqn:Hpf; [|discriminate].
  intros Hr. simpl. pose proof (lookup_lt_Some _ _ _ Hpf).
  pose proof (lookup_lt_Some _ _ _ Hr).
  destruct (decide (i' = i)) as [->|Hi].
  - rewrite list_lookup_insert_eq by assumption.
    destruct (decide (r' = r)) as [->|Hr'].
    + rewrite list_lookup_insert_eq by assumption.
      destruct (decide (i = i /\ r = r)); tauto.
    + rewrite list_lookup_insert_ne by congruence. rewrite Hpf.
      destruct (decide (i = i /\ r' = r)) as [[_ ?]|_]; [contradiction|reflexivity].
  - rewrite list_lookup_insert_ne by congruence.
    destruct (decide (i' = i /\ r' = r)) as [[? _]|_]; [contradiction|reflexivity].
Qed.

Lemma shape_set_ring arr i r row : shape (set_ring arr i r row) = shape arr.
Proof. unfold set_ring. destruct (data arr !! i); reflexivity. Qed.

Lemma set_ring_twice arr i r row1 row2 :
  set_ring (set_ring arr i r row1) i r row2 = set_ring arr i r row2.
Proof.
  unfold set_ring. destruct (data arr !! i) as [pf|] eqn:Hpf; simpl.
  - rewrite list_lookup_insert_eq by (eapply lookup_lt_Some; eassumption).
    rewrite !list_insert_insert_eq. reflexivity.
  - rewrite Hpf. reflexivity.
Qed.

Lemma set_ring_same arr i r row :
  ring_at arr i r = Some row -> set_ring arr i r row = arr.
Proof.
  unfold ring_at, set_ring. destruct (data arr !! i) as [pf|] eqn:Hpf; [|discriminate].
  intros Hr. rewrite (list_insert_id pf) by assumption.
  rewrite list_insert_id by assumption. destruct arr; reflexivity.
Qed.

Lemma setitem_ring_at arr i r lo ints :
  setitem arr i r lo ints =
    match ring_at arr i r with
    | None => Raise IndexError
    | Some row =>
        let* row' := assign_slice row lo ints in Ok (set_ring arr i r row')
    end.
Proof.
  unfold setitem, ring_at, set_ring.
  destruct (data arr !! i) as [pf|]; [|reflexivity].
  destruct (pf !! r); reflexivity.
Qed.

Lemma mapM_Forall2 {A B} (f : A -> result B) (xs : list A) (ys : list B) :
  mapM f xs = Ok ys -> Forall2 (fun x y => f x = Ok y) xs ys.
Proof.
  revert ys. induction xs as [|x xs IH]; intros ys; simpl.
  - intros [= <-]. constructor.
  - destruct (f x) as [y|e] eqn:Hy; simpl; [|discriminate].
    destruct (mapM f xs) as [ys'|e]; simpl; [|discriminate].
    intros [= <-]. constructor; [assumption | apply IH; reflexivity].
Qed.

Section Ring.

Variable content : list string.
Variables (i r : nat) (j : Z) (A : nat).

(** The loop over [k], from any line on: [w] holds what the lines before
    have brought. *)
Lemma read_lines_fill ks ts : forall arr w,
  Forall2 (fun k t => tokens_at content (j + Z.of_nat k) = Ok t) ks ts ->
  ring_at arr i r = Some (fill A w) ->
  foldM (read_line content i r j) ks (arr, length w) =
    if wide_overflow A (length w) ts then Raise ValueError
    else Ok (set_ring arr i r (fill A (w ++ concat ts)),
             length (w ++ concat ts)).
Proof.
  intros arr w H. revert arr w.
  induction H as [|k t ks ts Hk _ IH]; intros arr w Hring;
    cbn [foldM wide_overflow concat].
  - rewrite app_nil_r. rewrite set_ring_same by assumption. reflexivity.
  - unfold tokens_at in Hk. apply bind_Ok in Hk as (line & Hline & Hparse).
    unfold read_line at 1. rewrite Hline. cbn [bind]. rewrite Hparse.
    cbn [bind]. rewrite setitem_ring_at, Hring, assign_slice_fill'.
    destruct ((2 <=? length t)%nat && (A <? length w + length t)%nat);
      cbn [bind orb]; [reflexivity|].
    rewrite <- length_app.
    rewrite IH.
    + rewrite set_ring_twice, <- app_assoc. reflexivity.
    + erewrite ring_at_set_ring by eassumption.
      destruct (decide (i = i /\ r = r)); tauto.
Qed.

(** One block: the ring is zero before, and afterwards holds the tokens
    of the block from the left, unless a line of two tokens or more reaches
    past the end of the ring. *)
Lemma read_block_fill step arr ts :
  ring_at arr i r = Some (replicate A zero) ->
  block_tokens content j step = Ok ts ->
  read_block content step i (arr, r) j =
    if wide_overflow A 0 ts then Raise ValueError
    else Ok (set_ring arr i r (fill A (concat ts)), S r).
Proof.
  intros Hring Hts. unfold read_block.
  apply mapM_Forall2 in Hts. rewrite <- fill_nil in Hring.
  change 0%nat with (length (@nil float)).
  rewrite (read_lines_fill _ _ arr [] Hts Hring).
  destruct (wide_overflow A (length (@nil float)) ts); reflexivity.
Qed.

End Ring.

(** ** The loops over the blocks and over the pole figures *)

Lemma range3_blocks start step n :
  0 < step ->
  Py.range3 start (start + step * Z.of_nat n) step =
    map (fun t => start + step * Z.of_nat t) (seq 0 n).
Proof.
  intros Hstep. unfold Py.range3. do 2 f_equal.
  replace (start + step * Z.of_nat n - start + step - 1)
    with (Z.of_nat n * step + (step - 1)) by lia.
  rewrite Z.div_add_l by lia. rewrite Z.div_small by lia. lia.
Qed.

(** [np.zeros] returns for dimensions that are not negative and a size in
    bytes that fits an [intp], and only for them; what it raises is a
    [ValueError]. *)
Lemma zeros_Ok n0 n1 n2 arr :
  zeros n0 n1 n2 = Ok arr ->
  0 <= n0 /\ 0 <= n1 /\ 0 <= n2 /\ nbytes n0 n1 n2 <= intp_max /\
  arr = {| shape := (Z.to_nat n0, Z.to_nat n1, Z.to_nat n2);
           data := replicate (Z.to_nat n0)
                     (replicate (Z.to_nat n1) (replicate (Z.to_nat n2) zero)) |}.
Proof.
  unfold zeros. destruct (negb _); [discriminate|].
  destruct (n0 <? 0) eqn:E0; [discriminate|].
  destruct (n1 <? 0) eqn:E1; [discriminate|].
  destruct (n2 <? 0) eqn:E2; [discriminate|]. cbn [orb].
  destruct (intp_max <? nbytes n0 n1 n2) eqn:E; [discriminate|].
  intros [= <-]. apply Z.ltb_ge in E0, E1, E2, E. auto.
Qed.

Lemma nbytes_bounds n0 n1 n2 :
  0 <= n0 -> 0 <= n1 -> 0 <= n2 ->
  n0 <= nbytes n0 n1 n2 /\ n1 <= nbytes n0 n1 n2 /\ n2 <= nbytes n0 n1 n2.
Proof.
  intros H0 H1 H2. unfold nbytes. cbv zeta.
  assert (Hm : forall a b c, 1 <= a -> 1 <= b -> 1 <= c ->
                 a <= 8 * a * b * c /\ b <= 8 * a * b * c /\ c <= 8 * a * b * c).
  { intros a b c Ha Hb Hc.
    assert (1 <= a * b) by nia. assert (1 <= b * c) by nia.
    assert (1 <= a * c) by nia. repeat split; nia. }
  destruct (Z.eqb_spec n0 0), (Z.eqb_spec n1 0), (Z.eqb_spec n2 0);
    match goal with
    | |- _ <= 8 * ?a * ?b * ?c /\ _ =>
        destruct (Hm a b c) as (? & ? & ?); lia
    end.
Qed.

Lemma zeros_fits n0 n1 n2 :
  0 <= n0 -> 0 <= n1 -> 0 <= n2 -> nbytes n0 n1 n2 <= intp_max ->
  zeros n0 n1 n2 =
    Ok {| shape := (Z.to_nat n0, Z.to_nat n1, Z.to_nat n2);
          data := replicate (Z.to_nat n0)
                    (replicate (Z.to_nat n1) (replicate (Z.to_nat n2) zero)) |}.
Proof.
  intros H0 H1 H2 Hb. destruct (nbytes_bounds n0 n1 n2) as (B0 & B1 & B2);
    try assumption.
  unfold zeros, fits_intp.
  assert (Hmax : 0 <= intp_max) by (unfold intp_max; lia).
  repeat match goal with
         | |- context [?a <=? ?b] =>
             replace (a <=? b) with true by (symmetry; apply Z.leb_le; lia)
         end.
  cbn [andb negb].
  replace (n0 <? 0) with false by (symmetry; apply Z.ltb_ge; lia).
  replace (n1 <? 0) with false by (symmetry; apply Z.ltb_ge; lia).
  replace (n2 <? 0) with false by (symmetry; apply Z.ltb_ge; lia).
  replace (intp_max <? nbytes n0 n1 n2) with false
    by (symmetry; apply Z.ltb_ge; lia).
  reflexivity.
Qed.

Lemma zeros_Raise n0 n1 n2 e : zeros n0 n1 n2 = Raise e -> e = ValueError.
Proof.
  unfold zeros. destruct (negb _); [intros [= <-]; reflexivity|].
  destruct (_ || _); [intros [= <-]; reflexivity|].
  destruct (_ <? _); [intros [= <-]; reflexivity | discriminate].
Qed.

Lemma zeros_negative n0 n1 n2 :
  n0 < 0 \/ n1 < 0 \/ n2 < 0 -> zeros n0 n1 n2 = Raise ValueError.
Proof.
  intros H. destruct (zeros n0 n1 n2) as [arr|e] eqn:Hz.
  - apply zeros_Ok in Hz. lia.
  - apply zeros_Raise in Hz. congruence.
Qed.

(** An array that [np.zeros] made has pole figures that pass the size
    check of [np.zeros([n1, n2])]. *)
Lemma zeros_not_too_big n0 n1 n2 arr :
  zeros n0 n1 n2 = Ok arr ->
  too_big (Z.of_nat (Z.to_nat n1)) (Z.of_nat (Z.to_nat n2)) = false.
Proof.
  intros H. apply zeros_Ok in H as (H0 & H1 & H2 & Hb & _).
  rewrite !Z2Nat.id by assumption. unfold too_big. apply Z.ltb_ge.
  revert Hb. unfold nbytes. cbv zeta.
  destruct (n0 =? 0) eqn:E0; [|apply Z.eqb_neq in E0];
    destruct (n1 =? 0); destruct (n2 =? 0); simpl (1 =? 0); cbv iota; nia.
Qed.

Lemma ring_at_zeros n0 n1 n2 arr i r :
  zeros n0 n1 n2 = Ok arr ->
  shape arr = (Z.to_nat n0, Z.to_nat n1, Z.to_nat n2) /\
  ring_at arr i r =
    if decide ((i < Z.to_nat n0)%nat /\ (r < Z.to_nat n1)%nat)
    then Some (replicate (Z.to_nat n2) zero) else None.
Proof.
  intros Hz. apply zeros_Ok in Hz as (_ & _ & _ & _ & ->).
  split; [reflexivity|]. unfold ring_at. simpl.
  destruct (decide ((i < Z.to_nat n0)%nat /\ (r < Z.to_nat n1)%nat)) as [[Hi Hr]|Hn].
  - rewrite lookup_replicate_2 by assumption.
    apply lookup_replicate_2. assumption.
  - destruct (replicate _ _ !! i) as [pf|] eqn:Hpf; [|reflexivity].
    apply lookup_replicate in Hpf as [-> Hi].
    apply lookup_replicate_None. lia.
Qed.

Section Extraction.

Variable content : list string.
Variable pfs_df : DataFrame.
Variables (step : Z) (pos : nat) (A n_polar : nat).
Hypothesis step_pos : 0 < step.

(** The header line numbers and the tokens of each block. *)
Variable offsets : nat -> Z.
Variable toks : nat -> nat -> list (list float).

Let start_of := block_start step offsets.

Lemma read_blocks_fill i m : forall r0 arr,
  (forall t, (r0 <= t < r0 + m)%nat ->
     ring_at arr i t = Some (replicate A zero) /\
     block_tokens content (start_of i t) step = Ok (toks i t) /\
     wide_overflow A 0 (toks i t) = false) ->
  exists arr',
    foldM (read_block content step i)
          (map (fun t => offsets i + 1 + step * Z.of_nat t) (seq r0 m))
          (arr, r0) = Ok (arr', (r0 + m)%nat) /\
    shape arr' = shape arr /\
    forall i' r', ring_at arr' i' r' =
      if decide (i' = i /\ (r0 <= r' < r0 + m)%nat)
      then Some (fill A (concat (toks i r'))) else ring_at arr i' r'.
Proof.
  induction m as [|m IH]; intros r0 arr H.
  - exists arr. simpl. rewrite Nat.add_0_r. split; [reflexivity|].
    split; [reflexivity|]. intros i' r'.
    destruct (decide _) as [[_ ?]|_]; [lia | reflexivity].
  - destruct (H r0) as (Hz & Ht & Hw); [lia|].
    cbn [seq map foldM]. unfold start_of, block_start in Ht.
    rewrite (read_block_fill content i r0 _ A step arr _ Hz Ht), Hw.
    cbn [bind].
    destruct (IH (S r0) (set_ring arr i r0 (fill A (concat (toks i r0)))))
      as (arr' & Hfold & Hshape & Hrings).
    { intros t Ht'. destruct (H t) as (Hz' & Ht'' & Hw'); [lia|].
      split; [|auto]. erewrite ring_at_set_ring by eassumption.
      destruct (decide (i = i /\ t = r0)) as [[_ ->]|_]; [lia | assumption]. }
    exists arr'. rewrite Hfold. split; [f_equal; f_equal; lia|].
    split; [rewrite Hshape; apply shape_set_ring|].
    intros i' r'. rewrite Hrings.
    erewrite ring_at_set_ring by eassumption.
    destruct (decide (i' = i /\ (S r0 <= r' < S r0 + m)%nat)) as [[-> ?]|Hn1].
    + destruct (decide (i = i /\ (r0 <= r' < r0 + S m)%nat)) as [_|[]];
        [reflexivity | split; [reflexivity | lia]].
    + destruct (decide (i' = i /\ r' = r0)) as [[-> ->]|Hn2].
      * destruct (decide (i = i /\ (r0 <= r0 < r0 + S m)%nat)) as [_|[]];
          [reflexivity | split; [reflexivity | lia]].
      * destruct (decide (i' = i /\ (r0 <= r' < r0 + S m)%nat)) as [[-> ?]|_];
          [|reflexivity].
        exfalso. destruct (decide (r' = r0)) as [->|]; [tauto|].
        apply Hn1. split; [reflexivity | lia].
Qed.

Lemma read_pole_figures_fill m : forall i0 arr,
  (forall i, (i0 <= i < i0 + m)%nat ->
     iloc pfs_df i pos = Ok (Int (offsets i)) /\
     forall t, (t < n_polar)%nat ->
       ring_at arr i t = Some (replicate A zero) /\
       block_tokens content (start_of i t) step = Ok (toks i t) /\
       wide_overflow A 0 (toks i t) = false) ->
  exists arr',
    foldM (read_pole_figure content pfs_df step pos (step * Z.of_nat n_polar))
          (seq i0 m) arr = Ok arr' /\
    shape arr' = shape arr /\
    forall i r, ring_at arr' i r =
      if decide ((i0 <= i < i0 + m)%nat /\ (r < n_polar)%nat)
      then Some (fill A (concat (toks i r))) else ring_at arr i r.
Proof.
  induction m as [|m IH]; intros i0 arr H.
  - exists arr. simpl. split; [reflexivity|]. split; [reflexivity|].
    intros i r. destruct (decide _) as [[? _]|_]; [lia | reflexivity].
  - destruct (H i0) as (Hoff & Hblocks); [lia|].
    cbn [seq foldM]. unfold read_pole_figure at 1. rewrite Hoff.
    cbn [bind cell_succ]. rewrite range3_blocks by assumption.
    destruct (read_blocks_fill i0 n_polar 0 arr) as (arr1 & Hfold & Hshape & Hrings).
    { intros t Ht. apply Hblocks. lia. }
    rewrite Hfold. cbn [bind fst].
    destruct (IH (S i0) arr1) as (arr' & Hfold' & Hshape' & Hrings').
    { intros i Hi. destruct (H i) as (Hoff' & Hblocks'); [lia|].
      split; [assumption|]. intros t Ht.
      destruct (Hblocks' t Ht) as (Hz & Hrest). split; [|assumption].
      rewrite Hrings.
      destruct (decide (i = i0 /\ (0 <= t < 0 + n_polar)%nat)) as [[-> _]|_];
        [lia | assumption]. }
    exists arr'. split; [assumption|]. split; [congruence|].
    intros i r. rewrite Hrings', Hrings.
    destruct (decide ((S i0 <= i < S i0 + m)%nat /\ (r < n_polar)%nat)) as [[? ?]|Hn1].
    + destruct (decide ((i0 <= i < i0 + S m)%nat /\ (r < n_polar)%nat)) as [_|[]];
        [reflexivity | lia].
    + destruct (decide (i = i0 /\ (0 <= r < 0 + n_polar)%nat)) as [[-> ?]|Hn2].
      * destruct (decide ((i0 <= i0 < i0 + S m)%nat /\ (r < n_polar)%nat)) as [_|[]];
          [reflexivity | lia].
      * destruct (decide ((i0 <= i < i0 + S m)%nat /\ (r < n_polar)%nat)) as [[? ?]|_];
          [|reflexivity].
        exfalso. destruct (decide (i = i0)) as [->|]; [apply Hn2 | apply Hn1]; lia.
Qed.

End Extraction.

(** ** [get_intensities] as a whole *)

(** When the loop over the blocks stops where the array ends
    ([stop_increment = step * n_polar]), [np.zeros] makes the array, every
    header line number is set, every line of every block reads as numbers
    and no line of two tokens or more reaches past the end of its ring,
    the call returns the array whose ring [r] of pole figure [i] holds the
    tokens of block [r] from the left and zero after them. *)
Lemma get_intensities_fill content n_pfs pfs_df step_polar step_azimuthal
    step corr_data (n_polar A : nat) offsets toks arr0 :
  0 < step ->
  samples (step * polar_max corr_data) step_polar = Ok (step * Z.of_nat n_polar) ->
  samples (polar_max corr_data) step_polar = Ok (Z.of_nat n_polar) ->
  samples 360 step_azimuthal = Ok (Z.of_nat A) ->
  zeros n_pfs (Z.of_nat n_polar) (Z.of_nat A) = Ok arr0 ->
  (forall i, (i < Z.to_nat n_pfs)%nat ->
     iloc pfs_df i (S (head_pos corr_data)) = Ok (Int (offsets i)) /\
     forall t, (t < n_polar)%nat ->
       block_tokens content (block_start step offsets i t) step = Ok (toks i t) /\
       wide_overflow A 0 (toks i t) = false) ->
  exists arr,
    get_intensities content n_pfs pfs_df step_polar step_azimuthal step
      corr_data = Ok arr /\
    shape arr = (Z.to_nat n_pfs, n_polar, A) /\
    forall i r, (i < Z.to_nat n_pfs)%nat -> (r < n_polar)%nat ->
      ring_at arr i r = Some (fill A (concat (toks i r))).
Proof.
  intros Hstep Hsi Hnp Hna Hz H. unfold get_intensities.
  rewrite Hsi, Hnp, Hna. cbn [bind]. rewrite Hz. cbn [bind].
  assert (Hn : 0 <= n_pfs) by (apply zeros_Ok in Hz; tauto).
  pose proof (fun i r => ring_at_zeros _ _ _ _ i r Hz) as Hzeros.
  rewrite !Nat2Z.id in Hzeros.
  destruct (read_pole_figures_fill content pfs_df step (S (head_pos corr_data))
              A n_polar Hstep offsets toks (Z.to_nat n_pfs) 0 arr0)
    as (arr & Hfold & Hshape & Hrings).
  { intros i Hi. destruct (H i) as (Hoff & Hblocks); [lia|].
    split; [assumption|]. intros t Ht. split; [|apply Hblocks; assumption].
    rewrite (proj2 (Hzeros i t)).
    destruct (decide _) as [_|[]]; [reflexivity | lia]. }
  exists arr. split; [exact Hfold|].
  split; [rewrite Hshape; apply (proj1 (Hzeros 0%nat 0%nat))|].
  intros i r Hi Hr. rewrite Hrings.
  destruct (decide _) as [_|[]]; [reflexivity | lia].
Qed.

(** ** The extension check *)

(** C8, as the script has it: for every input path that ends in neither
    [.RES] nor [.res], the script prints its one-line message, writes no
    file and ends through [sys.exit()] without a stack trace; the exit
    status of that call is 0. *)
Theorem extension_check_exit (infile : string) (n_pfs : Z)
    (content : list string) :
  Py.endswith infile ".RES" = false ->
  Py.endswith infile ".res" = false ->
  let r := main infile n_pfs content in
  stdout r = [extension_message] /\ files r = [] /\
  outcome r = Raise SystemExit /\
  traceback (outcome r) = false /\ exit_status (outcome r) = 0.
Proof.
  intros H1 H2. unfold main. rewrite H1, H2. simpl. auto.
Qed.

Lemma extension_check_exit_witness :
  let r := main "data.txt" 4 [] in
  stdout r = [extension_message] /\ files r = [] /\
  outcome r = Raise SystemExit /\
  traceback (outcome r) = false /\ exit_status (outcome r) = 0.
Proof.
  apply (extension_check_exit "data.txt" 4 []); reflexivity.
Defined.

(** C8 as the claim has it fails on [data.txt]: the path has neither
    extension, and the exit status is not different from 0. *)
Lemma extension_check_status_zero :
  Py.endswith "data.txt" ".RES" = false /\
  Py.endswith "data.txt" ".res" = false /\
  ~ exit_status (outcome (main "data.txt" 4 [])) <> 0.
Proof.
  split; [reflexivity|]. split; [reflexivity|].
  intros H. apply H. reflexivity.
Qed.

(** ** The number of pole figures *)

Lemma set_headers_beyond gsp gsa sps sas corr_data n df na np :
  (length (index df) < n)%nat ->
  (forall i, (i < length (index df))%nat ->
     is_Some (cell_at df i (head_pos corr_data))) ->
  samples 360 gsa = Ok na ->
  samples (polar_max corr_data) gsp = Ok np ->
  foldM (set_header gsp gsa sps sas corr_data) (seq 0 n) df = Raise IndexError.
Proof.
  intros Hn Hc Hna Hnp.
  replace n with (length (index df) + S (n - length (index df) - 1))%nat by lia.
  rewrite seq_app, foldM_app. simpl.
  destruct (set_headers_total gsp gsa sps sas corr_data (length (index df)) df
              (Nat.le_refl _) Hc na np Hna Hnp) as [df1 H1].
  rewrite H1. simpl.
  apply set_headers_Ok in H1 as ([Hidx _] & _ & _).
  unfold set_header, iloc_name.
  rewrite Hidx, (proj2 (lookup_ge_None _ _)) by lia. reflexivity.
Qed.

Lemma slice_to_planes_beyond n : 6 < n -> Py.slice_to planes n = planes.
Proof.
  intros H. unfold Py.slice_to.
  replace (n <? 0) with false by (symmetry; apply Z.ltb_ge; lia).
  apply take_ge. simpl. lia.
Qed.

Lemma length_frame_columns corr : (2 <= length (frame_columns corr))%nat.
Proof. destruct corr; simpl; lia. Qed.

(** C9, as the script has it: with a count above 6, an input path with
    the right extension and a file whose third and fourth lines give the
    flag and two steps for which the sample counts are defined, the run
    ends in the [IndexError] that [pfs_df.iloc[6]] raises in the first loop
    of [get_meta_data]; nothing is printed and no file is written. *)
Theorem count_above_catalog (infile : string) (n_pfs : Z)
    (content : list string) (corr : bool) (step_polar step_azimuthal : float)
    (na np : Z) :
  6 < n_pfs ->
  Py.endswith infile ".RES" || Py.endswith infile ".res" = true ->
  sniff content = Ok (corr, step_polar, step_azimuthal) ->
  samples 360 step_azimuthal = Ok na ->
  samples 80 step_polar = Ok np ->
  main infile n_pfs content =
    {| stdout := []; files := []; outcome := Raise IndexError |}.
Proof.
  intros Hn Hext Hsniff Hna Hnp. unfold main.
  replace (negb (Py.endswith infile ".RES") && negb (Py.endswith infile ".res"))
    with false by (rewrite <- negb_orb, Hext; reflexivity).
  rewrite Hsniff. rewrite slice_to_planes_beyond by assumption.
  unfold conversion_pass, get_meta_data, Py.range.
  rewrite (set_headers_beyond _ _ _ _ false (Z.to_nat n_pfs) _ na np);
    [reflexivity | simpl; lia | | assumption | assumption].
  intros i Hi. simpl in Hi.
  rewrite cell_at_new_frame; [eauto | assumption |].
  pose proof (length_frame_columns corr). simpl. lia.
Qed.

Lemma count_above_catalog_witness :
  main "sample.RES" 7 Sample.uncorrected =
    {| stdout := []; files := []; outcome := Raise IndexError |}.
Proof.
  apply (count_above_catalog "sample.RES" 7 Sample.uncorrected false
           10%float 90%float 4 8); [lia | | | |]; vm_compute; reflexivity.
Defined.

(** C9 as the claim has it fails for a count of 7: the run ends in an
    [IndexError] with a stack trace. *)
Lemma count_seven_index_error :
  let r := main "sample.RES" 7 Sample.uncorrected in
  outcome r = Raise IndexError /\ traceback (outcome r) = true.
Proof. vm_compute. split; reflexivity. Qed.

(** ** [get_meta_data] on the frame of the script *)

Lemma append_same_length p p' x x' :
  String.length p = String.length p' -> p +:+ x = p' +:+ x' -> p = p'.
Proof.
  revert p'. induction p as [|a p IH]; intros [|a' p']; simpl;
    try discriminate; [reflexivity|].
  intros [= Hlen] [= -> Happ]. f_equal. apply IH; assumption.
Qed.

Lemma header_inj p p' sas sps na np :
  String.length p = String.length p' ->
  header p sas sps na np = header p' sas sps na np -> p = p'.
Proof.
  unfold header. simpl. intros Hlen [= H].
  eapply append_same_length; eassumption.
Qed.

Lemma catalog_frame_new n_pfs cols :
  0 <= n_pfs <= 6 -> catalog_frame n_pfs (new_frame (Py.slice_to planes n_pfs) cols).
Proof.
  intros Hn. split; [assumption|]. split; [reflexivity|].
  intros i j Hi. apply cell_at_new_frame_None. left. assumption.
Qed.

Lemma catalog_frame_same_shape n_pfs df df' :
  catalog_frame n_pfs df -> same_shape df df' -> catalog_frame n_pfs df'.
Proof.
  intros (Hn & Hidx & Hout) [Hidx' Hs]. split; [assumption|].
  split; [congruence|]. intros i j Hi. rewrite Hidx' in Hi.
  specialize (Hout i j Hi). specialize (Hs i j).
  destruct (cell_at df' i j); [|reflexivity].
  rewrite Hout in Hs. destruct (proj1 Hs) as [c0 Hc0]; [eauto | discriminate].
Qed.

Lemma catalog_frame_lookup n_pfs df i p :
  catalog_frame n_pfs df -> index df !! i = Some p ->
  planes !! i = Some p /\ (i < Z.to_nat n_pfs)%nat.
Proof.
  intros (Hn & Hidx & _). rewrite Hidx. unfold Py.slice_to.
  replace (n_pfs <? 0) with false by (symmetry; apply Z.ltb_ge; lia).
  rewrite lookup_take_Some. tauto.
Qed.

Lemma catalog_frame_length n_pfs df :
  catalog_frame n_pfs df -> length (index df) = Z.to_nat n_pfs.
Proof.
  intros (Hn & Hidx & _). rewrite Hidx. unfold Py.slice_to.
  replace (n_pfs <? 0) with false by (symmetry; apply Z.ltb_ge; lia).
  rewrite length_take. simpl. lia.
Qed.

Lemma planes_distinct i i' p :
  planes !! i = Some p -> planes !! i' = Some p -> i = i'.
Proof.
  apply NoDup_lookup. unfold planes.
  repeat (apply NoDup_cons_2;
          [rewrite ?elem_of_cons, elem_of_nil; intros H;
           repeat (destruct H as [H|H]; [discriminate H|]); exact H|]).
  apply NoDup_nil_2.
Qed.

Lemma planes_width i p : planes !! i = Some p -> String.length p = 3%nat.
Proof.
  intros H. assert (HF : Forall (fun p => String.length p = 3%nat) planes)
    by (unfold planes; repeat constructor).
  eapply Forall_lookup_1 in HF; eassumption.
Qed.

Section MetaData.

Variables (g_step_polar g_step_azimuthal : float).
Variables (step_polar_str step_azimuthal_str : string).
Variable corr_data : bool.
Variable content : list string.

Let pos := head_pos corr_data.
Let signature_of := header_of g_step_polar g_step_azimuthal step_polar_str
                      step_azimuthal_str corr_data.

Lemma get_meta_data_Ok n_pfs df df' :
  get_meta_data g_step_polar g_step_azimuthal n_pfs df content
    step_polar_str step_azimuthal_str corr_data = Ok df' ->
  same_shape df df' /\
  (forall i, (i < Z.to_nat n_pfs)%nat ->
     exists plane h, index df !! i = Some plane /\ signature_of plane = Ok h /\
                     cell_at df' i pos = Some (Str h)) /\
  (forall i j, j <> pos -> j <> (pos + 1)%nat -> cell_at df' i j = cell_at df i j).
Proof.
  unfold get_meta_data. intros H. apply bind_Ok in H as (df1 & H1 & H2).
  apply set_headers_Ok in H1 as (Hs1 & Hh & Ho).
  pose proof (scan_frame _ _ _ _ _ H2) as [Hs2 Hf].
  split; [eapply same_shape_trans; eassumption|]. split.
  - intros i Hi. destruct (Hh i Hi) as (plane & h & Hp & Hsig & Hc).
    exists plane, h. split; [assumption|]. split; [assumption|].
    unfold pos in *. rewrite Hf by lia. assumption.
  - intros i j Hj Hj'. rewrite Hf by assumption. apply Ho. tauto.
Qed.

(** The line number of a row after the call: the index of the last line
    that equals the header of the row, or what the cell held before. *)
Lemma get_meta_data_offset n_pfs df df' i plane h :
  catalog_frame n_pfs df ->
  get_meta_data g_step_polar g_step_azimuthal n_pfs df content
    step_polar_str step_azimuthal_str corr_data = Ok df' ->
  index df !! i = Some plane ->
  signature_of plane = Ok h ->
  cell_at df' i (pos + 1) =
    match last_match h content with
    | Some k => Some (Int (Z.of_nat k))
    | None => cell_at df i (pos + 1)
    end.
Proof.
  intros Hcat H Hp Hsig. unfold get_meta_data in H.
  apply bind_Ok in H as (df1 & H1 & H2).
  apply set_headers_Ok in H1 as (Hs1 & Hh & Ho).
  pose proof (catalog_frame_same_shape _ _ _ Hcat Hs1) as Hcat1.
  destruct (catalog_frame_lookup _ _ _ _ Hcat Hp) as [Hpl Hi].
  destruct (Hh i Hi) as (plane' & h' & Hp' & Hsig' & Hc).
  assert (plane' = plane) by congruence. subst plane'.
  assert (h' = h) by (unfold signature_of in Hsig; congruence). subst h'.
  unfold pos in *. rewrite (scan_row _ _ _ _ _ i h H2).
  - destruct (last_match h content); [reflexivity|]. apply Ho. lia.
  - destruct Hs1 as [-> _]. rewrite (catalog_frame_length _ _ Hcat). assumption.
  - assumption.
  - intros i' Hne Hc'.
    destruct (decide (i' < Z.to_nat n_pfs)%nat) as [Hi'|Hi'].
    + destruct (Hh i' Hi') as (q & hq & Hq & Hsigq & Hcq).
      rewrite Hcq in Hc'. assert (hq = h) by congruence. subst hq.
      destruct (catalog_frame_lookup _ _ _ _ Hcat Hq) as [Hql _].
      apply Hne. apply (planes_distinct _ _ plane); [|assumption].
      replace plane with q; [assumption|].
      unfold signature_of, header_of in Hsig, Hsigq.
      destruct (samples 360 g_step_azimuthal) as [na|]; [|discriminate].
      destruct (samples (polar_max corr_data) g_step_polar) as [np|]; [|discriminate].
      cbn [bind] in Hsig, Hsigq.
      apply (header_inj q plane step_azimuthal_str step_polar_str na np).
      * rewrite (planes_width _ _ Hql), (planes_width _ _ Hpl). reflexivity.
      * congruence.
    + destruct Hcat1 as (_ & _ & Hout). rewrite Hout in Hc'; [discriminate|].
      destruct Hs1 as [-> _]. rewrite (catalog_frame_length _ _ Hcat). lia.
Qed.

(** The call returns when the counts are defined and the frame has the
    two columns of the pass. *)
Lemma get_meta_data_total n_pfs df na np :
  catalog_frame n_pfs df ->
  (forall i, (i < Z.to_nat n_pfs)%nat ->
     is_Some (cell_at df i pos) /\ is_Some (cell_at df i (pos + 1))) ->
  samples 360 g_step_azimuthal = Ok na ->
  samples (polar_max corr_data) g_step_polar = Ok np ->
  exists df',
    get_meta_data g_step_polar g_step_azimuthal n_pfs df content
      step_polar_str step_azimuthal_str corr_data = Ok df'.
Proof.
  intros Hcat Hc Hna Hnp. unfold get_meta_data, Py.range.
  pose proof (catalog_frame_length _ _ Hcat) as Hlen.
  destruct (set_headers_total g_step_polar g_step_azimuthal step_polar_str
              step_azimuthal_str corr_data (Z.to_nat n_pfs) df) with (na := na) (np := np)
    as [df1 H1]; [lia | intros; apply Hc; assumption | assumption | assumption |].
  rewrite H1. simpl. apply set_headers_Ok in H1 as ([Hidx Hs] & _ & _).
  apply scan_total. intros i Hi. rewrite !Hs. apply Hc.
  rewrite Hidx, Hlen in Hi. assumption.
Qed.

End MetaData.

(** ** Where the search leaves the line number *)

Lemma last_match_Some h content k :
  last_match h content = Some k <->
  (exists line, content !! k = Some line /\ Py.rstrip line = h) /\
  (forall k' line', (k < k')%nat -> content !! k' = Some line' ->
                    Py.rstrip line' <> h).
Proof.
  revert k. induction content as [|line rest IH]; intros k; simpl.
  - split; [discriminate | intros [(l & Hl & _) _]; discriminate].
  - destruct (last_match h rest) as [k0|] eqn:E.
    + split.
      * intros [= <-]. destruct (proj1 (IH k0) eq_refl) as [Hex Hlast].
        split; [exact Hex|]. intros [|k'] line' Hk Hl; [lia|].
        simpl in Hl. eapply Hlast; [|eassumption]. lia.
      * intros [(l & Hl & Hr) Hlast]. destruct k as [|k].
        -- exfalso. destruct (proj1 (IH k0) eq_refl) as [(l0 & Hl0 & Hr0) _].
           apply (Hlast (S k0) l0); [lia | exact Hl0 | exact Hr0].
        -- f_equal. assert (Hk : Some k0 = Some k); [|congruence].
           apply IH. split; [eauto|].
           intros k' line' Hk' Hl'. apply (Hlast (S k') line'); [lia | exact Hl'].
    + assert (Hnone : forall k' line', rest !! k' = Some line' -> Py.rstrip line' <> h).
      { intros k' line' Hl' Hr'.
        assert (Hsome : exists k1, last_match h rest = Some k1);
          [|destruct Hsome as [k1 Hk1]; congruence].
        clear IH E. revert k' Hl'. induction rest as [|l1 rest IHr]; intros k' Hl';
          [discriminate|]. simpl.
        destruct (last_match h rest); [eauto|].
        destruct k' as [|k']; simpl in Hl'.
        - injection Hl' as ->. rewrite (proj2 (String.eqb_eq _ _) Hr'). eauto.
        - destruct (IHr k' Hl') as [k1 Hk1]. discriminate. }
      destruct (String.eqb_spec (Py.rstrip line) h) as [Heq|Hneq].
      * split.
        -- intros [= <-]. split; [eauto|].
           intros [|k'] line' Hk Hl; [lia|]. eapply Hnone. exact Hl.
        -- intros [(l & Hl & Hr) _]. destruct k as [|k]; [reflexivity|].
           exfalso. eapply Hnone; eassumption.
      * split; [discriminate|]. intros [(l & Hl & Hr) _].
        destruct k as [|k]; simpl in Hl.
        -- congruence.
        -- exfalso. eapply Hnone; eassumption.
Qed.

Lemma last_match_None h content :
  (forall line, line ∈ content -> Py.rstrip line <> h) ->
  last_match h content = None.
Proof.
  intros H. destruct (last_match h content) as [k|] eqn:E; [|reflexivity].
  apply last_match_Some in E as [(line & Hl & Hr) _].
  exfalso. apply (H line); [|assumption].
  eapply list_elem_of_lookup_2. eassumption.
Qed.

(** C5, as the script has it: on the frame of the script, for every plane
    whose header equals some line, the line number recorded is (the
    number, counted from 1, of the LAST line that equals the header once
    its trailing whitespace is removed) minus 1. Every row is compared with
    every line, and a later match overwrites an earlier one. *)
Theorem last_occurrence_recorded (g_step_polar g_step_azimuthal : float)
    (n_pfs : Z) (pfs_df : DataFrame) (content : list string)
    (step_polar_str step_azimuthal_str : string) (corr_data : bool)
    (df' : DataFrame) (i : nat) (plane h line : string) (k : nat) :
  catalog_frame n_pfs pfs_df ->
  get_meta_data g_step_polar g_step_azimuthal n_pfs pfs_df content
    step_polar_str step_azimuthal_str corr_data = Ok df' ->
  index pfs_df !! i = Some plane ->
  header_of g_step_polar g_step_azimuthal step_polar_str step_azimuthal_str
    corr_data plane = Ok h ->
  content !! k = Some line -> Py.rstrip line = h ->
  (forall k' line', (k < k')%nat -> content !! k' = Some line' ->
                    Py.rstrip line' <> h) ->
  iloc df' i (head_pos corr_data + 1) = Ok (Int (Z.of_nat (S k) - 1)).
Proof.
  intros Hcat Hget Hp Hsig Hk Hr Hlast. apply iloc_Ok.
  rewrite (get_meta_data_offset _ _ _ _ _ _ _ _ _ _ _ _ Hcat Hget Hp Hsig).
  rewrite (proj2 (last_match_Some h content k)) by eauto.
  do 2 f_equal. lia.
Qed.

Lemma last_occurrence_recorded_witness :
  exists df',
    get_meta_data 10 90 1 (new_frame (Py.slice_to planes 1) (frame_columns false))
      Sample.repeated "10.00" "90.00" false = Ok df' /\
    iloc df' 0 (head_pos false + 1) = Ok (Int (Z.of_nat 70 - 1)).
Proof.
  eexists. split; [vm_compute; reflexivity|].
  assert (Hlast : last_match " 111       90.00   4    0 10.00   8    0"
                    Sample.repeated = Some 69%nat) by (vm_compute; reflexivity).
  apply last_match_Some in Hlast as [_ Hlast].
  apply (last_occurrence_recorded 10 90 1
           (new_frame (Py.slice_to planes 1) (frame_columns false))
           Sample.repeated "10.00" "90.00" false _ 0 "111"
           " 111       90.00   4    0 10.00   8    0"
           Sample.head_111_uncorr 69).
  - apply catalog_frame_new. lia.
  - vm_compute. reflexivity.
  - reflexivity.
  - vm_compute. reflexivity.
  - vm_compute. reflexivity.
  - vm_compute. reflexivity.
  - exact Hlast.
Defined.

(** C5 as the claim has it fails on a file with the header of plane 111 on
    lines 5 and 70: the first match would give 4, the frame holds 69. *)
Lemma repeated_header_last_wins :
  first_match " 111       90.00   4    0 10.00   8    0" Sample.repeated
    = Some 4%nat /\
  (let* df' :=
     get_meta_data 10 90 1 (new_frame (Py.slice_to planes 1) (frame_columns false))
       Sample.repeated "10.00" "90.00" false in
   iloc df' 0 1) = Ok (Int 69) /\
  Int 69 <> Int (5 - 1).
Proof.
  split; [vm_compute; reflexivity|]. split; [vm_compute; reflexivity|].
  discriminate.
Qed.

(** ** The header text *)

Lemma zfill_2 n :
  PyFloat.zfill 2 n =
    String (PyFloat.digit_char ((n / 10) mod 10))
      (String (PyFloat.digit_char (n mod 10)) EmptyString).
Proof. reflexivity. Qed.

Lemma format_f_two_decimals x :
  finite x = true -> two_decimals (PyFloat.format_f 2 x).
Proof.
  unfold finite, PyFloat.format_f, two_decimals.
  destruct (Prim2SF x) as [s|s| |s m e]; try discriminate; intros _.
  - exists (PyFloat.sign_str s), "0", 0, 0. split; [reflexivity | lia].
  - rewrite zfill_2. eexists _, _, _, _. split; [reflexivity|].
    split; apply Z.mod_pos_bound; lia.
Qed.

(** C4: for every plane of the frame, the two steps and the pass, the text
    that [get_meta_data] stores as the header of the plane is the plane
    name, the azimuthal step under ['%.2f'], the integer
    [int(360 / step_azimuthal)], a zero, the polar step under ['%.2f'], the
    integer [int(polar_max / step_polar)] with [polar_max] 80 without and 90
    with correction, and a zero, after runs of 1, 7, 3, 4, 1, 3 and 4
    spaces in that order; a step that is a finite number appears with two
    decimals. *)
Theorem header_signature_layout (step_polar step_azimuthal : float)
    (n_pfs : Z) (pfs_df : DataFrame) (content : list string)
    (corr_data : bool) (df' : DataFrame) (i : nat) (plane : string) :
  get_meta_data step_polar step_azimuthal n_pfs pfs_df content
    (PyFloat.format_f 2 step_polar) (PyFloat.format_f 2 step_azimuthal)
    corr_data = Ok df' ->
  (i < Z.to_nat n_pfs)%nat ->
  index pfs_df !! i = Some plane ->
  exists n_azimuthal n_polar,
    samples 360 step_azimuthal = Ok n_azimuthal /\
    samples (if corr_data then 90 else 80) step_polar = Ok n_polar /\
    iloc df' i (head_pos corr_data) =
      Ok (Str (" " +:+ plane +:+ "       "
               +:+ PyFloat.format_f 2 step_azimuthal +:+ "   "
               +:+ Py.str n_azimuthal +:+ "    " +:+ "0" +:+ " "
               +:+ PyFloat.format_f 2 step_polar +:+ "   "
               +:+ Py.str n_polar +:+ "    " +:+ "0")) /\
    (finite step_azimuthal = true ->
     two_decimals (PyFloat.format_f 2 step_azimuthal)) /\
    (finite step_polar = true ->
     two_decimals (PyFloat.format_f 2 step_polar)).
Proof.
  intros Hget Hi Hp.
  apply get_meta_data_Ok in Hget as (_ & Hh & _).
  destruct (Hh i Hi) as (plane' & h & Hp' & Hsig & Hc).
  assert (plane' = plane) by congruence. subst plane'.
  unfold header_of in Hsig.
  destruct (samples 360 step_azimuthal) as [na|]; [|discriminate].
  fold (polar_max corr_data).
  destruct (samples (polar_max corr_data) step_polar) as [np|]; [|discriminate].
  cbn [bind] in Hsig. injection Hsig as <-.
  exists na, np. split; [reflexivity|]. split; [reflexivity|].
  split; [apply iloc_Ok; exact Hc|].
  split; apply format_f_two_decimals.
Qed.

Lemma header_signature_layout_witness :
  exists df',
    get_meta_data 10 90 1 (new_frame (Py.slice_to planes 1) (frame_columns true))
      Sample.marker_only "10.00" "90.00" true = Ok df' /\
    iloc df' 0 2 = Ok (Str " 111       90.00   4    0 10.00   9    0").
Proof.
  assert (Hget : exists df',
             get_meta_data 10 90 1
               (new_frame (Py.slice_to planes 1) (frame_columns true))
               Sample.marker_only "10.00" "90.00" true = Ok df')
    by (eexists; vm_compute; reflexivity).
  destruct Hget as [df' Hget]. exists df'. split; [exact Hget|].
  destruct (header_signature_layout 10 90 1
              (new_frame (Py.slice_to planes 1) (frame_columns true))
              Sample.marker_only true df' 0 "111")
    as (na & np & Hna & Hnp & Hcell & _).
  - exact Hget.
  - vm_compute. lia.
  - reflexivity.
  - assert (na = 4) by (vm_compute in Hna; congruence).
    assert (np = 9) by (vm_compute in Hnp; congruence).
    subst na np. exact Hcell.
Defined.

(** ** A header that no line equals *)

Lemma read_pole_figure_unset content pfs_df step pos stop_increment arr i :
  iloc pfs_df i pos = Ok NaN ->
  read_pole_figure content pfs_df step pos stop_increment arr i = Raise TypeError.
Proof. intros H. unfold read_pole_figure. rewrite H. reflexivity. Qed.

Lemma seq_split_at i n :
  (i < n)%nat -> seq 0 n = (seq 0 i ++ i :: seq (S i) (n - i - 1))%list.
Proof.
  intros H. replace n with (i + S (n - i - 1))%nat at 1 by lia.
  rewrite seq_app. reflexivity.
Qed.

(** With the line number of a requested plane unset, the call raises. *)
Lemma get_intensities_unset content n_pfs pfs_df step_polar step_azimuthal
    step corr_data i :
  iloc pfs_df i (S (head_pos corr_data)) = Ok NaN ->
  (i < Z.to_nat n_pfs)%nat ->
  exists e, get_intensities content n_pfs pfs_df step_polar step_azimuthal
              step corr_data = Raise e.
Proof.
  intros Hnan Hi.
  assert (H : is_ok (get_intensities content n_pfs pfs_df step_polar
                       step_azimuthal step corr_data) = false).
  { unfold get_intensities.
    destruct (samples (step * polar_max corr_data) step_polar); [|reflexivity].
    destruct (samples (polar_max corr_data) step_polar); [|reflexivity].
    destruct (samples 360 step_azimuthal); [|reflexivity].
    cbn [bind]. destruct (zeros _ _ _); [|reflexivity]. cbn [bind].
    unfold Py.range. rewrite (seq_split_at i) by assumption.
    apply foldM_raise_in. intros s'.
    rewrite read_pole_figure_unset by assumption. reflexivity. }
  destruct (get_intensities _ _ _ _ _ _ _); [discriminate | eauto].
Qed.

(** It raises [TypeError] when the pole figures before the plane are read
    without an exception. *)
Lemma get_intensities_first_unset content n_pfs pfs_df step_polar
    step_azimuthal step corr_data i si np na arr0 arr1 :
  iloc pfs_df i (S (head_pos corr_data)) = Ok NaN ->
  (i < Z.to_nat n_pfs)%nat ->
  samples (step * polar_max corr_data) step_polar = Ok si ->
  samples (polar_max corr_data) step_polar = Ok np ->
  samples 360 step_azimuthal = Ok na ->
  zeros n_pfs np na = Ok arr0 ->
  foldM (read_pole_figure content pfs_df step (S (head_pos corr_data)) si)
        (seq 0 i) arr0 = Ok arr1 ->
  get_intensities content n_pfs pfs_df step_polar step_azimuthal step
    corr_data = Raise TypeError.
Proof.
  intros Hnan Hi Hsi Hnp Hna Hz Hfold. unfold get_intensities.
  rewrite Hsi, Hnp, Hna. cbn [bind]. rewrite Hz. cbn [bind].
  unfold Py.range. rewrite (seq_split_at i) by assumption.
  rewrite foldM_app, Hfold. cbn [bind foldM].
  rewrite read_pole_figure_unset by assumption. reflexivity.
Qed.

(** On the frame of the script, when the header of a requested plane for
    the pass equals no line, [get_meta_data] returns, the line number of
    the plane stays unset, and [get_intensities] raises. *)
Lemma unmatched_header_unset step_polar step_azimuthal n_pfs pfs_df content
    step_polar_str step_azimuthal_str corr_data i plane h :
  catalog_frame n_pfs pfs_df ->
  (forall i', (i' < Z.to_nat n_pfs)%nat ->
     is_Some (cell_at pfs_df i' (head_pos corr_data)) /\
     is_Some (cell_at pfs_df i' (head_pos corr_data + 1))) ->
  index pfs_df !! i = Some plane ->
  cell_at pfs_df i (head_pos corr_data + 1) = Some NaN ->
  header_of step_polar step_azimuthal step_polar_str step_azimuthal_str
    corr_data plane = Ok h ->
  (forall line, line ∈ content -> Py.rstrip line <> h) ->
  exists df',
    get_meta_data step_polar step_azimuthal n_pfs pfs_df content
      step_polar_str step_azimuthal_str corr_data = Ok df' /\
    iloc df' i (S (head_pos corr_data)) = Ok NaN /\
    (i < Z.to_nat n_pfs)%nat /\
    exists e, get_intensities content n_pfs df' step_polar step_azimuthal 8
                corr_data = Raise e.
Proof.
  intros Hcat Hcols Hp Hnan Hsig Hnone.
  destruct (catalog_frame_lookup _ _ _ _ Hcat Hp) as [_ Hi].
  assert (Hs : exists na np, samples 360 step_azimuthal = Ok na /\
                             samples (polar_max corr_data) step_polar = Ok np).
  { unfold header_of in Hsig.
    destruct (samples 360 step_azimuthal) as [na|]; [|discriminate].
    destruct (samples (polar_max corr_data) step_polar) as [np|]; [|discriminate].
    eauto. }
  destruct Hs as (na & np & Hna & Hnp).
  destruct (get_meta_data_total step_polar step_azimuthal step_polar_str
              step_azimuthal_str corr_data content n_pfs pfs_df na np
              Hcat Hcols Hna Hnp) as [df' Hget].
  exists df'. split; [exact Hget|].
  assert (Hcell : iloc df' i (S (head_pos corr_data)) = Ok NaN).
  { rewrite <- Nat.add_1_r. apply iloc_Ok.
    rewrite (get_meta_data_offset _ _ _ _ _ _ _ _ _ _ _ _ Hcat Hget Hp Hsig).
    rewrite last_match_None by assumption. assumption. }
  split; [exact Hcell|]. split; [exact Hi|].
  apply (get_intensities_unset _ _ _ _ _ _ _ i); assumption.
Qed.

(** C1, as the script has it: on the frame of the script, when the header
    of a requested plane for the pass equals no line, [get_meta_data]
    raises nothing and leaves the line number of the plane unset; the run
    goes on to [get_intensities], which raises an exception and returns no
    array, a [TypeError] from [range] when the pole figures before the
    plane are read without an exception. The exception names neither the
    plane nor the pass. *)
Theorem missing_header_offset_unset (step_polar step_azimuthal : float)
    (n_pfs : Z) (pfs_df : DataFrame) (content : list string)
    (step_polar_str step_azimuthal_str : string) (corr_data : bool)
    (i : nat) (plane h : string) :
  catalog_frame n_pfs pfs_df ->
  (forall i', (i' < Z.to_nat n_pfs)%nat ->
     is_Some (cell_at pfs_df i' (head_pos corr_data)) /\
     is_Some (cell_at pfs_df i' (head_pos corr_data + 1))) ->
  index pfs_df !! i = Some plane ->
  cell_at pfs_df i (head_pos corr_data + 1) = Some NaN ->
  header_of step_polar step_azimuthal step_polar_str step_azimuthal_str
    corr_data plane = Ok h ->
  (forall line, line ∈ content -> Py.rstrip line <> h) ->
  exists df',
    get_meta_data step_polar step_azimuthal n_pfs pfs_df content
      step_polar_str step_azimuthal_str corr_data = Ok df' /\
    iloc df' i (head_pos corr_data + 1) = Ok NaN /\
    (exists e, get_intensities content n_pfs df' step_polar step_azimuthal 8
                 corr_data = Raise e) /\
    (forall si np na arr0 arr1,
       samples (8 * polar_max corr_data) step_polar = Ok si ->
       samples (polar_max corr_data) step_polar = Ok np ->
       samples 360 step_azimuthal = Ok na ->
       zeros n_pfs np na = Ok arr0 ->
       foldM (read_pole_figure content df' 8 (S (head_pos corr_data)) si)
             (seq 0 i) arr0 = Ok arr1 ->
       get_intensities content n_pfs df' step_polar step_azimuthal 8
         corr_data = Raise TypeError).
Proof.
  intros Hcat Hcols Hp Hnan Hsig Hnone.
  destruct (unmatched_header_unset _ _ _ _ _ _ _ _ _ _ _
              Hcat Hcols Hp Hnan Hsig Hnone) as (df' & Hget & Hcell & Hi & He).
  exists df'. split; [exact Hget|]. split.
  - rewrite Nat.add_1_r. exact Hcell.
  - split; [exact He|].
    intros si np na arr0 arr1 Hsi Hnp Hna Hz Hfold.
    eapply get_intensities_first_unset; eassumption.
Qed.

Lemma no_line_equals h content :
  forallb (fun line => negb (String.eqb (Py.rstrip line) h)) content = true ->
  forall line, line ∈ content -> Py.rstrip line <> h.
Proof.
  intros H line Hin. apply list_elem_of_In in Hin.
  rewrite forallb_forall in H. specialize (H line Hin).
  apply negb_true_iff in H. apply String.eqb_neq. exact H.
Qed.

Lemma missing_header_offset_unset_witness :
  exists df',
    get_meta_data 10 90 1 (new_frame (Py.slice_to planes 1) (frame_columns false))
      Sample.headless "10.00" "90.00" false = Ok df' /\
    iloc df' 0 1 = Ok NaN /\
    get_intensities Sample.headless 1 df' 10 90 8 false = Raise TypeError.
Proof.
  destruct (missing_header_offset_unset 10 90 1
              (new_frame (Py.slice_to planes 1) (frame_columns false))
              Sample.headless "10.00" "90.00" false 0 "111"
              " 111       90.00   4    0 10.00   8    0")
    as (df' & Hget & Hcell & _ & Htype).
  - apply catalog_frame_new. lia.
  - intros i' Hi'. simpl in Hi'.
    split; (rewrite cell_at_new_frame; [eauto | simpl; lia | simpl; lia]).
  - reflexivity.
  - reflexivity.
  - vm_compute. reflexivity.
  - apply no_line_equals. vm_compute. reflexivity.
  - exists df'. split; [exact Hget|]. split; [exact Hcell|].
    eapply (Htype 64 8 4); [vm_compute; reflexivity .. | reflexivity].
Defined.

(** C1 as the claim has it fails on a file without the header of plane
    111: [get_meta_data] returns, and the run ends in the [TypeError] of
    [get_intensities]. *)
Lemma headless_file_type_error :
  is_ok (get_meta_data 10 90 1
           (new_frame (Py.slice_to planes 1) (frame_columns false))
           Sample.headless "10.00" "90.00" false) = true /\
  main "sample.RES" 1 Sample.headless =
    {| stdout := []; files := []; outcome := Raise TypeError |}.
Proof. split; vm_compute; reflexivity. Qed.

(** ** The shape of the array *)

Lemma foldM_invariant {A S} (P : S -> Prop) (f : S -> A -> result S)
    (xs : list A) :
  (forall s x s', P s -> f s x = Ok s' -> P s') ->
  forall s s', P s -> foldM f xs s = Ok s' -> P s'.
Proof.
  intros Hf. induction xs as [|x xs IH]; intros s s' Hs; simpl.
  - intros [= <-]. assumption.
  - intros H. apply bind_Ok in H as (s1 & H1 & H). eauto.
Qed.

Lemma zeros_well_shaped n0 n1 n2 arr :
  zeros n0 n1 n2 = Ok arr -> well_shaped arr.
Proof.
  intros Hz. apply zeros_Ok in Hz as (_ & _ & _ & _ & ->).
  split; simpl; [apply length_replicate|].
  apply Forall_replicate. split; [apply length_replicate|].
  apply Forall_replicate. apply length_replicate.
Qed.

Lemma setitem_well_shaped arr i r lo ints arr' :
  well_shaped arr -> setitem arr i r lo ints = Ok arr' ->
  well_shaped arr' /\ shape arr' = shape arr.
Proof.
  intros [Hlen Hall]. unfold setitem.
  destruct (data arr !! i) as [pf|] eqn:Hpf; [|discriminate].
  destruct (pf !! r) as [row|] eqn:Hrow; [|discriminate].
  intros H. apply bind_Ok in H as (row' & Hrow' & [= <-]).
  split; [|reflexivity]. apply assign_slice_length in Hrow'.
  pose proof (Forall_lookup_1 _ _ _ _ Hall Hpf) as [Hpfl Hrows].
  pose proof (Forall_lookup_1 _ _ _ _ Hrows Hrow) as Hrowl.
  split; simpl; [rewrite length_insert; assumption|].
  apply Forall_insert; [assumption|].
  split; [rewrite length_insert; assumption|].
  apply Forall_insert; [assumption | congruence].
Qed.

Lemma read_line_shaped content i i_pa j sh st k st' :
  shaped sh st.1 -> read_line content i i_pa j st k = Ok st' -> shaped sh st'.1.
Proof.
  destruct st as [arr i_pf]. intros [Hw Hs] H. unfold read_line in H.
  apply bind_Ok in H as (line & _ & H). apply bind_Ok in H as (ints & _ & H).
  apply bind_Ok in H as (arr' & Hset & [= <-]). simpl.
  destruct (setitem_well_shaped _ _ _ _ _ _ Hw Hset). split; congruence.
Qed.

Lemma read_block_shaped content step i sh st j st' :
  shaped sh st.1 -> read_block content step i st j = Ok st' -> shaped sh st'.1.
Proof.
  destruct st as [arr i_pa]. intros Hsh H. unfold read_block in H.
  apply bind_Ok in H as (st1 & Hfold & [= <-]). simpl.
  eapply (foldM_invariant (fun st => shaped sh st.1)); [| |exact Hfold];
    [intros; eapply read_line_shaped; eassumption | exact Hsh].
Qed.

Lemma read_pole_figure_shaped content pfs_df step pos si sh arr i arr' :
  shaped sh arr ->
  read_pole_figure content pfs_df step pos si arr i = Ok arr' -> shaped sh arr'.
Proof.
  intros Hsh H. unfold read_pole_figure in H.
  apply bind_Ok in H as (c & _ & H). apply bind_Ok in H as (start & _ & H).
  apply bind_Ok in H as (st1 & Hfold & [= <-]).
  eapply (foldM_invariant (fun st => shaped sh st.1)); [| |exact Hfold];
    [intros; eapply read_block_shaped; eassumption | exact Hsh].
Qed.

(** The array [get_intensities] returns has one pole figure for each
    requested plane, [int(polar_max / step_polar)] rings and
    [int(360 / step_azimuthal)] cells in each ring. *)
Lemma get_intensities_shape content n_pfs pfs_df step_polar step_azimuthal
    step corr_data arr :
  get_intensities content n_pfs pfs_df step_polar step_azimuthal step
    corr_data = Ok arr ->
  exists n_polar n_azimuthal,
    samples (polar_max corr_data) step_polar = Ok n_polar /\
    samples 360 step_azimuthal = Ok n_azimuthal /\
    0 <= n_pfs /\ 0 <= n_polar /\ 0 <= n_azimuthal /\
    shape arr = (Z.to_nat n_pfs, Z.to_nat n_polar, Z.to_nat n_azimuthal) /\
    well_shaped arr.
Proof.
  unfold get_intensities. intros H.
  apply bind_Ok in H as (si & _ & H). apply bind_Ok in H as (np & Hnp & H).
  apply bind_Ok in H as (na & Hna & H). apply bind_Ok in H as (arr0 & Hz & H).
  exists np, na. split; [assumption|]. split; [assumption|].
  pose proof (zeros_well_shaped _ _ _ _ Hz) as Hw0.
  assert (Hs0 : shape arr0 = (Z.to_nat n_pfs, Z.to_nat np, Z.to_nat na) /\
                0 <= n_pfs /\ 0 <= np /\ 0 <= na).
  { apply zeros_Ok in Hz as (? & ? & ? & _ & ->). simpl. auto. }
  destruct Hs0 as (Hs0 & ? & ? & ?).
  assert (Hsh : shaped (Z.to_nat n_pfs, Z.to_nat np, Z.to_nat na) arr).
  { eapply (foldM_invariant (shaped _)); [| |exact H];
      [intros; eapply read_pole_figure_shaped; eassumption | split; assumption]. }
  destruct Hsh. auto 10.
Qed.

(** ** The rows of a table *)

Lemma lookup_concat_uniform {X} (rows : list (list X)) (A j l : nat) :
  Forall (fun row => length row = A) rows -> (l < A)%nat ->
  concat rows !! (j * A + l)%nat =
    match rows !! j with Some row => row !! l | None => None end.
Proof.
  intros H Hl. revert j. induction H as [|row rows Hrow _ IH]; intros j.
  - simpl. reflexivity.
  - destruct j as [|j]; simpl.
    + rewrite lookup_app_l by lia. reflexivity.
    + rewrite lookup_app_r by lia.
      replace (A + j * A + l - length row)%nat with (j * A + l)%nat by lia.
      apply IH.
Qed.

Lemma length_concat_uniform {X} (rows : list (list X)) (A : nat) :
  Forall (fun row => length row = A) rows ->
  length (concat rows) = (length rows * A)%nat.
Proof.
  induction 1 as [|row rows Hrow _ IH]; simpl; [reflexivity|].
  rewrite length_app. lia.
Qed.

Lemma azimuthal_row_lookup step_azimuthal n : forall k l,
  (l < n)%nat ->
  azimuthal_row step_azimuthal n k !! l =
    Some (Nat.iter l (fun x => PrimFloat.add x step_azimuthal) k).
Proof.
  induction n as [|n IH]; intros k l Hl; [lia|].
  destruct l as [|l]; [reflexivity|].
  rewrite Nat.iter_succ_r. apply (IH (PrimFloat.add k step_azimuthal) l). lia.
Qed.

Lemma length_azimuthal_row step_azimuthal n k :
  length (azimuthal_row step_azimuthal n k) = n.
Proof. revert k. induction n; intros k; simpl; [reflexivity | f_equal; auto]. Qed.

Lemma azimuthal_angle_iter step_azimuthal l :
  Nat.iter l (fun x => PrimFloat.add x step_azimuthal) (PyFloat.of_int 0)
    = azimuthal_angle step_azimuthal l.
Proof. induction l; simpl; [reflexivity | f_equal; assumption]. Qed.

Lemma lookup_map {X Y} (f : X -> Y) (xs : list X) (j : nat) :
  map f xs !! j = f <$> (xs !! j).
Proof.
  revert j. induction xs as [|x xs IH]; intros [|j]; simpl; auto.
Qed.

Lemma polar_flat_lookup step_polar P A j l :
  (j < P)%nat -> (l < A)%nat ->
  flatten (polar_array step_polar P A) !! (j * A + l)%nat =
    Some (PyFloat.int_mul (Z.of_nat j) step_polar).
Proof.
  intros Hj Hl. unfold flatten, polar_array.
  rewrite (lookup_concat_uniform _ A) by
    (try assumption; apply Forall_map, Forall_forall; intros;
     apply length_replicate).
  rewrite lookup_map, lookup_seq_lt by assumption. simpl.
  apply lookup_replicate_2. assumption.
Qed.

Lemma azimuthal_flat_lookup step_azimuthal P A j l :
  (j < P)%nat -> (l < A)%nat ->
  flatten (azimuthal_array step_azimuthal P A) !! (j * A + l)%nat =
    Some (azimuthal_angle step_azimuthal l).
Proof.
  intros Hj Hl. unfold flatten, azimuthal_array.
  rewrite (lookup_concat_uniform _ A) by
    (try assumption; apply Forall_map, Forall_forall; intros;
     apply length_azimuthal_row).
  rewrite lookup_map, lookup_seq_lt by assumption. simpl.
  rewrite azimuthal_row_lookup by assumption.
  rewrite azimuthal_angle_iter. reflexivity.
Qed.

Lemma length_polar_flat step_polar P A :
  length (flatten (polar_array step_polar P A)) = (P * A)%nat.
Proof.
  unfold flatten, polar_array.
  rewrite (length_concat_uniform _ A), length_map, length_seq; [reflexivity|].
  apply Forall_map, Forall_forall. intros. apply length_replicate.
Qed.

Lemma length_azimuthal_flat step_azimuthal P A :
  length (flatten (azimuthal_array step_azimuthal P A)) = (P * A)%nat.
Proof.
  unfold flatten, azimuthal_array.
  rewrite (length_concat_uniform _ A), length_map, length_seq; [reflexivity|].
  apply Forall_map, Forall_forall. intros. apply length_azimuthal_row.
Qed.

Lemma table_lookup p a v r :
  table p a v !! r =
    match p !! r, a !! r, v !! r with
    | Some x, Some y, Some z => Some (x, y, z)
    | _, _, _ => None
    end.
Proof.
  revert a v r. induction p as [|x p IH]; intros a v r; [reflexivity|].
  destruct a as [|y a].
  { cbn [table]. rewrite !lookup_nil. destruct ((x :: p) !! r); reflexivity. }
  destruct v as [|z v].
  { cbn [table]. rewrite !lookup_nil. destruct ((x :: p) !! r); [|reflexivity].
    destruct ((y :: a) !! r); reflexivity. }
  destruct r as [|r]; [reflexivity|]. simpl. apply IH.
Qed.

Lemma length_table p a v :
  length p = length a -> length a = length v -> length (table p a v) = length p.
Proof.
  revert a v. induction p as [|x p IH]; intros [|y a] [|z v]; simpl;
    try discriminate; try reflexivity.
  intros [= H1] [= H2]. f_equal. apply IH; assumption.
Qed.

Lemma savetxt_Ok rows ls :
  savetxt rows = (ls, Ok tt) ->
  Forall2 (fun row line => format_row row = Ok line) rows ls.
Proof.
  revert ls. induction rows as [|row rows IH]; intros ls; simpl.
  - intros [= <-]. constructor.
  - destruct (format_row row) as [line|e] eqn:Hrow; [|discriminate].
    destruct (savetxt rows) as [ls' r] eqn:Hrest. intros [= <- ->].
    constructor; [assumption | apply IH; reflexivity].
Qed.

Lemma write_tables_Ok p a arr df infile corr_data rows fs :
  write_tables p a arr df infile corr_data rows = (fs, Ok tt) ->
  Forall2 (fun i f =>
             exists pf plane ls,
               data arr !! i = Some pf /\ index df !! i = Some plane /\
               f = (outfile_name infile plane corr_data, ls) /\
               savetxt (table p a (flatten pf)) = (ls, Ok tt))
          rows fs.
Proof.
  revert fs. induction rows as [|i rows IH]; intros fs; simpl.
  - intros [= <-]. constructor.
  - destruct (data arr !! i) as [pf|] eqn:Hpf; [|discriminate].
    destruct (too_big _ _); [discriminate|].
    unfold iloc_name. destruct (index df !! i) as [plane|] eqn:Hp; [|discriminate].
    destruct (savetxt _) as [ls r] eqn:Hsave.
    destruct r as [[]|e]; [|discriminate].
    destruct (write_tables _ _ _ _ _ _ rows) as [fs' r'] eqn:Hrest.
    intros [= <- ->]. constructor; [|apply IH; reflexivity].
    exists pf, plane, ls. auto.
Qed.

Lemma write_tables_names p a arr df infile corr_data rows :
  Forall (fun f => exists plane, f.1 = outfile_name infile plane corr_data)
         (write_tables p a arr df infile corr_data rows).1.
Proof.
  induction rows as [|i rows IH]; simpl; [constructor|].
  destruct (data arr !! i) as [pf|]; [|constructor].
  destruct (too_big _ _); [constructor|].
  destruct (iloc_name df i) as [plane|e]; [|constructor].
  destruct (savetxt _) as [ls r].
  destruct r as [[]|e].
  - destruct (write_tables _ _ _ _ _ _ rows) as [fs' r']. simpl in *.
    constructor; [eauto | assumption].
  - simpl. constructor; [eauto | constructor].
Qed.

(** The tables of a call that ends without an exception: one for each pole
    figure, and in each, row [j * A + l] holds ring [j] and column [l]. *)
Lemma table_rows arr df infile step_polar step_azimuthal corr_data fs n0 P A :
  well_shaped arr -> shape arr = (n0, P, A) ->
  write_intensities_to_file arr df infile step_polar step_azimuthal corr_data
    = (fs, Ok tt) ->
  length fs = n0 /\
  forall i name ls, fs !! i = Some (name, ls) ->
    (exists plane, index df !! i = Some plane /\
                   name = outfile_name infile plane corr_data) /\
    length ls = (P * A)%nat /\
    forall j l, (j < P)%nat -> (l < A)%nat ->
      exists row v line,
        ring_at arr i j = Some row /\ row !! l = Some v /\
        ls !! (j * A + l)%nat = Some line /\
        format_row (PyFloat.int_mul (Z.of_nat j) step_polar,
                    azimuthal_angle step_azimuthal l, v) = Ok line.
Proof.
  intros [Hlen Hall] Hshape. unfold write_intensities_to_file.
  rewrite Hshape in *. simpl in Hlen, Hall. intros H.
  destruct (too_big _ _); [discriminate|].
  apply write_tables_Ok in H.
  split; [apply Forall2_length in H; rewrite length_seq in H; symmetry; exact H|].
  intros i name ls Hi.
  destruct (Forall2_lookup_r _ _ _ _ _ H Hi) as (i' & Hi' & pf & plane & ls' & Hpf & Hp & Heq & Hsave).
  apply lookup_seq in Hi' as [-> Hin]. simpl in *.
  injection Heq as -> ->. split; [eauto|].
  apply savetxt_Ok in Hsave.
  pose proof (Forall_lookup_1 _ _ _ _ Hall Hpf) as [Hpfl Hrows].
  assert (Hflat : length (flatten pf) = (P * A)%nat).
  { unfold flatten. rewrite (length_concat_uniform _ A) by assumption. congruence. }
  split.
  - apply Forall2_length in Hsave. rewrite <- Hsave.
    rewrite length_table; rewrite ?length_polar_flat, ?length_azimuthal_flat;
      congruence.
  - intros j l Hj Hl.
    destruct (lookup_lt_is_Some_2 pf j) as [row Hrow]; [lia|].
    pose proof (Forall_lookup_1 _ _ _ _ Hrows Hrow) as Hrowl. simpl in Hrowl.
    destruct (lookup_lt_is_Some_2 row l) as [v Hv]; [lia|].
    assert (Hrowt : table (flatten (polar_array step_polar P A))
                      (flatten (azimuthal_array step_azimuthal P A))
                      (flatten pf) !! (j * A + l)%nat
                    = Some (PyFloat.int_mul (Z.of_nat j) step_polar,
                            azimuthal_angle step_azimuthal l, v)).
    { rewrite table_lookup, polar_flat_lookup, azimuthal_flat_lookup by assumption.
      unfold flatten. rewrite (lookup_concat_uniform _ A) by assumption.
      rewrite Hrow, Hv. reflexivity. }
    destruct (Forall2_lookup_l _ _ _ _ _ Hsave Hrowt) as (line & Hline & Hfmt).
    exists row, v, line. unfold ring_at. rewrite Hpf. auto.
Qed.

(** ** The two passes of the script *)

Lemma conversion_pass_Ok infile n_pfs content step_polar step_azimuthal
    corr_data pfs_df fs df' :
  conversion_pass infile n_pfs content step_polar step_azimuthal corr_data
    pfs_df = (fs, Ok df') ->
  get_meta_data step_polar step_azimuthal n_pfs pfs_df content
    (PyFloat.format_f 2 step_polar) (PyFloat.format_f 2 step_azimuthal)
    corr_data = Ok df' /\
  exists ints,
    get_intensities content n_pfs df' step_polar step_azimuthal 8 corr_data
      = Ok ints /\
    write_intensities_to_file ints df' infile step_polar step_azimuthal
      corr_data = (fs, Ok tt).
Proof.
  unfold conversion_pass.
  destruct (get_meta_data _ _ _ _ _ _ _ _) as [df|e]; [|discriminate].
  destruct (get_intensities _ _ _ _ _ _ _) as [ints|e] eqn:Hints; [|discriminate].
  destruct (write_intensities_to_file _ _ _ _ _ _) as [fs' r] eqn:Hw.
  destruct r as [[]|e]; [|discriminate]. simpl. intros [= <- <-].
  split; [reflexivity|]. exists ints. rewrite Hints. auto.
Qed.

Lemma conversion_pass_names infile n_pfs content step_polar step_azimuthal
    corr_data pfs_df :
  Forall (fun f => exists plane, f.1 = outfile_name infile plane corr_data)
    (conversion_pass infile n_pfs content step_polar step_azimuthal corr_data
       pfs_df).1.
Proof.
  unfold conversion_pass.
  destruct (get_meta_data _ _ _ _ _ _ _ _) as [df|e]; [|constructor].
  destruct (get_intensities _ _ _ _ _ _ _) as [ints|e]; [|constructor].
  destruct (write_intensities_to_file _ _ _ _ _ _) as [fs' r] eqn:Hw.
  simpl. unfold write_intensities_to_file in Hw.
  destruct (shape ints) as [[n0 P] A].
  destruct (too_big _ _); [injection Hw as <- <-; constructor|].
  pose proof (write_tables_names (flatten (polar_array step_polar P A))
                (flatten (azimuthal_array step_azimuthal P A)) ints df infile
                corr_data (seq 0 n0)) as H.
  rewrite Hw in H. exact H.
Qed.

Lemma conversion_pass_count infile n_pfs content step_polar step_azimuthal
    corr_data pfs_df fs df' :
  conversion_pass infile n_pfs content step_polar step_azimuthal corr_data
    pfs_df = (fs, Ok df') ->
  length fs = Z.to_nat n_pfs.
Proof.
  intros H. apply conversion_pass_Ok in H as (_ & ints & Hints & Hw).
  apply get_intensities_shape in Hints
    as (np & na & _ & _ & _ & _ & _ & Hshape & Hws).
  apply (table_rows _ _ _ _ _ _ _ _ _ _ Hws Hshape Hw).
Qed.

(** C6, as the script has it: with the correction marker set and the
    header of corrected intensities of a requested plane equal to no line,
    the run ends in an exception, and the files it leaves are those of the
    pass over the uncorrected intensities: they carry the names of
    uncorrected tables, one for each requested plane when that pass went
    through, and no table of corrected intensities is written. *)
Theorem corrected_header_missing (infile : string) (n_pfs : Z)
    (content : list string) (step_polar step_azimuthal : float)
    (i : nat) (plane h : string) :
  Py.endswith infile ".RES" || Py.endswith infile ".res" = true ->
  sniff content = Ok (true, step_polar, step_azimuthal) ->
  0 <= n_pfs <= 6 ->
  Py.slice_to planes n_pfs !! i = Some plane ->
  header_of step_polar step_azimuthal (PyFloat.format_f 2 step_polar)
    (PyFloat.format_f 2 step_azimuthal) true plane = Ok h ->
  (forall line, line ∈ content -> Py.rstrip line <> h) ->
  let r := main infile n_pfs content in
  let uncorr :=
    conversion_pass infile n_pfs content step_polar step_azimuthal false
      (new_frame (Py.slice_to planes n_pfs) (frame_columns true)) in
  (exists e, outcome r = Raise e) /\
  stdout r = [] /\
  files r = uncorr.1 /\
  Forall (fun f => exists plane', f.1 = outfile_name infile plane' false)
         (files r) /\
  (is_ok uncorr.2 = true -> length (files r) = Z.to_nat n_pfs).
Proof.
  intros Hext Hsniff Hn Hp Hsig Hnone r uncorr.
  pose proof (conversion_pass_names infile n_pfs content step_polar
                step_azimuthal false
                (new_frame (Py.slice_to planes n_pfs) (frame_columns true)))
    as Hnames.
  fold uncorr in Hnames.
  assert (Hr : (exists e, outcome r = Raise e) /\ stdout r = [] /\
               files r = uncorr.1).
  { subst r. unfold main.
    replace (negb (Py.endswith infile ".RES") && negb (Py.endswith infile ".res"))
      with false by (rewrite <- negb_orb, Hext; reflexivity).
    rewrite Hsniff. fold uncorr.
    destruct uncorr as [fs r1] eqn:Hu. destruct r1 as [df1|e]; [|simpl; eauto].
    unfold uncorr in Hu. apply conversion_pass_Ok in Hu as (Hget & _).
    pose proof (catalog_frame_new n_pfs (frame_columns true) Hn) as Hcat0.
    apply get_meta_data_Ok in Hget as (Hs & _ & Ho).
    pose proof (catalog_frame_same_shape _ _ _ Hcat0 Hs) as Hcat1.
    assert (Hcells : forall i' j, (i' < Z.to_nat n_pfs)%nat -> (2 <= j < 4)%nat ->
                       cell_at df1 i' j = Some NaN).
    { intros i' j Hi' Hj. rewrite Ho by (simpl; lia).
      apply cell_at_new_frame; [|simpl; lia].
      rewrite <- (catalog_frame_length _ _ Hcat0) in Hi'. exact Hi'. }
    assert (Hp1 : index df1 !! i = Some plane)
      by (destruct Hs as [-> _]; exact Hp).
    destruct (catalog_frame_lookup _ _ _ _ Hcat1 Hp1) as [_ Hi].
    destruct (unmatched_header_unset step_polar step_azimuthal n_pfs df1
                content (PyFloat.format_f 2 step_polar)
                (PyFloat.format_f 2 step_azimuthal) true i plane h)
      as (df2 & Hget2 & _ & _ & [e He]);
      [assumption
      | intros i' Hi'; rewrite !Hcells by (simpl; lia); eauto
      | assumption
      | apply Hcells; [assumption | simpl; lia]
      | assumption | assumption |].
    unfold conversion_pass. rewrite Hget2, He. simpl.
    rewrite app_nil_r. eauto. }
  destruct Hr as (He & Hout & Hfiles).
  split; [assumption|]. split; [assumption|]. split; [assumption|].
  split; [rewrite Hfiles; assumption|].
  intros Hok. rewrite Hfiles. subst uncorr.
  destruct (conversion_pass _ _ _ _ _ _ _) as [fs r1] eqn:Hu.
  destruct r1 as [df1|e1]; [|discriminate].
  eapply conversion_pass_count. eassumption.
Qed.

Lemma corrected_header_missing_witness :
  let r := main "sample.RES" 1 Sample.marker_only in
  (exists e, outcome r = Raise e) /\ length (files r) = Z.to_nat 1.
Proof.
  destruct (corrected_header_missing "sample.RES" 1 Sample.marker_only 10 90
              0 "111" " 111       90.00   4    0 10.00   9    0")
    as (He & _ & _ & _ & Hlen).
  - reflexivity.
  - vm_compute. reflexivity.
  - lia.
  - reflexivity.
  - vm_compute. reflexivity.
  - apply no_line_equals. vm_compute. reflexivity.
  - split; [exact He|]. apply Hlen. vm_compute. reflexivity.
Defined.

(** C6 as the claim has it fails on a file with the marker and only the
    header of the uncorrected intensities of plane 111: the run ends in a
    [TypeError] after it wrote the table of the uncorrected intensities. *)
Lemma marker_only_partial_output :
  let r := main "sample.RES" 1 Sample.marker_only in
  outcome r = Raise TypeError /\
  map fst (files r) = ["sample_pf111_uncorr.dat"] /\
  files r <> [].
Proof.
  vm_compute. split; [reflexivity|]. split; [reflexivity | discriminate].
Qed.

(** ** The tokens of a block and the cells of its ring *)

Lemma wide_overflow_fits A ts : forall c,
  (c + length (concat ts) <= A)%nat -> wide_overflow A c ts = false.
Proof.
  induction ts as [|t ts IH]; intros c H; simpl; [reflexivity|].
  simpl in H. rewrite length_app in H.
  rewrite IH by lia.
  replace (A <? c + length t)%nat with false
    by (symmetry; apply Nat.ltb_ge; lia).
  rewrite andb_false_r. reflexivity.
Qed.

Lemma fill_long A w : (A <= length w)%nat -> fill A w = take A w.
Proof.
  intros H. unfold fill. replace (A - length w)%nat with O by lia.
  apply app_nil_r.
Qed.

(** C2, as the script has it: for every pole figure and ring whose eight
    lines read as numbers, the loop stores the tokens of the block from
    cell 0 on, and raises [ValueError] exactly when a line of two tokens or
    more reaches past the last cell. With as many tokens as cells, the ring
    holds the tokens in their order, each cell set once. With fewer
    tokens, no exception is raised and the cells after the last token
    keep the 0.0 of [np.zeros]. With more tokens and no such line, the
    tokens past the last cell are dropped and no exception is raised. *)
Theorem ring_cells_from_block (content : list string) (i r : nat) (j : Z)
    (A : nat) (arr : ndarray) (ts : list (list float)) :
  ring_at arr i r = Some (replicate A zero) ->
  block_tokens content j 8 = Ok ts ->
  read_block content 8 i (arr, r) j =
    (if wide_overflow A 0 ts then Raise ValueError
     else Ok (set_ring arr i r (fill A (concat ts)), S r)) /\
  (length (concat ts) = A ->
   wide_overflow A 0 ts = false /\ fill A (concat ts) = concat ts) /\
  ((length (concat ts) < A)%nat ->
   wide_overflow A 0 ts = false /\
   fill A (concat ts) =
     (concat ts ++ replicate (A - length (concat ts)) zero)%list) /\
  ((A < length (concat ts))%nat ->
   fill A (concat ts) = take A (concat ts)).
Proof.
  intros Hring Hts. split; [apply read_block_fill; assumption|].
  split; [|split].
  - intros H. split; [apply wide_overflow_fits; simpl; lia | apply fill_exact; exact H].
  - intros H. split; [apply wide_overflow_fits; simpl; lia | apply fill_short; lia].
  - intros H. apply fill_long. lia.
Qed.

Lemma ring_cells_from_block_witness :
  exists ts,
    block_tokens Sample.uncorrected 5 8 = Ok ts /\
    read_block Sample.uncorrected 8 0 (Broken.blank, 0%nat) 5 =
      Ok (set_ring Broken.blank 0 0 (concat ts), 1%nat).
Proof.
  assert (Hts : exists ts, block_tokens Sample.uncorrected 5 8 = Ok ts /\
                           length (concat ts) = 4%nat)
    by (eexists; split; vm_compute; reflexivity).
  destruct Hts as (ts & Hts & Hlen). exists ts. split; [exact Hts|].
  destruct (ring_cells_from_block Sample.uncorrected 0 0 5 4 Broken.blank ts)
    as (Hread & Hexact & _).
  - reflexivity.
  - exact Hts.
  - destruct (Hexact Hlen) as [Hw Hfill]. rewrite Hread, Hw, Hfill. reflexivity.
Defined.

(** C2 as the claim has it fails on a file whose first block has 3 tokens
    for the 4 cells of the ring: the run ends without an exception, and the
    fourth row of the table holds the 0.0 the cell was created with. *)
Lemma short_block_accepted :
  (let* ts := block_tokens Broken.short 5 8 in Ok (length (concat ts)))
    = Ok 3%nat /\
  samples 360 90 = Ok 4 /\
  outcome (main "sample.RES" 1 Broken.short) = Ok tt /\
  (let* f := Py.index (files (main "sample.RES" 1 Broken.short)) 0 in
   Py.index (snd f) 3) = Ok "0 270 0.000".
Proof. repeat split; vm_compute; reflexivity. Qed.

(** A surplus value on a line of its own is dropped, one at the end of a
    longer line raises [ValueError]. *)
Lemma surplus_value_examples :
  outcome (main "sample.RES" 1 Broken.single) = Ok tt /\
  main "sample.RES" 1 Broken.wide =
    {| stdout := []; files := []; outcome := Raise ValueError |}.
Proof. split; vm_compute; reflexivity. Qed.

(** ** The number of blocks and the number of rings *)

(** Steps for which the two counts part: the blocks the loop runs over
    are one more than the rings of the array. *)
Lemma uneven_step_examples :
  (samples 80 3 = Ok 26 /\ samples (8 * 80) 3 = Ok 213 /\
   length (Py.range3 5 (5 + 213) 8) = 27%nat) /\
  (samples 90 4 = Ok 22 /\ samples (8 * 90) 4 = Ok 180 /\
   length (Py.range3 5 (5 + 180) 8) = 23%nat) /\
  (samples 80 7 = Ok 11 /\ samples (8 * 80) 7 = Ok 91 /\
   length (Py.range3 5 (5 + 91) 8) = 12%nat).
Proof. repeat split; vm_compute; reflexivity. Qed.

(** The array of a call with both steps 5 has 16 rings of 72 cells
    without and 18 rings of 72 cells with correction. *)
Lemma shape_step_five content n_pfs pfs_df corr_data arr :
  get_intensities content n_pfs pfs_df 5 5 8 corr_data = Ok arr ->
  shape arr = (Z.to_nat n_pfs, if corr_data then 18%nat else 16%nat, 72%nat).
Proof.
  intros H. apply get_intensities_shape in H
    as (np & na & Hnp & Hna & _ & _ & _ & Hshape & _).
  rewrite Hshape. destruct corr_data; vm_compute in Hnp, Hna;
    injection Hnp as <-; injection Hna as <-; reflexivity.
Qed.

(** With both steps 5 the loop over the blocks stops where the array
    ends: 8 lines for each of the 16 or 18 rings. *)
Lemma blocks_step_five corr_data :
  samples (8 * polar_max corr_data) 5 =
    Ok (8 * Z.of_nat (if corr_data then 18 else 16)) /\
  samples (polar_max corr_data) 5 = Ok (Z.of_nat (if corr_data then 18 else 16)) /\
  samples 360 5 = Ok (Z.of_nat 72).
Proof. destruct corr_data; repeat split; vm_compute; reflexivity. Qed.

(** With both steps 5, a count from 0 to 6, header line numbers that are
    set and blocks that read as numbers and fit their rings, the call
    returns the array of 16 or 18 rings of 72 cells in which ring [r] of
    pole figure [i] holds the tokens of the 8 lines from index
    [offsets i + 1 + 8 * r] on. *)
Lemma extraction_step_five content n_pfs pfs_df corr_data offsets toks :
  0 <= n_pfs <= 6 ->
  (forall i, (i < Z.to_nat n_pfs)%nat ->
     iloc pfs_df i (S (head_pos corr_data)) = Ok (Int (offsets i)) /\
     forall t, (t < if corr_data then 18 else 16)%nat ->
       block_tokens content (offsets i + 1 + 8 * Z.of_nat t) 8 = Ok (toks i t) /\
       wide_overflow 72 0 (toks i t) = false) ->
  exists arr,
    get_intensities content n_pfs pfs_df 5 5 8 corr_data = Ok arr /\
    shape arr = (Z.to_nat n_pfs, if corr_data then 18%nat else 16%nat, 72%nat) /\
    forall i r, (i < Z.to_nat n_pfs)%nat ->
      (r < if corr_data then 18 else 16)%nat ->
      ring_at arr i r = Some (fill 72 (concat (toks i r))).
Proof.
  intros Hn H. destruct (blocks_step_five corr_data) as (Hsi & Hnp & Hna).
  eapply (get_intensities_fill content n_pfs pfs_df 5 5 8 corr_data _ 72
            offsets toks); try eassumption; [lia|].
  apply zeros_fits; try lia.
  unfold nbytes, intp_max.
  destruct (Z.eqb_spec n_pfs 0); destruct corr_data; simpl; lia.
Qed.

(** The run on a file with both steps 5: one table of 16 x 72 rows, the
    first for the angles 0 and 0. *)
Lemma five_degrees_run :
  let r := main "sample.RES" 1 Sample.five_degrees in
  outcome r = Ok tt /\
  map (fun f => (fst f, length (snd f))) (files r)
    = [("sample_pf111_uncorr.dat", 1152%nat)] /\
  (let* f := Py.index (files r) 0 in Py.index (snd f) 0) = Ok "0 0 101.000".
Proof. vm_compute. repeat split; reflexivity. Qed.

(** C3 on a polar step of 3: the array has [int(80 / 3.0) = 26] rings,
    the loop over the blocks runs over [int(8 * 80 / 3.0) = 213] lines, that
    is 27 blocks, and the run ends in the [IndexError] of the 27th. *)
Theorem uneven_step_index_error :
  samples 80 3 = Ok 26 /\
  samples (8 * 80) 3 = Ok 213 /\
  length (Py.range3 5 (5 + 213) 8) = 27%nat /\
  main "sample.RES" 1 Uneven.step_three =
    {| stdout := []; files := []; outcome := Raise IndexError |}.
Proof. repeat split; vm_compute; reflexivity. Qed.

(** ** Reading a table back *)

Lemma append_cons c s t : String c s +:+ t = String c (s +:+ t).
Proof. reflexivity. Qed.

Lemma append_nil s : EmptyString +:+ s = s.
Proof. reflexivity. Qed.

Lemma digits_cons c v s acc k :
  PyFloat.digit_of c = Some v ->
  PyFloat.digits (String c s) acc k = PyFloat.digits s (10 * acc + v) (S k).
Proof. intros H. simpl. rewrite H. reflexivity. Qed.

Lemma digits_string_of_uint d : forall rest acc k,
  PyFloat.digits (NilEmpty.string_of_uint d +:+ rest) acc k =
    PyFloat.digits rest (uint_val d acc) (Decimal.nb_digits d + k)%nat.
Proof.
  induction d; intros rest acc k;
    cbn [NilEmpty.string_of_uint String.append uint_val Decimal.nb_digits];
    [reflexivity | ..];
    rewrite append_cons;
    match goal with
    | |- context [uint_val d (10 * acc + ?v)] =>
        rewrite (digits_cons _ v) by reflexivity
    end;
    rewrite IHd; f_equal; lia.
Qed.

Lemma append_empty_r s : s +:+ EmptyString = s.
Proof.
  induction s as [|c s IH]; [reflexivity|].
  rewrite append_cons. f_equal. exact IH.
Qed.

Lemma of_uint_acc_val d : forall p,
  Z.pos (Pos.of_uint_acc d p) = uint_val d (Z.pos p).
Proof.
  induction d; intros p; cbn [Pos.of_uint_acc uint_val];
    [reflexivity | ..]; rewrite IHd; f_equal; lia.
Qed.

Lemma of_uint_val d : Z.of_N (Pos.of_uint d) = uint_val d 0.
Proof.
  induction d; cbn [Pos.of_uint uint_val]; [reflexivity | exact IHd | ..];
    cbn [Z.of_N]; rewrite of_uint_acc_val; f_equal.
Qed.

Lemma nb_digits_nonnil u : u <> Decimal.Nil -> (0 < Decimal.nb_digits u)%nat.
Proof. destruct u; simpl; intros H; try lia. contradiction. Qed.

Lemma str_nonneg n :
  0 <= n ->
  exists u, u <> Decimal.Nil /\ Py.str n = NilEmpty.string_of_uint u /\
            uint_val u 0 = n.
Proof.
  intros Hn. destruct n as [|p|p]; [| |lia].
  - exists (Decimal.D0 Decimal.Nil). split; [discriminate|]. split; reflexivity.
  - exists (Pos.to_uint p).
    pose proof (DecimalPos.Unsigned.to_uint_nonnil p) as Hnil.
    split; [exact Hnil|]. split.
    + unfold Py.str. simpl. unfold NilZero.string_of_uint.
      destruct (Pos.to_uint p); [contradiction | reflexivity ..].
    + rewrite <- of_uint_val, DecimalPos.Unsigned.of_to. reflexivity.
Qed.

Lemma str_neg n : n < 0 -> Py.str n = String "-" (Py.str (- n)).
Proof. destruct n as [|p|p]; try lia. intros _. reflexivity. Qed.


(** A text that starts with a digit carries no sign and is none of the
    names [inf], [infinity] and [nan]. *)
Lemma digit_head_plain c v s :
  PyFloat.digit_of c = Some v ->
  PyFloat.parse_sign (String c s) = (false, String c s) /\
  String.eqb (PyFloat.lower (String c s)) "inf" = false /\
  String.eqb (PyFloat.lower (String c s)) "infinity" = false /\
  String.eqb (PyFloat.lower (String c s)) "nan" = false.
Proof.
  intros H.
  destruct c as [[] [] [] [] [] [] [] []]; cbv in H; try discriminate H;
    repeat split; reflexivity.
Qed.

Lemma str_head m :
  0 <= m -> exists c v s, Py.str m = String c s /\ PyFloat.digit_of c = Some v.
Proof.
  intros Hm. destruct (str_nonneg m Hm) as (u & Hu & -> & _).
  destruct u; [contradiction | ..]; cbn [NilEmpty.string_of_uint];
    eexists _, _, _; (split; [reflexivity | reflexivity]).
Qed.

(** Reading the digits of [str(m)]: the number [m], at least one digit. *)
Lemma digits_str m rest k0 :
  0 <= m ->
  exists nb, (0 < nb)%nat /\
    PyFloat.digits (Py.str m +:+ rest) 0 k0 = PyFloat.digits rest m (nb + k0)%nat.
Proof.
  intros Hm. destruct (str_nonneg m Hm) as (u & Hu & -> & Hval).
  exists (Decimal.nb_digits u). split; [apply nb_digits_nonnil; assumption|].
  rewrite digits_string_of_uint, Hval. reflexivity.
Qed.

Lemma read_int_nonneg m : 0 <= m -> Reader.read_int (Py.str m) = Ok m.
Proof.
  intros Hm. unfold Reader.read_int.
  destruct (str_head m Hm) as (c & v & s & Hs & Hc).
  destruct (digit_head_plain c v s Hc) as (Hsign & _).
  rewrite Hs, Hsign, <- Hs.
  destruct (digits_str m EmptyString 0 Hm) as (nb & Hnb & Hd).
  rewrite append_empty_r in Hd. rewrite Hd. cbn [PyFloat.digits].
  replace (nb + 0 =? 0)%nat with false by (symmetry; apply Nat.eqb_neq; lia).
  reflexivity.
Qed.

Lemma read_int_str n : Reader.read_int (Py.str n) = Ok n.
Proof.
  destruct (Z_lt_le_dec n 0) as [Hneg|Hnn]; [|apply read_int_nonneg; assumption].
  rewrite str_neg by assumption.
  pose proof (read_int_nonneg (- n) ltac:(lia)) as H.
  unfold Reader.read_int in *. cbn [PyFloat.parse_sign].
  destruct (str_head (- n) ltac:(lia)) as (c & v & s & Hs & Hc).
  destruct (digit_head_plain c v s Hc) as (Hsign & _).
  rewrite Hs, Hsign, <- Hs in H.
  destruct (PyFloat.digits (Py.str (- n)) 0 0) as [[w k] rest].
  destruct ((k =? 0)%nat || negb (String.eqb rest "")); [discriminate|].
  injection H as H. simpl in H. subst w. simpl. f_equal. lia.
Qed.

(** A goal about a decimal digit [d], settled digit by digit. *)
Ltac each_digit d :=
  let Hd := fresh "Hd" in
  assert (Hd : d = 0 \/ d = 1 \/ d = 2 \/ d = 3 \/ d = 4 \/ d = 5 \/ d = 6 \/
               d = 7 \/ d = 8 \/ d = 9) by lia;
  repeat (destruct Hd as [->|Hd]; [reflexivity|]); subst d; reflexivity.

Lemma digit_of_digit_char d :
  0 <= d < 10 -> PyFloat.digit_of (PyFloat.digit_char d) = Some d.
Proof.
  intros H. each_digit d.
Qed.

Lemma zfill_3 n :
  PyFloat.zfill 3 n =
    String (PyFloat.digit_char ((n / 10 / 10) mod 10))
      (String (PyFloat.digit_char ((n / 10) mod 10))
         (String (PyFloat.digit_char (n mod 10)) EmptyString)).
Proof. reflexivity. Qed.

Lemma digits_zfill_3 fr acc :
  0 <= fr < 1000 ->
  PyFloat.digits (PyFloat.zfill 3 fr) acc 0 = (1000 * acc + fr, 3%nat, EmptyString).
Proof.
  intros H. rewrite zfill_3.
  rewrite (digits_cons _ ((fr / 10 / 10) mod 10))
    by (apply digit_of_digit_char, Z.mod_pos_bound; lia).
  rewrite (digits_cons _ ((fr / 10) mod 10))
    by (apply digit_of_digit_char, Z.mod_pos_bound; lia).
  rewrite (digits_cons _ (fr mod 10))
    by (apply digit_of_digit_char, Z.mod_pos_bound; lia).
  cbn [PyFloat.digits]. f_equal. f_equal.
  Z.to_euclidean_division_equations. lia.
Qed.

(** The text of a number with three decimals reads back as that number
    of thousandths. *)
Lemma parse_fixed_3 neg ip fr :
  0 <= ip -> 0 <= fr < 1000 ->
  PyFloat.parse_literal
    (PyFloat.sign_str neg +:+ Py.str ip +:+ "." +:+ PyFloat.zfill 3 fr)
    = Ok (PyFloat.Dec neg (1000 * ip + fr) (-3)).
Proof.
  intros Hip Hfr.
  destruct (str_head ip Hip) as (c & v & s & Hs & Hc).
  set (body := Py.str ip +:+ "." +:+ PyFloat.zfill 3 fr).
  assert (Hbody : body = String c (s +:+ "." +:+ PyFloat.zfill 3 fr))
    by (unfold body; rewrite Hs; reflexivity).
  destruct (digit_head_plain c v (s +:+ "." +:+ PyFloat.zfill 3 fr) Hc)
    as (Hsign & Hinf & Hinfinity & Hnan).
  rewrite <- Hbody in Hsign, Hinf, Hinfinity, Hnan.
  assert (Hps : PyFloat.parse_sign (PyFloat.sign_str neg +:+ body) = (neg, body)).
  { destruct neg; [reflexivity|]. exact Hsign. }
  unfold PyFloat.parse_literal. rewrite Hps, Hinf, Hinfinity, Hnan.
  cbn [orb]. unfold body.
  destruct (digits_str ip ("." +:+ PyFloat.zfill 3 fr) 0 Hip) as (nb & Hnb & Hd).
  rewrite Hd. rewrite append_cons, append_nil.
  assert (Hdot : forall rest acc k,
            PyFloat.digits (String "." rest) acc k = (acc, k, String "." rest))
    by reflexivity.
  rewrite Hdot. rewrite digits_zfill_3 by assumption.
  replace (nb + 0 + 3 =? 0)%nat with false by (symmetry; apply Nat.eqb_neq; lia).
  cbn [PyFloat.parse_exponent]. do 2 f_equal. 
Qed.

(** ** Fields without whitespace *)

Lemma no_space_app s t : no_space (s +:+ t) = no_space s && no_space t.
Proof.
  induction s as [|c s IH]; [reflexivity|].
  rewrite append_cons. cbn [no_space]. rewrite IH. apply andb_assoc.
Qed.

Lemma no_space_string_of_uint u : no_space (NilEmpty.string_of_uint u) = true.
Proof. induction u; cbn [NilEmpty.string_of_uint no_space]; auto. Qed.

Lemma no_space_str n : no_space (Py.str n) = true.
Proof.
  assert (H : forall m, 0 <= m -> no_space (Py.str m) = true).
  { intros m Hm. destruct (str_nonneg m Hm) as (u & _ & -> & _).
    apply no_space_string_of_uint. }
  destruct (Z_lt_le_dec n 0) as [Hneg|Hnn]; [|auto].
  rewrite str_neg by assumption. cbn [no_space]. rewrite H by lia. reflexivity.
Qed.

Lemma isspace_digit_char d :
  0 <= d < 10 -> Py.isspace (PyFloat.digit_char d) = false.
Proof.
  intros H. each_digit d.
Qed.

Lemma no_space_zfill d : forall n, no_space (PyFloat.zfill d n) = true.
Proof.
  induction d as [|d IH]; intros n; [reflexivity|].
  cbn [PyFloat.zfill]. rewrite no_space_app, IH. cbn [no_space andb].
  rewrite isspace_digit_char by (apply Z.mod_pos_bound; lia). reflexivity.
Qed.

Lemma no_space_format_f d x : no_space (PyFloat.format_f d x) = true.
Proof.
  unfold PyFloat.format_f.
  destruct (Prim2SF x) as [s|s| |s m e]; try (destruct s; reflexivity);
    try reflexivity.
  - rewrite !no_space_app, no_space_zfill. destruct s; reflexivity.
  - rewrite !no_space_app, no_space_zfill, no_space_str. destruct s; reflexivity.
Qed.

Lemma split_from_word w rest : forall tok,
  no_space w = true ->
  Py.split_from (w +:+ rest) tok =
    Py.split_from rest (rev (list_ascii_of_string w) ++ tok)%list.
Proof.
  induction w as [|c w IH]; intros tok H; [reflexivity|].
  cbn [no_space] in H. apply andb_true_iff in H as [Hc Hw].
  apply negb_true_iff in Hc.
  rewrite append_cons. cbn [Py.split_from]. rewrite Hc, IH by assumption.
  cbn [list_ascii_of_string rev]. rewrite <- app_assoc. reflexivity.
Qed.

Lemma flush_word w rest :
  w <> EmptyString ->
  Py.flush (rev (list_ascii_of_string w) ++ [])%list rest = w :: rest.
Proof.
  intros Hw. rewrite app_nil_r.
  destruct (rev (list_ascii_of_string w)) as [|c tok] eqn:E.
  - exfalso. apply Hw. apply (f_equal (@rev ascii)) in E.
    rewrite rev_involutive in E. simpl in E.
    rewrite <- (string_of_list_ascii_of_string w), E. reflexivity.
  - cbn [Py.flush]. rewrite <- E, rev_involutive, string_of_list_ascii_of_string.
    reflexivity.
Qed.

(** Three fields with one space between them split into the fields. *)
Lemma split_three a b c :
  no_space a = true -> no_space b = true -> no_space c = true ->
  a <> EmptyString -> b <> EmptyString -> c <> EmptyString ->
  Py.split (a +:+ " " +:+ b +:+ " " +:+ c) = [a; b; c].
Proof.
  intros Ha Hb Hc Ha' Hb' Hc'. unfold Py.split.
  assert (Hsp : forall rest tok,
            Py.split_from (" " +:+ rest) tok =
              Py.flush tok (Py.split_from rest [])) by reflexivity.
  rewrite split_from_word, Hsp, flush_word by assumption.
  rewrite split_from_word, Hsp, flush_word by assumption.
  rewrite <- (append_empty_r c) at 1. rewrite split_from_word by assumption.
  cbn [Py.split_from]. rewrite flush_word by assumption. reflexivity.
Qed.

Lemma str_nonempty n : Py.str n <> EmptyString.
Proof.
  destruct (Z_lt_le_dec n 0) as [Hneg|Hnn].
  - rewrite str_neg by assumption. discriminate.
  - destruct (str_head n Hnn) as (c & v & s & -> & _). discriminate.
Qed.

Lemma format_f_nonempty d x : PyFloat.format_f d x <> EmptyString.
Proof.
  unfold PyFloat.format_f.
  destruct (Prim2SF x) as [s|s| |s m e]; try (destruct s; discriminate);
    try discriminate.
  destruct s; [discriminate|]. rewrite append_nil.
  destruct (Py.str _) eqn:E; [exfalso; eapply str_nonempty; eassumption|].
  discriminate.
Qed.

(** ** Three decimals *)

Lemma div_half_even_close num den :
  0 < den -> 2 * Z.abs (PyFloat.div_half_even num den * den - num) <= den.
Proof.
  intros Hden. unfold PyFloat.div_half_even.
  pose proof (Z.div_mod num den ltac:(lia)) as Hdm.
  pose proof (Z.mod_pos_bound num den Hden) as Hr.
  destruct (Z.compare_spec (2 * (num mod den)) den) as [Heq|Hlt|Hgt];
    [destruct (Z.even (num / den))|..]; nia.
Qed.

Lemma div_half_even_nonneg num den :
  0 <= num -> 0 < den -> 0 <= PyFloat.div_half_even num den.
Proof.
  intros Hnum Hden. unfold PyFloat.div_half_even.
  pose proof (Z.div_pos num den Hnum Hden).
  destruct (2 * (num mod den) ?= den); [destruct (Z.even _)|..]; lia.
Qed.

Lemma scaled_nonneg d m e : 0 <= PyFloat.scaled d m e.
Proof.
  unfold PyFloat.scaled. destruct (0 <=? e) eqn:E.
  - apply Z.leb_le in E.
    pose proof (Z.pow_nonneg 2 e ltac:(lia)).
    pose proof (Z.pow_nonneg 10 (Z.of_nat d) ltac:(lia)). nia.
  - apply div_half_even_nonneg.
    + pose proof (Z.pow_nonneg 10 (Z.of_nat d) ltac:(lia)). nia.
    + apply Z.pow_pos_nonneg; [lia|]. apply Z.leb_gt in E. lia.
Qed.

Lemma thousandths_close v : half_thousandth_close (thousandths v) v.
Proof.
  unfold half_thousandth_close, thousandths.
  destruct (Prim2SF v) as [s|s| |s m e]; try exact I; [reflexivity|].
  unfold PyFloat.scaled. destruct (0 <=? e) eqn:E; [reflexivity|].
  apply div_half_even_close. apply Z.pow_pos_nonneg; [lia|].
  apply Z.leb_gt in E. lia.
Qed.

(** ['%.3f' % v] reads back as the thousandths of [v] with its sign. *)
Lemma format_f_3_reads_back v :
  finite v = true ->
  PyFloat.parse_literal (PyFloat.format_f 3 v) =
    Ok (PyFloat.Dec (sign_of v) (thousandths v) (-3)).
Proof.
  unfold finite, PyFloat.format_f, sign_of, thousandths.
  destruct (Prim2SF v) as [s|s| |s m e]; try discriminate; intros _.
  - change (PyFloat.sign_str s +:+ "0." +:+ PyFloat.zfill 3 0)
      with (PyFloat.sign_str s +:+ Py.str 0 +:+ "." +:+ PyFloat.zfill 3 0).
    rewrite parse_fixed_3 by lia. reflexivity.
  - pose proof (scaled_nonneg 3 m e) as HN.
    change (10 ^ Z.of_nat 3) with 1000.
    rewrite parse_fixed_3.
    + do 2 f_equal. pose proof (Z.div_mod (PyFloat.scaled 3 m e) 1000). lia.
    + apply Z.div_pos; lia.
    + apply Z.mod_pos_bound. lia.
Qed.

(** A written row reads back as the integer parts of its two angles and
    the thousandths of its intensity. *)
Lemma format_row_reads_back x y v line :
  format_row (x, y, v) = Ok line ->
  exists nx ny,
    PyFloat.to_int x = Ok nx /\ PyFloat.to_int y = Ok ny /\
    line = Py.str nx +:+ " " +:+ Py.str ny +:+ " " +:+ PyFloat.format_f 3 v /\
    (finite v = true ->
     Reader.read_row line =
       Ok (nx, ny, PyFloat.Dec (sign_of v) (thousandths v) (-3))).
Proof.
  unfold format_row, PyFloat.format_i. intros H.
  apply bind_Ok in H as (xs & Hx & H). apply bind_Ok in Hx as (nx & Hnx & [= <-]).
  apply bind_Ok in H as (ys & Hy & H). apply bind_Ok in Hy as (ny & Hny & [= <-]).
  injection H as <-. exists nx, ny. split; [assumption|]. split; [assumption|].
  split; [reflexivity|]. intros Hfin. unfold Reader.read_row.
  rewrite split_three; auto using no_space_str, no_space_format_f,
    str_nonempty, format_f_nonempty.
  rewrite !read_int_str. cbn [bind].
  rewrite format_f_3_reads_back by assumption. reflexivity.
Qed.

(** ** The round trip through a table *)

(** C7, as the script has it: for every array with the lengths of its
    shape and every table of it written without an exception, the row of
    ring [j] and column [l] is the line at index [j * A + l], in the format
    of two integers and one float with three decimals. Read back, it gives
    the integer parts, towards zero, of [j * step_polar] and of the sum of
    [l] times [step_azimuthal], and, for a finite intensity, its
    thousandths rounded to the nearest, ties to even, which are within half
    a thousandth of the intensity. *)
Theorem table_reads_back (arr : ndarray) (pfs_df : DataFrame)
    (infile : string) (step_polar step_azimuthal : float) (corr_data : bool)
    (fs : list file) (n0 P A i : nat) (name : string) (ls : list string)
    (j l : nat) :
  well_shaped arr -> shape arr = (n0, P, A) ->
  write_intensities_to_file arr pfs_df infile step_polar step_azimuthal
    corr_data = (fs, Ok tt) ->
  fs !! i = Some (name, ls) ->
  (j < P)%nat -> (l < A)%nat ->
  exists row v line nx ny,
    ring_at arr i j = Some row /\ row !! l = Some v /\
    ls !! (j * A + l)%nat = Some line /\
    PyFloat.to_int (PyFloat.int_mul (Z.of_nat j) step_polar) = Ok nx /\
    PyFloat.to_int (azimuthal_angle step_azimuthal l) = Ok ny /\
    line = Py.str nx +:+ " " +:+ Py.str ny +:+ " " +:+ PyFloat.format_f 3 v /\
    (finite v = true ->
     Reader.read_row line =
       Ok (nx, ny, PyFloat.Dec (sign_of v) (thousandths v) (-3)) /\
     half_thousandth_close (thousandths v) v).
Proof.
  intros Hw Hshape Hwrite Hi Hj Hl.
  destruct (table_rows _ _ _ _ _ _ _ _ _ _ Hw Hshape Hwrite) as [_ Hrows].
  destruct (Hrows i name ls Hi) as (_ & _ & Hcells).
  destruct (Hcells j l Hj Hl) as (row & v & line & Hrow & Hv & Hline & Hfmt).
  apply format_row_reads_back in Hfmt as (nx & ny & Hnx & Hny & Htext & Hread).
  exists row, v, line, nx, ny. repeat (split; [assumption|]).
  intros Hfin. split; [auto | apply thousandths_close].
Qed.

Lemma table_reads_back_witness :
  let ls := ["0 0 0.250"; "0 5 1.062"; "5 0 12.500"; "5 5 0.500"] in
  write_intensities_to_file Grid.small Located.uncorrected "sample.RES"
    5 5 false = ([("sample_pf111_uncorr.dat", ls)], Ok tt) /\
  Reader.read_row "5 5 0.500" = Ok (5, 5, PyFloat.Dec false 500 (-3)).
Proof.
  intros ls. split; [vm_compute; reflexivity|].
  destruct (table_reads_back Grid.small Located.uncorrected "sample.RES" 5 5
              false [("sample_pf111_uncorr.dat", ls)] 1 2 2 0
              "sample_pf111_uncorr.dat" ls 1 1)
    as (row & v & line & nx & ny & Hrow & Hv & Hline & Hnx & Hny & Htext & Hread).
  - split; [reflexivity|]. repeat constructor.
  - reflexivity.
  - vm_compute. reflexivity.
  - reflexivity.
  - lia.
  - lia.
  - vm_compute in Hrow. injection Hrow as <-.
    vm_compute in Hv. injection Hv as <-.
    vm_compute in Hnx. injection Hnx as <-.
    vm_compute in Hny. injection Hny as <-.
    vm_compute in Hline. injection Hline as <-.
    destruct Hread as [Hread _]; [vm_compute; reflexivity|].
    exact Hread.
Defined.

(** C7 as the claim has it fails for a polar step of 2.5: the row of
    ring 1 gives the polar angle 2 when read back, and [1 * 2.5] is not 2. *)
Lemma half_degree_step_truncated :
  write_intensities_to_file Grid.small Located.uncorrected "sample.RES"
    2.5 5 false =
    ([("sample_pf111_uncorr.dat",
       ["0 0 0.250"; "0 5 1.062"; "2 0 12.500"; "2 5 0.500"])], Ok tt) /\
  Reader.read_row "2 0 12.500" = Ok (2, 0, PyFloat.Dec false 12500 (-3)) /\
  PrimFloat.eqb (PyFloat.of_int 2) (PyFloat.int_mul 1 2.5) = false.
Proof. repeat split; vm_compute; reflexivity. Qed.

(** ** The order of the rows *)

Lemma whole_sums_angle s n : forall l0,
  whole_sums s (azimuthal_angle (PyFloat.of_int s) l0) (Z.of_nat l0 * s) n
    = true ->
  forall l, (l < n)%nat ->
    PyFloat.to_int (azimuthal_angle (PyFloat.of_int s) (l0 + l))
      = Ok (Z.of_nat (l0 + l) * s).
Proof.
  induction n as [|n IH]; intros l0 H l Hl; [lia|].
  cbn [whole_sums] in H. apply andb_true_iff in H as [H0 H].
  destruct l as [|l].
  - rewrite Nat.add_0_r.
    destruct (PyFloat.to_int _) as [z|e]; [|discriminate].
    apply Z.eqb_eq in H0. congruence.
  - replace (l0 + S l)%nat with (S l0 + l)%nat by lia. apply IH; [|lia].
    cbn [azimuthal_angle].
    replace (Z.of_nat (S l0) * s) with (Z.of_nat l0 * s + s) by lia. exact H.
Qed.

Lemma whole_steps_checked :
  forallb whole_step_check (map Z.of_nat (seq 1 360)) = true.
Proof. vm_compute. reflexivity. Qed.

(** For a step of a whole number of degrees from 1 to 360 the sums are
    exact: the integer part of the angle of column [l] is [l] times the
    step. *)
Lemma whole_step_angle s a l :
  1 <= s <= 360 -> samples 360 (PyFloat.of_int s) = Ok a ->
  (l < Z.to_nat a)%nat ->
  PyFloat.to_int (azimuthal_angle (PyFloat.of_int s) l) = Ok (Z.of_nat l * s).
Proof.
  intros Hs Ha Hl. pose proof whole_steps_checked as H.
  rewrite forallb_forall in H. specialize (H s).
  unfold whole_step_check in H. rewrite Ha in H.
  apply (whole_sums_angle s (Z.to_nat a) 0); [apply H|assumption].
  apply in_map_iff. exists (Z.to_nat s). split; [lia|]. apply in_seq. lia.
Qed.

(** C10, as the script has it: in every table written from the array of
    [get_intensities], the rows are in ring-major order. With
    [A = int(360 / step_azimuthal)], the line at index [r] is the row of
    ring [j = r div A] and column [l = r mod A]: it holds, under
    [fmt=['%i', '%i', '%.3f']], the integer part towards zero of
    [j * step_polar], the integer part towards zero of the sum of [l] times
    [step_azimuthal] added to 0 one at a time, and the intensity of cell
    [(j, l)]. The azimuthal field is 0 in column 0. It is [l] times the
    step when the step is a whole number of degrees from 1 to 360; the
    field is an integer, so it does not advance by a step that is not a
    whole number. *)
Theorem rows_ring_major (content : list string) (n_pfs : Z)
    (pfs_df : DataFrame) (step_polar step_azimuthal : float)
    (corr_data : bool) (arr : ndarray) (infile : string) (fs : list file)
    (n_azimuthal : Z) (i : nat) (name : string) (ls : list string)
    (r : nat) (line : string) :
  get_intensities content n_pfs pfs_df step_polar step_azimuthal 8 corr_data
    = Ok arr ->
  write_intensities_to_file arr pfs_df infile step_polar step_azimuthal
    corr_data = (fs, Ok tt) ->
  samples 360 step_azimuthal = Ok n_azimuthal ->
  fs !! i = Some (name, ls) ->
  ls !! r = Some line ->
  exists row v nx ny,
    ring_at arr i (r / Z.to_nat n_azimuthal) = Some row /\
    row !! (r mod Z.to_nat n_azimuthal)%nat = Some v /\
    PyFloat.to_int
      (PyFloat.int_mul (Z.of_nat (r / Z.to_nat n_azimuthal)) step_polar)
      = Ok nx /\
    PyFloat.to_int
      (azimuthal_angle step_azimuthal (r mod Z.to_nat n_azimuthal)) = Ok ny /\
    line = Py.str nx +:+ " " +:+ Py.str ny +:+ " " +:+ PyFloat.format_f 3 v /\
    ((r mod Z.to_nat n_azimuthal)%nat = 0%nat -> ny = 0) /\
    (forall s, 1 <= s <= 360 -> step_azimuthal = PyFloat.of_int s ->
       ny = Z.of_nat (r mod Z.to_nat n_azimuthal) * s).
Proof.
  intros Hget Hwrite Hna Hi Hr.
  apply get_intensities_shape in Hget
    as (np & na & Hnp & Hna' & _ & _ & _ & Hshape & Hw).
  assert (na = n_azimuthal) by congruence. subst na.
  destruct (table_rows _ _ _ _ _ _ _ _ _ _ Hw Hshape Hwrite) as [_ Hrows].
  destruct (Hrows i name ls Hi) as (_ & Hlen & Hcells).
  set (A := Z.to_nat n_azimuthal) in *.
  pose proof (lookup_lt_Some _ _ _ Hr) as Hlt. rewrite Hlen in Hlt.
  assert (HA : (0 < A)%nat) by (destruct A; lia).
  assert (Hj : (r / A < Z.to_nat np)%nat)
    by (apply Nat.Div0.div_lt_upper_bound; lia).
  assert (Hl : (r mod A < A)%nat) by (apply Nat.mod_upper_bound; lia).
  destruct (Hcells (r / A)%nat (r mod A)%nat Hj Hl)
    as (row & v & line' & Hrow & Hv & Hline & Hfmt).
  replace (r / A * A + r mod A)%nat with r in Hline
    by (pose proof (Nat.div_mod_eq r A); lia).
  assert (line' = line) by congruence. subst line'.
  apply format_row_reads_back in Hfmt as (nx & ny & Hnx & Hny & Htext & _).
  exists row, v, nx, ny. repeat (split; [assumption|]). split.
  - intros H0. rewrite H0 in Hny. cbn [azimuthal_angle] in Hny.
    assert (Hz : PyFloat.to_int (PyFloat.of_int 0) = Ok 0)
      by (vm_compute; reflexivity).
    congruence.
  - intros s Hs ->.
    pose proof (whole_step_angle s n_azimuthal (r mod A) Hs Hna Hl) as Hw'.
    congruence.
Qed.

Lemma rows_ring_major_witness :
  exists arr fs ls,
    get_intensities Sample.uncorrected 1 Located.uncorrected 10 90 8 false
      = Ok arr /\
    write_intensities_to_file arr Located.uncorrected "sample.RES" 10 90 false
      = (fs, Ok tt) /\
    fs !! 0%nat = Some ("sample_pf111_uncorr.dat", ls) /\
    ls !! 5%nat = Some "10 90 30.250" /\
    exists row v nx ny,
      ring_at arr 0 (5 / Z.to_nat 4) = Some row /\
      row !! (5 mod Z.to_nat 4)%nat = Some v /\
      PyFloat.to_int (PyFloat.int_mul (Z.of_nat (5 / Z.to_nat 4)) 10) = Ok nx /\
      PyFloat.to_int (azimuthal_angle 90 (5 mod Z.to_nat 4)) = Ok ny /\
      "10 90 30.250" =
        Py.str nx +:+ " " +:+ Py.str ny +:+ " " +:+ PyFloat.format_f 3 v /\
      ny = Z.of_nat (5 mod Z.to_nat 4) * 90.
Proof.
  eexists. eexists. eexists.
  split; [vm_compute; reflexivity|].
  split; [vm_compute; reflexivity|].
  split; [vm_compute; reflexivity|].
  split; [vm_compute; reflexivity|].
  destruct (rows_ring_major Sample.uncorrected 1 Located.uncorrected 10 90
              false _ "sample.RES" _ 4 0 _ _ 5 "10 90 30.250"
              ltac:(vm_compute; reflexivity) ltac:(vm_compute; reflexivity)
              ltac:(vm_compute; reflexivity) ltac:(vm_compute; reflexivity)
              ltac:(vm_compute; reflexivity))
    as (row & v & nx & ny & Hrow & Hv & Hnx & Hny & Htext & _ & Hs).
  exists row, v, nx, ny. repeat (split; [assumption|]).
  apply (Hs 90); [lia | vm_compute; reflexivity].
Defined.

(** C10 as the claim has it fails for an azimuthal step of 2.5: the run
    on a file of 8 rings of 144 columns ends without an exception, and the
    azimuthal fields of the first five rows of its table are 0, 2, 5, 7
    and 10, which do not advance by 2.5; the angle of column 1 is 2.5 and
    its field is 2. *)
Lemma azimuthal_field_truncated :
  let r := main "sample.RES" 1 Fractional.azimuthal in
  outcome r = Ok tt /\
  map (fun f => (fst f, length (snd f), take 5 (snd f))) (files r) =
    [("sample_pf111_uncorr.dat", 1152%nat,
      ["0 0 12.500"; "0 2 30.250"; "0 5 7.125"; "0 7 0.500"; "0 10 0.000"])] /\
  samples 360 2.5 = Ok 144 /\
  PrimFloat.eqb (azimuthal_angle 2.5 1) 2.5 = true /\
  PyFloat.to_int (azimuthal_angle 2.5 1) = Ok 2.
Proof. vm_compute. repeat split; reflexivity. Qed.

(** * Further properties of the four functions and of the script *)

(** ** Loops, lists and texts *)

Ltac pass_extension_check Hext :=
  unfold main;
  match goal with
  | |- context [negb (Py.endswith ?f ".RES") && negb (Py.endswith ?f ".res")] =>
      replace (negb (Py.endswith f ".RES") && negb (Py.endswith f ".res"))
        with false by (rewrite <- negb_orb, Hext; reflexivity)
  end.

Lemma index_nat {A} (l : list A) (n : nat) :
  Py.index l (Z.of_nat n) =
    match l !! n with Some x => Ok x | None => Raise IndexError end.
Proof.
  unfold Py.index. destruct (Z.ltb_spec (Z.of_nat n) 0) as [|_]; [lia|].
  destruct (Z.ltb_spec (Z.of_nat n) 0) as [|_]; [lia|].
  rewrite Nat2Z.id. reflexivity.
Qed.

Lemma index_map {X Y} (f : X -> Y) (l : list X) (z : Z) :
  Py.index (map f l) z =
    match Py.index l z with Ok x => Ok (f x) | Raise e => Raise e end.
Proof.
  unfold Py.index. rewrite length_map.
  destruct (_ <? 0); [reflexivity|]. rewrite lookup_map.
  destruct (l !! _); reflexivity.
Qed.

Lemma index_app_same {X} (a b l : list X) (z : Z) :
  length a = length b -> Z.of_nat (length a) <= z ->
  Py.index (a ++ l) z = Py.index (b ++ l) z.
Proof.
  intros Hlen Hz. replace z with (Z.of_nat (Z.to_nat z)) by lia.
  rewrite !index_nat, !lookup_app_r by lia. rewrite Hlen. reflexivity.
Qed.

Lemma foldM_ext {X S} (f g : S -> X -> result S) (xs : list X) (s : S) :
  (forall s x, f s x = g s x) -> foldM f xs s = foldM g xs s.
Proof.
  intros Hfg. revert s. induction xs as [|x xs IH]; intros s; [reflexivity|].
  cbn [foldM]. rewrite Hfg. destruct (g s x); cbn [bind]; auto.
Qed.

Lemma foldM_ext_in {X S} (f g : S -> X -> result S) (xs : list X) (s : S) :
  (forall s x, x ∈ xs -> f s x = g s x) -> foldM f xs s = foldM g xs s.
Proof.
  revert s. induction xs as [|x xs IH]; intros s Hfg; [reflexivity|].
  cbn [foldM]. rewrite Hfg by left. destruct (g s x); cbn [bind]; [|reflexivity].
  apply IH. intros s' x' Hin. apply Hfg. right. assumption.
Qed.

Lemma mapM_Raise {X Y} (f : X -> result Y) (xs : list X) (e : exn) :
  mapM f xs = Raise e -> exists x, x ∈ xs /\ f x = Raise e.
Proof.
  induction xs as [|x xs IH]; simpl; [discriminate|].
  destruct (f x) as [y|e1] eqn:Hx; cbn [bind].
  - destruct (mapM f xs) as [ys|e2]; cbn [bind]; [discriminate|].
    intros [= ->]. destruct IH as (x' & Hin & Hx'); [reflexivity|].
    exists x'. split; [right; assumption | assumption].
  - intros [= ->]. exists x. split; [left | assumption].
Qed.

Lemma append_inj_l s t t' : s +:+ t = s +:+ t' -> t = t'.
Proof.
  induction s as [|c s IH]; rewrite ?append_nil, ?append_cons; [auto|].
  intros [= H]. auto.
Qed.

Lemma length_append s t :
  String.length (s +:+ t) = (String.length s + String.length t)%nat.
Proof.
  induction s as [|c s IH]; rewrite ?append_nil, ?append_cons; simpl; auto.
Qed.

Lemma append_inj_r s s' t : s +:+ t = s' +:+ t -> s = s'.
Proof.
  intros H. apply (append_same_length s s' t t); [|assumption].
  apply (f_equal String.length) in H. rewrite !length_append in H. lia.
Qed.

Lemma str_inj n n' : Py.str n = Py.str n' -> n = n'.
Proof.
  intros H. pose proof (read_int_str n) as H1.
  rewrite H, read_int_str in H1. congruence.
Qed.

Lemma substring_split s : forall k,
  (k <= String.length s)%nat ->
  s = substring 0 k s +:+ substring k (String.length s - k) s.
Proof.
  induction s as [|c s IH]; intros k Hk.
  - destruct k; reflexivity.
  - destruct k as [|k].
    + cbn [substring String.length Nat.sub]. rewrite append_nil.
      clear. f_equal. induction s as [|c' s IH]; [reflexivity|].
      cbn [substring String.length]. f_equal. exact IH.
    + cbn [substring String.length Nat.sub]. rewrite append_cons. f_equal.
      apply IH. simpl in Hk. lia.
Qed.

Lemma endswith_split s suffix :
  Py.endswith s suffix = true ->
  s = Py.drop_last (String.length suffix) s +:+ suffix.
Proof.
  unfold Py.endswith, Py.drop_last. intros H.
  apply andb_true_iff in H as [Hlen Heq].
  apply Nat.leb_le in Hlen. apply String.eqb_eq in Heq.
  pose proof (substring_split s (String.length s - String.length suffix))
    as Hs.
  replace (String.length s - (String.length s - String.length suffix))%nat
    with (String.length suffix) in Hs by lia.
  rewrite Heq in Hs. apply Hs. lia.
Qed.

Lemma rstrip_app_space s ws :
  all_space ws = true -> Py.rstrip (s +:+ ws) = Py.rstrip s.
Proof.
  intros Hws. induction s as [|c s IH].
  - rewrite append_nil. induction ws as [|c ws IH]; [reflexivity|].
    cbn [all_space] in Hws. apply andb_true_iff in Hws as [Hc Hws].
    cbn [Py.rstrip]. rewrite (IH Hws), Hc. reflexivity.
  - rewrite append_cons. cbn [Py.rstrip]. rewrite IH. reflexivity.
Qed.

Lemma split_from_space ws : forall tok,
  all_space ws = true -> Py.split_from ws tok = Py.flush tok [].
Proof.
  induction ws as [|c ws IH]; intros tok Hws; [reflexivity|].
  cbn [all_space] in Hws. apply andb_true_iff in Hws as [Hc Hws].
  cbn [Py.split_from]. rewrite Hc, (IH [] Hws). reflexivity.
Qed.

Lemma split_app_space s ws :
  all_space ws = true -> Py.split (s +:+ ws) = Py.split s.
Proof.
  intros Hws. unfold Py.split. generalize (@nil ascii) as tok.
  induction s as [|c s IH]; intros tok.
  - rewrite append_nil. apply split_from_space. assumption.
  - rewrite append_cons. cbn [Py.split_from]. rewrite !IH. reflexivity.
Qed.

(** A line is what [rstrip] leaves of it and whitespace after that. *)
Lemma rstrip_decompose s :
  exists ws, all_space ws = true /\ s = Py.rstrip s +:+ ws.
Proof.
  induction s as [|c s (ws & Hws & Hs)].
  - exists EmptyString. split; reflexivity.
  - cbn [Py.rstrip]. destruct (Py.rstrip s) as [|c' r] eqn:Hr.
    + rewrite append_nil in Hs. subst ws.
      destruct (Py.isspace c) eqn:Hc.
      * exists (String c s). rewrite append_nil. split; [|reflexivity].
        cbn [all_space]. rewrite Hc, Hws. reflexivity.
      * exists s. split; [assumption|]. rewrite append_cons, append_nil.
        reflexivity.
    + exists ws. split; [assumption|]. rewrite append_cons, <- Hs. reflexivity.
Qed.

Lemma rstrip_idempotent s : Py.rstrip (Py.rstrip s) = Py.rstrip s.
Proof.
  destruct (rstrip_decompose s) as (ws & Hws & Hs).
  rewrite Hs at 2. rewrite rstrip_app_space by assumption. reflexivity.
Qed.

Lemma split_rstrip s : Py.split (Py.rstrip s) = Py.split s.
Proof.
  destruct (rstrip_decompose s) as (ws & Hws & Hs).
  rewrite Hs at 2. rewrite split_app_space by assumption. reflexivity.
Qed.

(** ** [get_meta_data]: the frame, the headers and the line numbers *)

(** X1. The call changes two columns only, the header and the line number of
    its kind of intensities: the row labels, the places that hold a cell
    and every cell of another column are as they were. *)
Theorem search_keeps_other_columns (step_polar step_azimuthal : float)
    (n_pfs : Z) (pfs_df : DataFrame) (content : list string)
    (step_polar_str step_azimuthal_str : string) (corr_data : bool)
    (df' : DataFrame) :
  get_meta_data step_polar step_azimuthal n_pfs pfs_df content
    step_polar_str step_azimuthal_str corr_data = Ok df' ->
  index df' = index pfs_df /\
  (forall i j, is_Some (cell_at df' i j) <-> is_Some (cell_at pfs_df i j)) /\
  (forall i j, j <> head_pos corr_data -> j <> (head_pos corr_data + 1)%nat ->
               cell_at df' i j = cell_at pfs_df i j).
Proof.
  intros H. apply get_meta_data_Ok in H as ([Hidx Hs] & _ & Ho).
  split; [assumption|]. split; assumption.
Qed.

Lemma search_keeps_other_columns_witness :
  exists df',
    get_meta_data 10 90 1 Located.uncorrected Sample.marker_only
      "10.00" "90.00" false = Ok df' /\
    index df' = ["111"].
Proof.
  assert (H : exists df',
             get_meta_data 10 90 1 Located.uncorrected Sample.marker_only
               "10.00" "90.00" false = Ok df')
    by (eexists; vm_compute; reflexivity).
  destruct H as [df' H]. exists df'. split; [exact H|].
  apply (search_keeps_other_columns _ _ _ _ _ _ _ _ _ H).
Defined.

(** X2. A line number the search records is the index of a line of the file
    that reads as the header of that row, and of the last such line. *)
Theorem recorded_line_is_header (step_polar step_azimuthal : float)
    (n_pfs : Z) (pfs_df : DataFrame) (content : list string)
    (step_polar_str step_azimuthal_str : string) (corr_data : bool)
    (df' : DataFrame) (i : nat) (k : Z) :
  catalog_frame n_pfs pfs_df ->
  cell_at pfs_df i (head_pos corr_data + 1) = Some NaN ->
  get_meta_data step_polar step_azimuthal n_pfs pfs_df content
    step_polar_str step_azimuthal_str corr_data = Ok df' ->
  cell_at df' i (head_pos corr_data + 1) = Some (Int k) ->
  exists plane h line,
    planes !! i = Some plane /\
    header_of step_polar step_azimuthal step_polar_str step_azimuthal_str
      corr_data plane = Ok h /\
    cell_at df' i (head_pos corr_data) = Some (Str h) /\
    0 <= k < Z.of_nat (length content) /\
    content !! Z.to_nat k = Some line /\ Py.rstrip line = h /\
    forall k' line', (Z.to_nat k < k')%nat -> content !! k' = Some line' ->
                     Py.rstrip line' <> h.
Proof.
  intros Hcat Hnan Hget Hk.
  pose proof (catalog_frame_length _ _ Hcat) as Hlen.
  assert (Hi : (i < Z.to_nat n_pfs)%nat).
  { destruct (decide (i < Z.to_nat n_pfs)%nat) as [|Hge]; [assumption|].
    destruct Hcat as (_ & _ & Hout).
    rewrite Hout in Hnan; [discriminate | lia]. }
  pose proof (get_meta_data_Ok _ _ _ _ _ _ _ _ _ Hget) as (Hs & Hh & _).
  destruct (Hh i Hi) as (plane & h & Hp & Hsig & Hc).
  rewrite (get_meta_data_offset _ _ _ _ _ _ _ _ _ i plane h Hcat Hget Hp Hsig)
    in Hk.
  destruct (last_match h content) as [k0|] eqn:Hlm; [|congruence].
  injection Hk as <-.
  apply last_match_Some in Hlm as ((line & Hline & Hr) & Hlast).
  destruct (catalog_frame_lookup _ _ _ _ Hcat Hp) as [Hpl _].
  exists plane, h, line. rewrite Nat2Z.id.
  pose proof (lookup_lt_Some _ _ _ Hline).
  repeat split; try assumption; lia.
Qed.

Lemma recorded_line_is_header_witness :
  exists df' line,
    get_meta_data 10 90 1 (new_frame (Py.slice_to planes 1) (frame_columns false))
      Sample.repeated "10.00" "90.00" false = Ok df' /\
    Sample.repeated !! Z.to_nat 69 = Some line /\
    Py.rstrip line = " 111       90.00   4    0 10.00   8    0".
Proof.
  assert (H : exists df',
             get_meta_data 10 90 1
               (new_frame (Py.slice_to planes 1) (frame_columns false))
               Sample.repeated "10.00" "90.00" false = Ok df' /\
             cell_at df' 0 (head_pos false + 1) = Some (Int 69))
    by (eexists; vm_compute; split; reflexivity).
  destruct H as (df' & H & Hk).
  destruct (recorded_line_is_header 10 90 1 _ _ "10.00" "90.00" false df' 0 69
              (catalog_frame_new 1 (frame_columns false) ltac:(lia))
              eq_refl H Hk)
    as (plane & h & line & Hp & Hsig & _ & _ & Hline & Hr & _).
  exists df', line. split; [exact H|]. split; [exact Hline|].
  rewrite Hr. vm_compute in Hp. injection Hp as <-.
  vm_compute in Hsig. injection Hsig as <-. reflexivity.
Defined.

(** X3. The search returns on every file: with the rows of the catalog, the
    two columns of the pass in the frame and the two counts of the headers
    defined, no line of the file makes it raise. *)
Theorem search_returns_on_any_file (step_polar step_azimuthal : float)
    (n_pfs : Z) (pfs_df : DataFrame)
    (step_polar_str step_azimuthal_str : string) (corr_data : bool)
    (na np : Z) :
  catalog_frame n_pfs pfs_df ->
  (forall i, (i < Z.to_nat n_pfs)%nat ->
     is_Some (cell_at pfs_df i (head_pos corr_data)) /\
     is_Some (cell_at pfs_df i (head_pos corr_data + 1))) ->
  samples 360 step_azimuthal = Ok na ->
  samples (polar_max corr_data) step_polar = Ok np ->
  forall content, exists df',
    get_meta_data step_polar step_azimuthal n_pfs pfs_df content
      step_polar_str step_azimuthal_str corr_data = Ok df'.
Proof.
  intros Hcat Hc Hna Hnp content. eapply get_meta_data_total; eassumption.
Qed.

Lemma search_returns_on_any_file_witness :
  exists df',
    get_meta_data 10 90 1 (new_frame (Py.slice_to planes 1) (frame_columns false))
      ["no"; "header"; "here"] "10.00" "90.00" false = Ok df'.
Proof.
  apply (search_returns_on_any_file 10 90 1
           (new_frame (Py.slice_to planes 1) (frame_columns false))
           "10.00" "90.00" false 4 8).
  - apply catalog_frame_new. lia.
  - intros i Hi. rewrite !cell_at_new_frame by (simpl in *; lia). eauto.
  - vm_compute. reflexivity.
  - vm_compute. reflexivity.
Defined.

(** The header of a plane with the count of polar angles [np] and the one
    with [np'] are the same text only if the counts are the same. *)
Lemma header_count_inj p sas sps na np np' :
  header p sas sps na np = header p sas sps na np' -> np = np'.
Proof.
  unfold header. intros H.
  repeat apply append_inj_l in H.
  apply append_inj_r in H. apply str_inj. exact H.
Qed.

(** X4. The headers of the uncorrected and of the corrected intensities of a
    plane are the same text exactly when [int(80/step_polar)] and
    [int(90/step_polar)] are the same number. *)
Theorem signatures_coincide (step_polar step_azimuthal : float)
    (step_polar_str step_azimuthal_str plane hu hc : string) :
  header_of step_polar step_azimuthal step_polar_str step_azimuthal_str
    false plane = Ok hu ->
  header_of step_polar step_azimuthal step_polar_str step_azimuthal_str
    true plane = Ok hc ->
  hu = hc <-> samples 80 step_polar = samples 90 step_polar.
Proof.
  unfold header_of. simpl polar_max.
  destruct (samples 360 step_azimuthal) as [na|]; [|discriminate].
  destruct (samples 80 step_polar) as [nu|]; [|discriminate].
  destruct (samples 90 step_polar) as [nc|]; [|discriminate].
  cbn [bind]. intros [= <-] [= <-]. split.
  - intros H. apply header_count_inj in H. congruence.
  - intros [= ->]. reflexivity.
Qed.

Lemma signatures_coincide_witness :
  (" 111       90.00   4    0 50.00   1    0" =
   " 111       90.00   4    0 50.00   1    0" <-> samples 80 50 = samples 90 50) /\
  (" 111       90.00   4    0 10.00   8    0" =
   " 111       90.00   4    0 10.00   9    0" <-> samples 80 10 = samples 90 10).
Proof.
  split.
  - apply (signatures_coincide 50 90 "50.00" "90.00" "111"); vm_compute; reflexivity.
  - apply (signatures_coincide 10 90 "10.00" "90.00" "111"); vm_compute; reflexivity.
Defined.

(** X5. Two planes of the catalog never have the same header: a line of the
    file sets the line number of one row at most, and the [break] of the
    inner loop passes over no row that the line would match. *)
Theorem planes_have_distinct_headers (step_polar step_azimuthal : float)
    (step_polar_str step_azimuthal_str : string) (corr_data : bool)
    (i i' : nat) (p p' h h' : string) :
  planes !! i = Some p -> planes !! i' = Some p' -> i <> i' ->
  header_of step_polar step_azimuthal step_polar_str step_azimuthal_str
    corr_data p = Ok h ->
  header_of step_polar step_azimuthal step_polar_str step_azimuthal_str
    corr_data p' = Ok h' ->
  h <> h'.
Proof.
  intros Hp Hp' Hne. unfold header_of.
  destruct (samples 360 step_azimuthal) as [na|]; [|discriminate].
  destruct (samples (polar_max corr_data) step_polar) as [np|]; [|discriminate].
  cbn [bind]. intros [= <-] [= <-] H.
  apply header_inj in H.
  - subst p'. apply Hne. eapply planes_distinct; eassumption.
  - rewrite (planes_width _ _ Hp), (planes_width _ _ Hp'). reflexivity.
Qed.

Lemma planes_have_distinct_headers_witness :
  String.eqb " 111       5.00   72    0 5.00   18    0"
             " 311       5.00   72    0 5.00   18    0" = false.
Proof.
  apply String.eqb_neq.
  apply (planes_have_distinct_headers 5 5 "5.00" "5.00" true 0 3 "111" "311");
    [reflexivity | reflexivity | lia | vm_compute; reflexivity
    | vm_compute; reflexivity].
Defined.

(** X6. On a frame made without the correction marker, which has the two
    columns of the uncorrected intensities only, the search for the
    headers of the corrected intensities raises [IndexError] at its first
    assignment, for every count from 1 to 6 and every file. *)
Theorem corrected_columns_required (step_polar step_azimuthal : float)
    (n_pfs : Z) (content : list string)
    (step_polar_str step_azimuthal_str : string) (na np : Z) :
  1 <= n_pfs <= 6 ->
  samples 360 step_azimuthal = Ok na ->
  samples 90 step_polar = Ok np ->
  get_meta_data step_polar step_azimuthal n_pfs
    (new_frame (Py.slice_to planes n_pfs) (frame_columns false)) content
    step_polar_str step_azimuthal_str true = Raise IndexError.
Proof.
  intros Hn Hna Hnp. unfold get_meta_data, Py.range, Py.slice_to.
  replace (n_pfs <? 0) with false by (symmetry; apply Z.ltb_ge; lia).
  destruct (Z.to_nat n_pfs) as [|m] eqn:Hm; [lia|].
  cbn [seq foldM]. unfold set_header at 1. cbn [take planes].
  change (iloc_name (new_frame ("111" :: take m _) _) 0) with (Ok (A:=string) "111").
  cbn [bind]. change (polar_max true) with 90. rewrite Hna, Hnp. cbn [bind].
  rewrite iloc_set_IndexError; [reflexivity|].
  apply cell_at_new_frame_None. right. simpl. lia.
Qed.

Lemma corrected_columns_required_witness :
  get_meta_data 10 90 1
    (new_frame (Py.slice_to planes 1) (frame_columns false)) Sample.uncorrected
    "10.00" "90.00" true = Raise IndexError.
Proof.
  apply (corrected_columns_required 10 90 1 _ _ _ 4 9);
    [lia | vm_compute; reflexivity | vm_compute; reflexivity].
Defined.

(** ** [get_intensities]: the array and the lines it is read from *)

Lemma ring_at_well_shaped arr i r :
  well_shaped arr ->
  match ring_at arr i r with
  | Some row =>
      (i < (shape arr).1.1)%nat /\ (r < (shape arr).1.2)%nat /\
      length row = (shape arr).2
  | None => ~ ((i < (shape arr).1.1)%nat /\ (r < (shape arr).1.2)%nat)
  end.
Proof.
  intros [Hlen Hall]. unfold ring_at.
  destruct (data arr !! i) as [pf|] eqn:Hpf.
  - pose proof (lookup_lt_Some _ _ _ Hpf) as Hi.
    pose proof (Forall_lookup_1 _ _ _ _ Hall Hpf) as [Hpfl Hrows].
    destruct (pf !! r) as [row|] eqn:Hrow.
    + pose proof (lookup_lt_Some _ _ _ Hrow).
      pose proof (Forall_lookup_1 _ _ _ _ Hrows Hrow). simpl in *. lia.
    + apply lookup_ge_None_1 in Hrow. lia.
  - apply lookup_ge_None_1 in Hpf. lia.
Qed.

(** X7. The array the call returns has one pole figure for each requested
    plane, [int(polar_max/step_polar)] rings in each and
    [int(360/step_azimuthal)] cells in every ring, whatever the file
    holds: a ring is there exactly for the indices below the first two
    counts, and it is as long as the third. *)
Theorem grid_dimensions (content : list string) (n_pfs : Z)
    (pfs_df : DataFrame) (step_polar step_azimuthal : float)
    (corr_data : bool) (arr : ndarray) :
  get_intensities content n_pfs pfs_df step_polar step_azimuthal 8 corr_data
    = Ok arr ->
  exists n_polar n_azimuthal,
    samples (polar_max corr_data) step_polar = Ok n_polar /\
    samples 360 step_azimuthal = Ok n_azimuthal /\
    0 <= n_pfs /\ 0 <= n_polar /\ 0 <= n_azimuthal /\
    shape arr = (Z.to_nat n_pfs, Z.to_nat n_polar, Z.to_nat n_azimuthal) /\
    (forall i r, is_Some (ring_at arr i r) <->
                 (i < Z.to_nat n_pfs)%nat /\ (r < Z.to_nat n_polar)%nat) /\
    (forall i r row, ring_at arr i r = Some row ->
                     length row = Z.to_nat n_azimuthal).
Proof.
  intros H. apply get_intensities_shape in H
    as (np & na & Hnp & Hna & H0 & H1 & H2 & Hshape & Hws).
  exists np, na. repeat (split; [assumption|]). split.
  - intros i r. pose proof (ring_at_well_shaped arr i r Hws) as Hr.
    rewrite Hshape in Hr. simpl in Hr.
    destruct (ring_at arr i r) as [row|].
    + split; [tauto | eauto].
    + split; [intros [? [=]] | tauto].
  - intros i r row Hrow. pose proof (ring_at_well_shaped arr i r Hws) as Hr.
    rewrite Hrow, Hshape in Hr. simpl in Hr. tauto.
Qed.

Lemma grid_dimensions_witness :
  exists arr,
    get_intensities Sample.uncorrected 1 Located.uncorrected 10 90 8 false
      = Ok arr /\
    shape arr = (1, 8, 4)%nat.
Proof.
  assert (H : exists arr,
             get_intensities Sample.uncorrected 1 Located.uncorrected 10 90 8
               false = Ok arr)
    by (eexists; vm_compute; reflexivity).
  destruct H as [arr H]. exists arr. split; [exact H|].
  destruct (grid_dimensions _ _ _ _ _ _ _ H)
    as (np & na & Hnp & Hna & _ & _ & _ & Hshape & _).
  vm_compute in Hnp, Hna. injection Hnp as <-. injection Hna as <-.
  exact Hshape.
Defined.

Lemma range3_block_count start si :
  Py.range3 start (start + si) 8 =
    map (fun t => start + 8 * Z.of_nat t) (seq 0 (block_count si)).
Proof.
  unfold Py.range3, block_count.
  replace (start + si - start + 8 - 1) with (si + 8 - 1) by lia. reflexivity.
Qed.

Lemma read_lines_tokens content i r j ks : forall st st',
  foldM (read_line content i r j) ks st = Ok st' ->
  exists ts, mapM (fun k => tokens_at content (j + Z.of_nat k)) ks = Ok ts.
Proof.
  induction ks as [|k ks IH]; intros st st' H; cbn [foldM mapM] in *.
  - eauto.
  - apply bind_Ok in H as (st1 & H1 & H). destruct (IH _ _ H) as [ts Hts].
    destruct st as [arr i_pf]. unfold read_line in H1.
    apply bind_Ok in H1 as (line & Hl & H1).
    apply bind_Ok in H1 as (ints & Hi & H1).
    exists (ints :: ts). unfold tokens_at at 1. rewrite Hl. cbn [bind].
    rewrite Hi. cbn [bind]. rewrite Hts. reflexivity.
Qed.

Lemma read_block_ring content i arr r j st' :
  read_block content 8 i (arr, r) j = Ok st' -> is_Some (ring_at arr i r).
Proof.
  unfold read_block. change (Py.range 8) with (0%nat :: seq 1 7).
  cbn [foldM]. intros H. apply bind_Ok in H as (st1 & H & _).
  apply bind_Ok in H as (st2 & H & _). unfold read_line in H.
  apply bind_Ok in H as (line & _ & H). apply bind_Ok in H as (ints & _ & H).
  apply bind_Ok in H as (arr' & H & _). rewrite setitem_ring_at in H.
  destruct (ring_at arr i r); [eauto | discriminate].
Qed.

Section Result.

Variable content : list string.
Variable A : nat.

(** A ring not yet written. *)
Let fresh (arr : ndarray) (i t : nat) : Prop :=
  ring_at arr i t = Some (replicate A zero) \/ ring_at arr i t = None.

Lemma read_blocks_result i start m : forall r0 arr st',
  (forall t, (r0 <= t)%nat -> fresh arr i t) ->
  foldM (read_block content 8 i)
        (map (fun t => start + 8 * Z.of_nat t) (seq r0 m)) (arr, r0) = Ok st' ->
  (forall t, (r0 <= t < r0 + m)%nat ->
     exists ts, block_tokens content (start + 8 * Z.of_nat t) 8 = Ok ts /\
                wide_overflow A 0 ts = false /\
                ring_at st'.1 i t = Some (fill A (concat ts))) /\
  (forall i' t, ~ (i' = i /\ (r0 <= t < r0 + m)%nat) ->
                ring_at st'.1 i' t = ring_at arr i' t).
Proof.
  induction m as [|m IH]; intros r0 arr st' Hfresh H.
  - injection H as <-. split; [intros t Ht; lia | reflexivity].
  - cbn [seq map foldM] in H. apply bind_Ok in H as (st1 & H1 & H).
    destruct (read_block_ring _ _ _ _ _ _ H1) as [row0 Hrow0].
    assert (Hzero : ring_at arr i r0 = Some (replicate A zero)).
    { destruct (Hfresh r0) as [Hz|Hz]; [lia | exact Hz | congruence]. }
    assert (Htok : exists ts,
               block_tokens content (start + 8 * Z.of_nat r0) 8 = Ok ts).
    { unfold read_block in H1. apply bind_Ok in H1 as (st2 & H1 & _).
      eapply read_lines_tokens. exact H1. }
    destruct Htok as [ts Hts].
    rewrite (read_block_fill content i r0 _ A 8 arr ts Hzero Hts) in H1.
    destruct (wide_overflow A 0 ts) eqn:Hwide; [discriminate|].
    injection H1 as <-.
    destruct (IH (S r0) (set_ring arr i r0 (fill A (concat ts))) st')
      as [Hin Hout]; [|exact H|].
    { intros t Ht. unfold fresh.
      rewrite (ring_at_set_ring _ _ _ _ _ _ _ Hzero).
      destruct (decide _) as [[_ ->]|_]; [lia|]. apply Hfresh. lia. }
    split.
    + intros t Ht. destruct (decide (t = r0)) as [->|Hne].
      * exists ts. split; [assumption|]. split; [assumption|].
        rewrite Hout by lia. rewrite (ring_at_set_ring _ _ _ _ _ _ _ Hzero).
        destruct (decide _) as [_|[]]; [reflexivity | auto].
      * apply Hin. lia.
    + intros i' t Hn. rewrite Hout by (intros [-> ?]; apply Hn; split; [reflexivity|lia]).
      rewrite (ring_at_set_ring _ _ _ _ _ _ _ Hzero).
      destruct (decide _) as [[-> ->]|_]; [|reflexivity].
      exfalso. apply Hn. split; [reflexivity | lia].
Qed.

Lemma read_pole_figure_result pfs_df pos si arr i arr' :
  (forall t, fresh arr i t) ->
  read_pole_figure content pfs_df 8 pos si arr i = Ok arr' ->
  exists k, iloc pfs_df i pos = Ok (Int k) /\
    (forall t, (t < block_count si)%nat ->
       exists ts, block_tokens content (k + 1 + 8 * Z.of_nat t) 8 = Ok ts /\
                  wide_overflow A 0 ts = false /\
                  ring_at arr' i t = Some (fill A (concat ts))) /\
    (forall i' t, ~ (i' = i /\ (t < block_count si)%nat) ->
                  ring_at arr' i' t = ring_at arr i' t).
Proof.
  intros Hfresh H. unfold read_pole_figure in H.
  apply bind_Ok in H as (c & Hc & H). apply bind_Ok in H as (start & Hs & H).
  apply bind_Ok in H as (st' & H & [= <-]).
  destruct c as [| |k]; try discriminate. injection Hs as <-.
  rewrite range3_block_count in H.
  destruct (read_blocks_result i (k + 1) (block_count si) 0 arr st')
    as [Hin Hout]; [intros; apply Hfresh | exact H |].
  exists k. split; [assumption|]. split.
  - intros t Ht. apply Hin. lia.
  - intros i' t Hn. apply Hout. intros [-> ?]. apply Hn. split; [reflexivity|lia].
Qed.

Lemma read_pole_figures_result pfs_df pos si m : forall i0 arr arr',
  (forall i t, (i0 <= i)%nat -> fresh arr i t) ->
  foldM (read_pole_figure content pfs_df 8 pos si) (seq i0 m) arr = Ok arr' ->
  (forall i, (i0 <= i < i0 + m)%nat ->
     exists k, iloc pfs_df i pos = Ok (Int k) /\
       (forall t, (t < block_count si)%nat ->
          exists ts, block_tokens content (k + 1 + 8 * Z.of_nat t) 8 = Ok ts /\
                     wide_overflow A 0 ts = false /\
                     ring_at arr' i t = Some (fill A (concat ts))) /\
       (forall t, (block_count si <= t)%nat ->
                  ring_at arr' i t = ring_at arr i t)) /\
  (forall i t, ~ (i0 <= i < i0 + m)%nat -> ring_at arr' i t = ring_at arr i t).
Proof.
  induction m as [|m IH]; intros i0 arr arr' Hfresh H.
  - injection H as <-. split; [intros i Hi; lia | reflexivity].
  - cbn [seq foldM] in H. apply bind_Ok in H as (arr1 & H1 & H).
    destruct (read_pole_figure_result _ _ _ _ _ _ (fun t => Hfresh i0 t (le_n _)) H1)
      as (k & Hk & Hin1 & Hout1).
    destruct (IH (S i0) arr1 arr') as [Hin Hout]; [|exact H|].
    { intros i t Hi. unfold fresh. rewrite Hout1 by lia. apply Hfresh. lia. }
    split.
    + intros i Hi. destruct (decide (i = i0)) as [->|Hne].
      * exists k. split; [assumption|]. split.
        -- intros t Ht. destruct (Hin1 t Ht) as (ts & ? & ? & Hr).
           exists ts. rewrite Hout by lia. auto.
        -- intros t Ht. rewrite Hout by lia. apply Hout1. lia.
      * destruct (Hin i) as (k' & Hk' & Hb & Hz); [lia|].
        exists k'. split; [assumption|]. split; [assumption|].
        intros t Ht. rewrite Hz by assumption. apply Hout1. lia.
    + intros i t Hn. rewrite Hout by lia. apply Hout1. lia.
Qed.

End Result.

(** A call that returns found a line number in every requested row, read
    every line of every block it visited as numbers, with no line of two
    values or more reaching past the end of its ring, and left in ring
    [t] of pole figure [i] the values of block [t] from the left and zero
    after them; the blocks it visited were no more than the rings of the
    array, and a ring past the last block is zero. *)
Lemma get_intensities_Ok content n_pfs pfs_df step_polar step_azimuthal
    corr_data arr :
  get_intensities content n_pfs pfs_df step_polar step_azimuthal 8 corr_data
    = Ok arr ->
  exists si np na,
    samples (8 * polar_max corr_data) step_polar = Ok si /\
    samples (polar_max corr_data) step_polar = Ok np /\
    samples 360 step_azimuthal = Ok na /\
    forall i, (i < Z.to_nat n_pfs)%nat ->
      (block_count si <= Z.to_nat np)%nat /\
      exists k,
        iloc pfs_df i (S (head_pos corr_data)) = Ok (Int k) /\
        (forall t, (t < block_count si)%nat ->
           exists ts,
             block_tokens content (k + 1 + 8 * Z.of_nat t) 8 = Ok ts /\
             wide_overflow (Z.to_nat na) 0 ts = false /\
             ring_at arr i t = Some (fill (Z.to_nat na) (concat ts))) /\
        (forall t, (block_count si <= t < Z.to_nat np)%nat ->
           ring_at arr i t = Some (replicate (Z.to_nat na) zero)).
Proof.
  intros Hget. pose proof Hget as H. unfold get_intensities in H.
  apply bind_Ok in H as (si & Hsi & H). apply bind_Ok in H as (np & Hnp & H).
  apply bind_Ok in H as (na & Hna & H). apply bind_Ok in H as (arr0 & Hz & H).
  exists si, np, na. repeat (split; [assumption|]).
  pose proof (fun i r => proj2 (ring_at_zeros _ _ _ _ i r Hz)) as Hzeros.
  destruct (read_pole_figures_result content (Z.to_nat na) pfs_df
              (S (head_pos corr_data)) si (Z.to_nat n_pfs) 0 arr0 arr)
    as [Hin _]; [|exact H|].
  { intros i t _. rewrite Hzeros. destruct (decide _); [left|right]; reflexivity. }
  apply get_intensities_shape in Hget
    as (np' & na' & Hnp' & Hna' & _ & _ & _ & Hshape & Hws).
  assert (np' = np) by congruence. subst np'.
  intros i Hi. destruct (Hin i) as (k & Hk & Hb & Hrest); [lia|].
  assert (Hle : (block_count si <= Z.to_nat np)%nat).
  { destruct (decide (block_count si <= Z.to_nat np)%nat) as [|Hgt]; [assumption|].
    destruct (Hb (Z.to_nat np)) as (ts & _ & _ & Hr); [lia|].
    pose proof (ring_at_well_shaped arr i (Z.to_nat np) Hws) as Hw.
    rewrite Hr, Hshape in Hw. simpl in Hw. lia. }
  split; [assumption|]. exists k. split; [assumption|]. split; [assumption|].
  intros t Ht. rewrite Hrest by lia. rewrite Hzeros.
  destruct (decide _) as [_|[]]; [reflexivity | lia].
Qed.

(** X8. What [get_intensities] has read when it returns: it found a line
    number in every requested row, read every line of every block it
    visited as numbers, with no line of two values or more reaching past
    the end of its ring, and left in ring [t] of pole figure [i] the
    values of block [t] of that plane, rounded to 3 decimals, from the
    left and zero after them. The blocks it visited are no more than the
    rings of the array, and a ring past the last block is zero. *)
Theorem extraction_result (content : list string) (n_pfs : Z)
    (pfs_df : DataFrame) (step_polar step_azimuthal : float)
    (corr_data : bool) (arr : ndarray) :
  get_intensities content n_pfs pfs_df step_polar step_azimuthal 8 corr_data
    = Ok arr ->
  exists si np na,
    samples (8 * polar_max corr_data) step_polar = Ok si /\
    samples (polar_max corr_data) step_polar = Ok np /\
    samples 360 step_azimuthal = Ok na /\
    shape arr = (Z.to_nat n_pfs, Z.to_nat np, Z.to_nat na) /\
    forall i, (i < Z.to_nat n_pfs)%nat ->
      (block_count si <= Z.to_nat np)%nat /\
      exists k,
        iloc pfs_df i (S (head_pos corr_data)) = Ok (Int k) /\
        (forall t, (t < block_count si)%nat ->
           exists ts,
             block_tokens content (k + 1 + 8 * Z.of_nat t) 8 = Ok ts /\
             wide_overflow (Z.to_nat na) 0 ts = false /\
             ring_at arr i t = Some (fill (Z.to_nat na) (concat ts))) /\
        (forall t, (block_count si <= t < Z.to_nat np)%nat ->
           ring_at arr i t = Some (replicate (Z.to_nat na) zero)).
Proof.
  intros H.
  destruct (get_intensities_Ok _ _ _ _ _ _ _ H)
    as (si & np & na & Hsi & Hnp & Hna & Hall).
  destruct (get_intensities_shape _ _ _ _ _ _ _ _ H)
    as (np' & na' & Hnp' & Hna' & _ & _ & _ & Hshape & _).
  assert (np' = np) by congruence. assert (na' = na) by congruence.
  subst np' na'. exists si, np, na. auto 6.
Qed.

Lemma extraction_result_witness :
  exists arr ts,
    get_intensities Sample.uncorrected 1 Located.uncorrected 10 90 8 false
      = Ok arr /\
    block_tokens Sample.uncorrected (4 + 1 + 8 * Z.of_nat 7) 8 = Ok ts /\
    ring_at arr 0 7 = Some (fill (Z.to_nat 4) (concat ts)).
Proof.
  assert (H : exists arr,
             get_intensities Sample.uncorrected 1 Located.uncorrected 10 90 8
               false = Ok arr)
    by (eexists; vm_compute; reflexivity).
  destruct H as [arr H]. exists arr.
  destruct (extraction_result _ _ _ _ _ _ _ H)
    as (si & np & na & Hsi & Hnp & Hna & _ & Hall).
  vm_compute in Hsi, Hnp, Hna.
  injection Hsi as <-. injection Hnp as <-. injection Hna as <-.
  destruct (Hall 0%nat) as (_ & k & Hk & Hb & _); [simpl; lia|].
  vm_compute in Hk. injection Hk as <-.
  destruct (Hb 7%nat) as (ts & Hts & _ & Hr); [vm_compute; lia|].
  exists ts. split; [exact H|]. split; [exact Hts | exact Hr].
Defined.

(** X9. When the loop over the blocks stops where the array ends
    ([int(8*polar_max/step_polar)] is 8 times [int(polar_max/step_polar)]),
    [np.zeros] makes the array of that many rings (its dimensions and its
    size in bytes fit), every requested row holds a line number, every
    line of every block reads as numbers and no line of two values or more
    reaches past the end of its ring, the call returns, and ring [t] of
    pole figure [i] of its array holds the values of the 8 lines from line
    [offset + 1 + 8*t] on, from the left, and zero after them. *)
Theorem grid_from_blocks (content : list string) (n_pfs : Z)
    (pfs_df : DataFrame) (step_polar step_azimuthal : float)
    (corr_data : bool) (n_polar A : nat) (offsets : nat -> Z)
    (toks : nat -> nat -> list (list float)) (arr0 : ndarray) :
  samples (8 * polar_max corr_data) step_polar = Ok (8 * Z.of_nat n_polar) ->
  samples (polar_max corr_data) step_polar = Ok (Z.of_nat n_polar) ->
  samples 360 step_azimuthal = Ok (Z.of_nat A) ->
  zeros n_pfs (Z.of_nat n_polar) (Z.of_nat A) = Ok arr0 ->
  (forall i, (i < Z.to_nat n_pfs)%nat ->
     iloc pfs_df i (S (head_pos corr_data)) = Ok (Int (offsets i)) /\
     forall t, (t < n_polar)%nat ->
       block_tokens content (offsets i + 1 + 8 * Z.of_nat t) 8 = Ok (toks i t) /\
       wide_overflow A 0 (toks i t) = false) ->
  exists arr,
    get_intensities content n_pfs pfs_df step_polar step_azimuthal 8
      corr_data = Ok arr /\
    shape arr = (Z.to_nat n_pfs, n_polar, A) /\
    forall i t, (i < Z.to_nat n_pfs)%nat -> (t < n_polar)%nat ->
      ring_at arr i t = Some (fill A (concat (toks i t))).
Proof.
  intros Hsi Hnp Hna Hz H.
  apply (get_intensities_fill content n_pfs pfs_df step_polar step_azimuthal
           8 corr_data n_polar A offsets toks arr0); try assumption; lia.
Qed.

Lemma grid_from_blocks_witness :
  exists arr,
    get_intensities Sample.uncorrected 1 Located.uncorrected 10 90 8 false
      = Ok arr /\
    shape arr = (Z.to_nat 1, 8%nat, 4%nat).
Proof.
  destruct (grid_from_blocks Sample.uncorrected 1 Located.uncorrected 10 90
              false 8 4 (fun _ => 4)
              (fun _ _ => [[12.5%float; 30.25%float]; [7.125%float; 0.5%float];
                           []; []; []; []; []; []])
              Broken.blank)
    as (arr & H & Hshape & _).
  - vm_compute. reflexivity.
  - vm_compute. reflexivity.
  - vm_compute. reflexivity.
  - vm_compute. reflexivity.
  - intros i Hi. assert (i = 0%nat) as -> by (simpl in Hi; lia).
    split; [reflexivity|]. intros t Ht.
    do 8 (destruct t as [|t]; [split; vm_compute; reflexivity|]). lia.
  - exists arr. split; assumption.
Defined.

(** X10. The loop over the blocks and the array are sized by two roundings,
    [int(8*polar_max/step_polar)] and [int(polar_max/step_polar)]. When
    the first gives more blocks of 8 lines than the second gives rings,
    the call raises for every file and every count of at least one pole
    figure: it never returns an array. *)
Theorem more_blocks_than_rings (content : list string) (n_pfs : Z)
    (pfs_df : DataFrame) (step_polar step_azimuthal : float)
    (corr_data : bool) (si np : Z) :
  samples (8 * polar_max corr_data) step_polar = Ok si ->
  samples (polar_max corr_data) step_polar = Ok np ->
  (Z.to_nat np < block_count si)%nat ->
  1 <= n_pfs ->
  exists e,
    get_intensities content n_pfs pfs_df step_polar step_azimuthal 8 corr_data
      = Raise e.
Proof.
  intros Hsi Hnp Hlt Hn.
  destruct (get_intensities _ _ _ _ _ _ _) as [arr|e] eqn:Hget; [|eauto].
  exfalso. apply get_intensities_Ok in Hget
    as (si' & np' & na & Hsi' & Hnp' & _ & Hall).
  assert (si' = si) by congruence. assert (np' = np) by congruence.
  subst si' np'. destruct (Hall 0%nat) as [Hle _]; lia.
Qed.

Lemma more_blocks_than_rings_witness :
  exists e,
    get_intensities Uneven.step_three 1 Located.uncorrected 3 90 8 false
      = Raise e.
Proof.
  apply (more_blocks_than_rings _ _ _ _ _ _ 213 26);
    [vm_compute; reflexivity | vm_compute; reflexivity | vm_compute; lia | lia].
Defined.

Lemma block_tokens_line content j ts z :
  block_tokens content j 8 = Ok ts -> j <= z < j + 8 ->
  exists t, tokens_at content z = Ok t.
Proof.
  intros H Hz. unfold block_tokens in H. apply mapM_Forall2 in H.
  change (Py.range 8) with (seq 0 8) in H.
  destruct (Forall2_lookup_l _ _ _ (Z.to_nat (z - j)) (Z.to_nat (z - j)) H)
    as (t & _ & Ht).
  { apply lookup_seq. lia. }
  exists t. rewrite <- Ht. f_equal. lia.
Qed.

(** X11. A block line that does not read is never passed over: when a line of
    a block the loop visits, for a requested row, is missing from the file
    or holds a token that is no number, the call raises. *)
Theorem unreadable_line_rejected (content : list string) (n_pfs : Z)
    (pfs_df : DataFrame) (step_polar step_azimuthal : float)
    (corr_data : bool) (si : Z) (i : nat) (k : Z) (t : nat) (z : Z) (e0 : exn) :
  samples (8 * polar_max corr_data) step_polar = Ok si ->
  (i < Z.to_nat n_pfs)%nat ->
  iloc pfs_df i (S (head_pos corr_data)) = Ok (Int k) ->
  (t < block_count si)%nat ->
  k + 1 + 8 * Z.of_nat t <= z < k + 1 + 8 * Z.of_nat t + 8 ->
  tokens_at content z = Raise e0 ->
  exists e,
    get_intensities content n_pfs pfs_df step_polar step_azimuthal 8 corr_data
      = Raise e.
Proof.
  intros Hsi Hi Hk Ht Hz Hbad.
  destruct (get_intensities _ _ _ _ _ _ _) as [arr|e] eqn:Hget; [|eauto].
  exfalso. apply get_intensities_Ok in Hget
    as (si' & np & na & Hsi' & _ & _ & Hall).
  assert (si' = si) by congruence. subst si'.
  destruct (Hall i Hi) as (_ & k' & Hk' & Hb & _).
  assert (k' = k) by congruence. subst k'.
  destruct (Hb t Ht) as (ts & Hts & _).
  destruct (block_tokens_line _ _ _ z Hts Hz) as [x Hx]. congruence.
Qed.

Lemma unreadable_line_rejected_witness :
  exists e,
    get_intensities (take 60 Sample.uncorrected) 1 Located.uncorrected 10 90 8
      false = Raise e.
Proof.
  apply (unreadable_line_rejected _ _ _ _ _ _ 64 0 4 6 60 IndexError);
    [vm_compute; reflexivity | simpl; lia | reflexivity | vm_compute; lia
    | lia | vm_compute; reflexivity].
Defined.

Lemma of_string_Raise s e : PyFloat.of_string s = Raise e -> e = ValueError.
Proof.
  unfold PyFloat.of_string, PyFloat.parse_literal.
  destruct (PyFloat.parse_sign s) as [neg s0].
  destruct (_ || _); [discriminate|]. destruct (String.eqb _ _); [discriminate|].
  destruct (PyFloat.digits s0 0 0) as [[ip ni] s1].
  destruct (match s1 with String "." s1' => _ | _ => _ end) as [[m nf] s2].
  destruct (_ =? _)%nat; [intros [= <-]; reflexivity|].
  destruct (PyFloat.parse_exponent s2); [discriminate | intros [= <-]; reflexivity].
Qed.

(** The lines a failing [tokens_at] can meet: no line at the index, or a
    token on the line that [float] rejects. *)
Lemma tokens_at_Raise content z e :
  0 <= z -> tokens_at content z = Raise e ->
  (e = IndexError /\ Z.of_nat (length content) <= z) \/
  (e = ValueError /\
   exists line tok, content !! Z.to_nat z = Some line /\
                    tok ∈ Py.split line /\
                    PyFloat.of_string tok = Raise ValueError).
Proof.
  intros Hz. unfold tokens_at.
  replace z with (Z.of_nat (Z.to_nat z)) at 1 by lia. rewrite index_nat.
  destruct (content !! Z.to_nat z) as [line|] eqn:Hline; cbn [bind].
  - intros H. unfold parse_line in H. apply mapM_Raise in H as (tok & Hin & H).
    destruct (PyFloat.of_string tok) as [v|e1] eqn:Htok; [discriminate|].
    injection H as ->. pose proof (of_string_Raise _ _ Htok) as ->.
    right. split; [reflexivity|]. eauto.
  - intros [= <-]. left. split; [reflexivity|].
    apply lookup_ge_None_1 in Hline. lia.
Qed.

(** X12. Once [np.zeros] has made the array, for a count of at least one
    pole figure and a loop of at least one block, the first line the call
    reads is the line after the header of the first row. When the file
    ends there, the call raises [IndexError]; when the line holds a token
    that [float] rejects, [ValueError]: nothing is skipped and no default
    is stored. *)
Theorem first_line_unreadable (content : list string) (n_pfs : Z)
    (pfs_df : DataFrame) (step_polar step_azimuthal : float)
    (corr_data : bool) (si np na k : Z) (arr0 : ndarray) (e0 : exn) :
  samples (8 * polar_max corr_data) step_polar = Ok si ->
  samples (polar_max corr_data) step_polar = Ok np ->
  samples 360 step_azimuthal = Ok na ->
  zeros n_pfs np na = Ok arr0 ->
  1 <= n_pfs -> 1 <= si ->
  iloc pfs_df 0 (S (head_pos corr_data)) = Ok (Int k) -> 0 <= k ->
  tokens_at content (k + 1) = Raise e0 ->
  get_intensities content n_pfs pfs_df step_polar step_azimuthal 8 corr_data
    = Raise e0 /\
  ((e0 = IndexError /\ Z.of_nat (length content) <= k + 1) \/
   (e0 = ValueError /\
    exists line tok, content !! Z.to_nat (k + 1) = Some line /\
                     tok ∈ Py.split line /\
                     PyFloat.of_string tok = Raise ValueError)).
Proof.
  intros Hsi Hnp Hna Hz Hn Hs Hk Hk0 Hbad.
  split; [|apply tokens_at_Raise; [lia | assumption]].
  unfold get_intensities. rewrite Hsi, Hnp, Hna. cbn [bind].
  rewrite Hz. cbn [bind]. unfold Py.range.
  destruct (Z.to_nat n_pfs) as [|m] eqn:Hm; [lia|]. cbn [seq foldM].
  unfold read_pole_figure at 1. rewrite Hk. cbn [bind cell_succ].
  rewrite range3_block_count.
  destruct (block_count si) as [|b] eqn:Hb.
  { unfold block_count in Hb.
    assert (1 <= (si + 8 - 1) / 8) by (apply Z.div_le_lower_bound; lia). lia. }
  cbn [seq map foldM]. unfold read_block at 1.
  change (Py.range 8) with (0%nat :: seq 1 7). cbn [foldM].
  unfold read_line at 1. unfold tokens_at in Hbad.
  replace (k + 1 + 8 * Z.of_nat 0 + Z.of_nat 0) with (k + 1) by lia.
  destruct (Py.index content (k + 1)) as [line|e1]; cbn [bind] in *.
  - rewrite Hbad. reflexivity.
  - injection Hbad as ->. reflexivity.
Qed.

Lemma first_line_unreadable_witness :
  get_intensities (take 5 Sample.uncorrected) 1 Located.uncorrected 10 90 8
    false = Raise IndexError /\
  get_intensities
    (take 5 Sample.uncorrected ++ [" 12.5 n/a"]) 1 Located.uncorrected 10 90 8
    false = Raise ValueError.
Proof.
  split.
  - apply (first_line_unreadable _ _ _ _ _ _ 64 8 4 4 Broken.blank IndexError);
      [vm_compute; reflexivity | vm_compute; reflexivity
      | vm_compute; reflexivity | vm_compute; reflexivity | lia | lia
      | reflexivity | lia | vm_compute; reflexivity].
  - apply (first_line_unreadable _ _ _ _ _ _ 64 8 4 4 Broken.blank ValueError);
      [vm_compute; reflexivity | vm_compute; reflexivity
      | vm_compute; reflexivity | vm_compute; reflexivity | lia | lia
      | reflexivity | lia | vm_compute; reflexivity].
Defined.

(** X13. The call reads the 8-line blocks after the headers of the requested
    rows and no other line: two files that agree on those lines give the
    same array, or the same exception. The lines before a header, the
    header itself and what follows the last block do not count. *)
Theorem only_block_lines_read (content content' : list string) (n_pfs : Z)
    (pfs_df : DataFrame) (step_polar step_azimuthal : float)
    (corr_data : bool) :
  (forall si i k t z,
     samples (8 * polar_max corr_data) step_polar = Ok si ->
     (i < Z.to_nat n_pfs)%nat ->
     iloc pfs_df i (S (head_pos corr_data)) = Ok (Int k) ->
     (t < block_count si)%nat ->
     k + 1 + 8 * Z.of_nat t <= z < k + 1 + 8 * Z.of_nat t + 8 ->
     Py.index content' z = Py.index content z) ->
  get_intensities content' n_pfs pfs_df step_polar step_azimuthal 8 corr_data
  = get_intensities content n_pfs pfs_df step_polar step_azimuthal 8 corr_data.
Proof.
  destruct (samples (8 * polar_max corr_data) step_polar) as [si|e] eqn:Hsi.
  2:{ intros _. unfold get_intensities. rewrite Hsi. cbn [bind]. reflexivity. }
  intros H. specialize (H si). unfold get_intensities. rewrite Hsi. cbn [bind].
  destruct (samples (polar_max corr_data) step_polar) as [np|]; cbn [bind]; [|reflexivity].
  destruct (samples 360 step_azimuthal) as [na|]; cbn [bind]; [|reflexivity].
  destruct (zeros _ _ _) as [arr0|]; cbn [bind]; [|reflexivity].
  apply foldM_ext_in. intros arr i Hi. unfold Py.range in Hi.
  apply elem_of_seq in Hi. unfold read_pole_figure.
  destruct (iloc _ _ _) as [c|] eqn:Hc; cbn [bind]; [|reflexivity].
  destruct c as [| |k]; try reflexivity. cbn [cell_succ bind].
  rewrite range3_block_count. f_equal. apply foldM_ext_in.
  intros [arr1 i_pa] j Hj. apply list_elem_of_fmap in Hj as (t & -> & Ht).
  apply elem_of_seq in Ht. unfold read_block. f_equal. apply foldM_ext_in.
  intros [arr2 i_pf] k' Hk'. unfold Py.range in Hk'. apply elem_of_seq in Hk'.
  unfold read_line. rewrite (H i k t) by (reflexivity || assumption || lia).
  reflexivity.
Qed.

Lemma only_block_lines_read_witness :
  get_intensities
    (["any"; "text"; "at all"; ""; "and no header"] ++ drop 5 Sample.uncorrected)
    1 Located.uncorrected 10 90 8 false
  = get_intensities Sample.uncorrected 1 Located.uncorrected 10 90 8 false.
Proof.
  apply only_block_lines_read. intros si i k t z Hsi Hi Hk Ht Hz.
  assert (i = 0%nat) as -> by (simpl in Hi; lia).
  vm_compute in Hk. injection Hk as <-.
  rewrite <- (take_drop 5 Sample.uncorrected) at 2.
  apply index_app_same; [reflexivity | simpl; lia].
Defined.

(** ** The search and the extraction in a row *)

(** X14. The search and the extraction in a row, for either kind of
    intensities, on a frame with the rows of the catalog and the two
    columns of the pass: when the header of every requested plane is a line
    of the file, the 8-line blocks after the last such line read as
    numbers and fit their rings, the loop over the blocks stops where
    the array ends and [np.zeros] makes that array, the two calls return
    and ring [t] of pole figure [i] holds the values of block [t] after
    the header of plane [i]. *)
Theorem locate_then_extract (content : list string) (n_pfs : Z)
    (pfs_df : DataFrame) (step_polar step_azimuthal : float)
    (step_polar_str step_azimuthal_str : string) (corr_data : bool)
    (n_polar A : nat) (offsets : nat -> nat)
    (toks : nat -> nat -> list (list float)) (arr0 : ndarray) :
  catalog_frame n_pfs pfs_df ->
  (forall i, (i < Z.to_nat n_pfs)%nat ->
     is_Some (cell_at pfs_df i (head_pos corr_data)) /\
     is_Some (cell_at pfs_df i (head_pos corr_data + 1))) ->
  samples (8 * polar_max corr_data) step_polar = Ok (8 * Z.of_nat n_polar) ->
  samples (polar_max corr_data) step_polar = Ok (Z.of_nat n_polar) ->
  samples 360 step_azimuthal = Ok (Z.of_nat A) ->
  zeros n_pfs (Z.of_nat n_polar) (Z.of_nat A) = Ok arr0 ->
  (forall i plane, index pfs_df !! i = Some plane ->
     last_match (header plane step_azimuthal_str step_polar_str
                   (Z.of_nat A) (Z.of_nat n_polar)) content
       = Some (offsets i) /\
     forall t, (t < n_polar)%nat ->
       block_tokens content (Z.of_nat (offsets i) + 1 + 8 * Z.of_nat t) 8
         = Ok (toks i t) /\
       wide_overflow A 0 (toks i t) = false) ->
  exists df' arr,
    get_meta_data step_polar step_azimuthal n_pfs pfs_df content
      step_polar_str step_azimuthal_str corr_data = Ok df' /\
    get_intensities content n_pfs df' step_polar step_azimuthal 8 corr_data
      = Ok arr /\
    shape arr = (Z.to_nat n_pfs, n_polar, A) /\
    forall i t, (i < Z.to_nat n_pfs)%nat -> (t < n_polar)%nat ->
      ring_at arr i t = Some (fill A (concat (toks i t))).
Proof.
  intros Hcat Hcells Hsi Hnp Hna Hz H.
  pose proof (catalog_frame_length _ _ Hcat) as Hlen.
  destruct (get_meta_data_total step_polar step_azimuthal step_polar_str
              step_azimuthal_str corr_data content n_pfs pfs_df (Z.of_nat A)
              (Z.of_nat n_polar) Hcat Hcells Hna Hnp) as [df' Hget].
  exists df'.
  destruct (get_intensities_fill content n_pfs df' step_polar step_azimuthal
              8 corr_data n_polar A (fun i => Z.of_nat (offsets i)) toks arr0)
    as (arr & Hints & Hshape & Hrings); try assumption; try lia.
  - intros i Hi.
    destruct (lookup_lt_is_Some_2 (index pfs_df) i) as [plane Hp]; [lia|].
    destruct (H i plane Hp) as [Hlast Hblocks].
    split; [|exact Hblocks].
    apply iloc_Ok.
    change (S (head_pos corr_data)) with (1 + head_pos corr_data)%nat.
    rewrite (Nat.add_comm 1).
    rewrite (get_meta_data_offset step_polar step_azimuthal step_polar_str
               step_azimuthal_str corr_data content n_pfs pfs_df df' i plane
               (header plane step_azimuthal_str step_polar_str
                  (Z.of_nat A) (Z.of_nat n_polar)) Hcat Hget Hp).
    + rewrite Hlast. reflexivity.
    + unfold header_of. rewrite Hna, Hnp. reflexivity.
  - exists arr. auto.
Qed.

Lemma locate_then_extract_witness :
  exists df' arr,
    get_meta_data 10 90 1
      (new_frame (Py.slice_to planes 1) (frame_columns false))
      Sample.uncorrected "10.00" "90.00" false = Ok df' /\
    get_intensities Sample.uncorrected 1 df' 10 90 8 false = Ok arr /\
    ring_at arr 0 3 = Some [12.5%float; 30.25%float; 7.125%float; 0.5%float].
Proof.
  destruct (locate_then_extract Sample.uncorrected 1
              (new_frame (Py.slice_to planes 1) (frame_columns false))
              10 90 "10.00" "90.00" false 8 4 (fun _ => 4%nat)
              (fun _ _ => [[12.5%float; 30.25%float]; [7.125%float; 0.5%float];
                           []; []; []; []; []; []])
              Broken.blank)
    as (df' & arr & Hget & Hints & _ & Hrings).
  - apply catalog_frame_new. lia.
  - intros i Hi. rewrite !cell_at_new_frame by (simpl in *; lia). eauto.
  - vm_compute. reflexivity.
  - vm_compute. reflexivity.
  - vm_compute. reflexivity.
  - vm_compute. reflexivity.
  - intros i plane Hp. destruct i as [|i]; [|discriminate Hp].
    injection Hp as <-. split; [vm_compute; reflexivity|]. intros t Ht.
    do 8 (destruct t as [|t]; [split; vm_compute; reflexivity|]). lia.
  - exists df', arr. split; [exact Hget|]. split; [exact Hints|].
    apply (Hrings 0%nat 3%nat); simpl; lia.
Defined.

(** ** [write_intensities_to_file]: the files and their names *)

(** X15. A call that writes all its tables writes one file for each pole
    figure of the array, in the order of the rows of the frame; the file
    of row [i] is named after the input file without its last four
    characters and the plane of the row, and it has one line for each
    cell of the pole figure. *)
Theorem one_table_per_pole_figure (arr : ndarray) (pfs_df : DataFrame)
    (infile : string) (step_polar step_azimuthal : float) (corr_data : bool)
    (fs : list file) (n0 P A : nat) :
  well_shaped arr -> shape arr = (n0, P, A) ->
  write_intensities_to_file arr pfs_df infile step_polar step_azimuthal
    corr_data = (fs, Ok tt) ->
  length fs = n0 /\
  forall i, (i < n0)%nat ->
    exists plane ls,
      index pfs_df !! i = Some plane /\
      fs !! i = Some (Py.drop_last 4 infile +:+ "_pf" +:+ plane +:+
                      (if corr_data then "_corr.dat" else "_uncorr.dat"), ls) /\
      length ls = (P * A)%nat.
Proof.
  intros Hws Hshape Hw.
  destruct (table_rows _ _ _ _ _ _ _ _ _ _ Hws Hshape Hw) as [Hlen Hall].
  split; [assumption|]. intros i Hi.
  destruct (lookup_lt_is_Some_2 fs i) as [[name ls] Hf]; [lia|].
  destruct (Hall i name ls Hf) as ((plane & Hp & ->) & Hls & _).
  exists plane, ls. split; [assumption|]. split; [exact Hf | assumption].
Qed.

Lemma one_table_per_pole_figure_witness :
  exists fs ls,
    write_intensities_to_file Grid.small Located.uncorrected "sample.RES"
      5 5 true = (fs, Ok tt) /\
    fs !! 0%nat = Some ("sample_pf111_corr.dat", ls) /\
    length ls = (2 * 2)%nat.
Proof.
  assert (H : exists fs,
             write_intensities_to_file Grid.small Located.uncorrected
               "sample.RES" 5 5 true = (fs, Ok tt))
    by (eexists; vm_compute; reflexivity).
  destruct H as [fs H]. exists fs.
  destruct (one_table_per_pole_figure Grid.small Located.uncorrected
              "sample.RES" 5 5 true fs 1 2 2) as [_ Hall].
  - vm_compute. repeat constructor.
  - reflexivity.
  - exact H.
  - destruct (Hall 0%nat) as (plane & ls & Hp & Hf & Hls); [lia|].
    injection Hp as <-. exists ls. split; [exact H|]. split; assumption.
Defined.

(** X16. Past the check of the extension, the input file is named
    [<stem>.RES] or [<stem>.res], and the table of a plane is named
    [<stem>_pf<plane>_corr.dat] or [<stem>_pf<plane>_uncorr.dat]: the four
    characters cut from the name are the extension. *)
Theorem tables_named_after_stem (infile : string) :
  Py.endswith infile ".RES" || Py.endswith infile ".res" = true ->
  exists stem,
    (infile = stem +:+ ".RES" \/ infile = stem +:+ ".res") /\
    forall plane corr_data,
      outfile_name infile plane corr_data =
        stem +:+ "_pf" +:+ plane +:+
        (if corr_data then "_corr.dat" else "_uncorr.dat").
Proof.
  intros H. exists (Py.drop_last 4 infile). split; [|reflexivity].
  apply orb_true_iff in H as [H|H]; apply endswith_split in H; auto.
Qed.

Lemma tables_named_after_stem_witness :
  exists stem,
    ("run7.res" = stem +:+ ".RES" \/ "run7.res" = stem +:+ ".res") /\
    outfile_name "run7.res" "220" true = stem +:+ "_pf" +:+ "220" +:+ "_corr.dat".
Proof.
  destruct (tables_named_after_stem "run7.res") as (stem & Hs & Hn);
    [reflexivity|].
  exists stem. split; [exact Hs | apply (Hn "220" true)].
Defined.

(** ** The script: files and counts at the edge *)

(** X17. A file of fewer than four lines is an [IndexError] where the script
    reads its third or its fourth line; nothing is printed and no file is
    written. *)
Theorem short_file_index_error (infile : string) (n_pfs : Z)
    (content : list string) :
  Py.endswith infile ".RES" || Py.endswith infile ".res" = true ->
  (length content < 4)%nat ->
  main infile n_pfs content =
    {| stdout := []; files := []; outcome := Raise IndexError |}.
Proof.
  intros Hext Hlen. pass_extension_check Hext.
  assert (Hs : sniff content = Raise IndexError).
  { unfold sniff.
    change (Py.index content 2) with (Py.index content (Z.of_nat 2)).
    change (Py.index content 3) with (Py.index content (Z.of_nat 3)).
    rewrite !index_nat.
    destruct (content !! 2%nat) as [line2|] eqn:H2; [|reflexivity].
    cbn [bind].
    change (Py.index (Py.split line2) 0)
      with (Py.index (Py.split line2) (Z.of_nat 0)).
    rewrite index_nat.
    destruct (Py.split line2 !! 0%nat); [|reflexivity]. cbn [bind].
    rewrite (lookup_ge_None_2 content 3) by lia. reflexivity. }
  rewrite Hs. reflexivity.
Qed.

Lemma short_file_index_error_witness :
  main "sample.res" 4 ["TexEval RES"; "sample"; "LMAX 4"] =
    {| stdout := []; files := []; outcome := Raise IndexError |}.
Proof.
  apply short_file_index_error; [reflexivity | simpl; lia].
Defined.

Lemma length_slice_to_planes n :
  n <= 6 -> length (Py.slice_to planes n) = Z.to_nat n \/
            (n < 0 /\ (length (Py.slice_to planes n) <= 6)%nat).
Proof.
  intros Hn. unfold Py.slice_to. destruct (n <? 0) eqn:Hneg.
  - apply Z.ltb_lt in Hneg. right. rewrite length_take. simpl. lia.
  - apply Z.ltb_ge in Hneg. left. rewrite length_take. simpl. lia.
Qed.

(** The first search of the script returns for every count up to 6 when
    the two counts of its headers are defined. *)
Lemma first_search_total step_polar step_azimuthal n_pfs content sps sas
    corr na np :
  n_pfs <= 6 ->
  samples 360 step_azimuthal = Ok na ->
  samples 80 step_polar = Ok np ->
  exists df',
    get_meta_data step_polar step_azimuthal n_pfs
      (new_frame (Py.slice_to planes n_pfs) (frame_columns corr)) content
      sps sas false = Ok df'.
Proof.
  intros Hn Hna Hnp.
  assert (Hcells : forall i, (i < length (Py.slice_to planes n_pfs))%nat ->
            is_Some (cell_at (new_frame (Py.slice_to planes n_pfs)
                                (frame_columns corr)) i 0) /\
            is_Some (cell_at (new_frame (Py.slice_to planes n_pfs)
                                (frame_columns corr)) i (0 + 1))).
  { intros i Hi. pose proof (length_frame_columns corr).
    rewrite !cell_at_new_frame by (simpl; lia). eauto. }
  destruct (Z.ltb_spec n_pfs 0) as [Hneg|Hpos].
  - unfold get_meta_data, Py.range.
    replace (Z.to_nat n_pfs) with 0%nat by lia. cbn [seq foldM bind].
    apply scan_total. exact Hcells.
  - eapply (get_meta_data_total _ _ _ _ false); try eassumption.
    + apply catalog_frame_new. lia.
    + intros i Hi. apply Hcells.
      destruct (length_slice_to_planes n_pfs Hn) as [->|[? _]]; lia.
Qed.

(** X18. A step of zero in the fourth line is a [ZeroDivisionError] of the
    first search, for every count from 1 to 6: the azimuthal step is
    divided first, the polar step after it. No file is written. *)
Theorem zero_step_division_error (infile : string) (n_pfs : Z)
    (content : list string) (corr : bool) (step_polar step_azimuthal : float) :
  Py.endswith infile ".RES" || Py.endswith infile ".res" = true ->
  sniff content = Ok (corr, step_polar, step_azimuthal) ->
  1 <= n_pfs <= 6 ->
  PrimFloat.eqb step_azimuthal zero = true \/
  (is_ok (samples 360 step_azimuthal) = true /\
   PrimFloat.eqb step_polar zero = true) ->
  main infile n_pfs content =
    {| stdout := []; files := []; outcome := Raise ZeroDivisionError |}.
Proof.
  intros Hext Hsniff Hn Hz. pass_extension_check Hext. rewrite Hsniff.
  assert (Hget : forall sps sas,
            get_meta_data step_polar step_azimuthal n_pfs
              (new_frame (Py.slice_to planes n_pfs) (frame_columns corr))
              content sps sas false = Raise ZeroDivisionError).
  { intros sps sas. unfold get_meta_data, Py.range, Py.slice_to.
    replace (n_pfs <? 0) with false by (symmetry; apply Z.ltb_ge; lia).
    destruct (Z.to_nat n_pfs) as [|m] eqn:Hm; [lia|].
    cbn [seq foldM]. unfold set_header at 1. cbn [take planes].
    change (iloc_name (new_frame ("111" :: take m _) _) 0) with (Ok (A:=string) "111").
    cbn [bind]. unfold samples at 1, PyFloat.int_div at 1.
    destruct Hz as [Hz|[Hok Hz]].
    - rewrite Hz. reflexivity.
    - unfold samples, PyFloat.int_div in Hok.
      destruct (PrimFloat.eqb step_azimuthal zero); [discriminate|].
      cbn [bind] in Hok |- *.
      destruct (PyFloat.to_int _); [|discriminate]. cbn [bind].
      unfold samples, PyFloat.int_div. rewrite Hz. reflexivity. }
  unfold conversion_pass. rewrite Hget. reflexivity.
Qed.

Lemma zero_step_division_error_witness :
  main "sample.RES" 2
    ["TexEval RES"; "sample"; "HKL 111"; "STEP 5.00 0.00"] =
    {| stdout := []; files := []; outcome := Raise ZeroDivisionError |}.
Proof.
  apply (zero_step_division_error _ _ _ false 5 0).
  - reflexivity.
  - vm_compute. reflexivity.
  - lia.
  - left. reflexivity.
Defined.

(** X19. A negative dimension is a [ValueError] of [np.zeros]: a negative
    count, or a negative step, whose count of samples is negative, ends
    the run there, after the first search and before any file is
    written. *)
Theorem negative_dimension_value_error (infile : string) (n_pfs : Z)
    (content : list string) (corr : bool) (step_polar step_azimuthal : float)
    (si np na : Z) :
  Py.endswith infile ".RES" || Py.endswith infile ".res" = true ->
  sniff content = Ok (corr, step_polar, step_azimuthal) ->
  n_pfs <= 6 ->
  samples (8 * 80) step_polar = Ok si ->
  samples 80 step_polar = Ok np ->
  samples 360 step_azimuthal = Ok na ->
  n_pfs < 0 \/ np < 0 \/ na < 0 ->
  main infile n_pfs content =
    {| stdout := []; files := []; outcome := Raise ValueError |}.
Proof.
  intros Hext Hsniff Hn Hsi Hnp Hna Hneg. pass_extension_check Hext.
  rewrite Hsniff. unfold conversion_pass.
  destruct (first_search_total step_polar step_azimuthal n_pfs content
              (PyFloat.format_f 2 step_polar) (PyFloat.format_f 2 step_azimuthal)
              corr na np Hn Hna Hnp) as [df' ->].
  assert (Hints : get_intensities content n_pfs df' step_polar step_azimuthal 8
                    false = Raise ValueError).
  { unfold get_intensities. change (8 * polar_max false) with (8 * 80).
    change (polar_max false) with 80. rewrite Hsi, Hnp, Hna. cbn [bind].
    rewrite (zeros_negative _ _ _ Hneg). reflexivity. }
  rewrite Hints. reflexivity.
Qed.

Lemma negative_dimension_value_error_witness :
  main "sample.RES" (-1) Sample.uncorrected =
    {| stdout := []; files := []; outcome := Raise ValueError |} /\
  main "sample.RES" 1
    ["TexEval RES"; "sample"; "HKL 111"; "STEP -5.00 5.00"] =
    {| stdout := []; files := []; outcome := Raise ValueError |}.
Proof.
  split.
  - apply (negative_dimension_value_error _ _ _ false 10 90 64 8 4);
      [reflexivity | vm_compute; reflexivity | lia | vm_compute; reflexivity ..
      | lia].
  - apply (negative_dimension_value_error _ _ _ false (-5) 5 (-128) (-16) 72);
      [reflexivity | vm_compute; reflexivity | lia | vm_compute; reflexivity ..
      | lia].
Defined.

Lemma scan_no_row pos content : forall lc df,
  index df = [] -> scan pos content lc df = Ok df.
Proof.
  induction content as [|line rest IH]; intros lc df Hidx; [reflexivity|].
  cbn [scan]. rewrite Hidx. cbn [length Z.of_nat Py.range Z.to_nat seq match_line bind].
  apply IH. assumption.
Qed.

(** A pass over no pole figure writes nothing and keeps the frame. *)
Lemma empty_pass infile content step_polar step_azimuthal corr_data df :
  index df = [] -> array_made 0 step_polar step_azimuthal corr_data ->
  conversion_pass infile 0 content step_polar step_azimuthal corr_data df
    = ([], Ok df).
Proof.
  intros Hidx (si & np & na & arr0 & Hsi & Hnp & Hna & Hz).
  unfold conversion_pass, get_meta_data.
  change (Py.range 0) with (@nil nat). cbn [foldM bind].
  rewrite scan_no_row by assumption.
  unfold get_intensities. rewrite Hsi, Hnp, Hna. cbn [bind].
  rewrite Hz. change (Py.range 0) with (@nil nat). cbn [bind foldM].
  pose proof (zeros_not_too_big _ _ _ _ Hz) as Hbig.
  apply zeros_Ok in Hz as (_ & _ & _ & _ & ->).
  unfold write_intensities_to_file. cbn [shape]. rewrite Hbig. reflexivity.
Qed.

(** X20. With a count of 0 the script reads the two steps, writes no file and
    ends as a run without error does, when the counts of its passes are
    defined and [np.zeros] makes the empty arrays of the passes, whose
    numbers of rings and of cells must fit like those of any array. The
    arrays of angles that the writer makes of these numbers are not empty
    and pass the same checks. *)
Theorem no_pole_figure_no_file (infile : string) (content : list string)
    (corr : bool) (step_polar step_azimuthal : float) :
  Py.endswith infile ".RES" || Py.endswith infile ".res" = true ->
  sniff content = Ok (corr, step_polar, step_azimuthal) ->
  array_made 0 step_polar step_azimuthal false ->
  (corr = true -> array_made 0 step_polar step_azimuthal true) ->
  main infile 0 content = {| stdout := []; files := []; outcome := Ok tt |}.
Proof.
  intros Hext Hsniff Hu Hc. pass_extension_check Hext. rewrite Hsniff.
  change (Py.slice_to planes 0) with (@nil string).
  rewrite empty_pass by (assumption || reflexivity).
  destruct corr; [|reflexivity].
  rewrite empty_pass by (auto || reflexivity). reflexivity.
Qed.

Lemma no_pole_figure_no_file_witness :
  main "sample.RES" 0 Sample.marker_only =
    {| stdout := []; files := []; outcome := Ok tt |}.
Proof.
  apply (no_pole_figure_no_file _ _ true 10 90).
  - reflexivity.
  - vm_compute. reflexivity.
  - exists 64, 8, 4. eexists. repeat split; vm_compute; reflexivity.
  - intros _. exists 72, 9, 4. eexists. repeat split; vm_compute; reflexivity.
Defined.

(** With a count of 0 and an azimuthal step of 1e-30, the count of cells
    of a ring does not fit an [intp]: the run ends in the [ValueError] of
    [np.zeros], although the array would be empty. *)
Lemma tiny_step_value_error :
  let content := ["TexEval RES"; "sample"; "HKL 111"; "STEP 10.00 1e-30"] in
  (let* steps := sniff content in samples 360 steps.2)
    = Ok 359999999999999968877868109266944 /\
  fits_intp 359999999999999968877868109266944 = false /\
  main "sample.RES" 0 content =
    {| stdout := []; files := []; outcome := Raise ValueError |}.
Proof. repeat split; vm_compute; reflexivity. Qed.

(** ** The script: from the lines of the file to the lines of the tables *)

Lemma conversion_pass_files infile n_pfs content step_polar step_azimuthal
    corr_data pfs_df fs df' :
  conversion_pass infile n_pfs content step_polar step_azimuthal corr_data
    pfs_df = (fs, Ok df') ->
  0 <= n_pfs /\ same_shape pfs_df df' /\
  (Z.to_nat n_pfs <= length (index pfs_df))%nat /\
  map fst fs =
    map (fun p => outfile_name infile p corr_data)
        (take (Z.to_nat n_pfs) (index pfs_df)).
Proof.
  intros H. apply conversion_pass_Ok in H as (Hget & ints & Hints & Hw).
  apply get_meta_data_Ok in Hget as (Hs & _ & _).
  apply get_intensities_shape in Hints
    as (np & na & _ & _ & Hn & _ & _ & Hshape & Hws).
  destruct (table_rows _ _ _ _ _ _ _ _ _ _ Hws Hshape Hw) as [Hlen Hall].
  destruct Hs as [Hidx Hcells]. unfold file in *.
  assert (Hrows : forall i, (i < Z.to_nat n_pfs)%nat ->
            exists plane, index pfs_df !! i = Some plane /\
                          fst <$> fs !! i = Some (outfile_name infile plane corr_data)).
  { intros i Hi. destruct (lookup_lt_is_Some_2 fs i) as [[name ls] Hf]; [lia|].
    destruct (Hall i name ls Hf) as ((plane & Hp & ->) & _).
    exists plane. rewrite <- Hidx, Hf. auto. }
  assert (Hle : (Z.to_nat n_pfs <= length (index pfs_df))%nat).
  { destruct (Z.to_nat n_pfs) as [|m] eqn:Hm; [lia|].
    destruct (Hrows m) as (plane & Hp & _); [lia|].
    apply lookup_lt_Some in Hp. lia. }
  split; [assumption|]. split; [split; assumption|]. split; [assumption|].
  apply list_eq. intros i. rewrite !lookup_map.
  destruct (decide (i < Z.to_nat n_pfs)%nat) as [Hi|Hi].
  - destruct (Hrows i Hi) as (plane & Hp & Hf).
    rewrite Hf, lookup_take_lt, Hp by assumption. reflexivity.
  - rewrite lookup_take_ge by lia.
    rewrite (lookup_ge_None_2 fs i) by lia. reflexivity.
Qed.

(** X21. A run that ends without error printed nothing and wrote, for a count
    [n_pfs] from 0 to 6, the tables of the uncorrected intensities of the
    first [n_pfs] planes of the catalog, in that order, and after them,
    when the third line of the file starts with the correction marker,
    the tables of their corrected intensities: [n_pfs] files, or twice as
    many. *)
Theorem files_of_a_run (infile : string) (n_pfs : Z)
    (content : list string) (corr : bool) (step_polar step_azimuthal : float) :
  Py.endswith infile ".RES" || Py.endswith infile ".res" = true ->
  sniff content = Ok (corr, step_polar, step_azimuthal) ->
  outcome (main infile n_pfs content) = Ok tt ->
  let r := main infile n_pfs content in
  stdout r = [] /\ 0 <= n_pfs <= 6 /\
  map fst (files r) =
    (map (fun p => outfile_name infile p false) (Py.slice_to planes n_pfs) ++
     if corr
     then map (fun p => outfile_name infile p true) (Py.slice_to planes n_pfs)
     else [])%list /\
  length (files r) = ((if corr then 2 else 1) * Z.to_nat n_pfs)%nat.
Proof.
  intros Hext Hsniff Hok r. subst r. revert Hok. pass_extension_check Hext.
  rewrite Hsniff.
  destruct (conversion_pass infile n_pfs content step_polar step_azimuthal
              false _) as [fs r1] eqn:H1.
  destruct r1 as [df1|e1]; [|discriminate].
  apply conversion_pass_files in H1 as (Hn & Hs1 & Hle & Hfs).
  cbn [index new_frame] in Hle, Hfs.
  assert (Hn6 : n_pfs <= 6).
  { unfold Py.slice_to in Hle.
    replace (n_pfs <? 0) with false in Hle by (symmetry; apply Z.ltb_ge; lia).
    rewrite length_take in Hle. simpl in Hle. lia. }
  assert (Htake : take (Z.to_nat n_pfs) (Py.slice_to planes n_pfs)
                  = Py.slice_to planes n_pfs).
  { unfold Py.slice_to.
    replace (n_pfs <? 0) with false by (symmetry; apply Z.ltb_ge; lia).
    rewrite take_take. f_equal. lia. }
  assert (Hlen : length (Py.slice_to planes n_pfs) = Z.to_nat n_pfs).
  { unfold Py.slice_to.
    replace (n_pfs <? 0) with false by (symmetry; apply Z.ltb_ge; lia).
    rewrite length_take. simpl. lia. }
  rewrite Htake in Hfs.
  destruct corr.
  - destruct (conversion_pass infile n_pfs content step_polar step_azimuthal
                true df1) as [fs2 r2] eqn:H2.
    destruct r2 as [df2|e2]; [|discriminate]. intros _. cbn [stdout files].
    apply conversion_pass_files in H2 as (_ & _ & _ & Hfs2).
    destruct Hs1 as [Hidx _]. rewrite Hidx in Hfs2.
    cbn [index new_frame] in Hfs2. rewrite Htake in Hfs2.
    unfold file in *.
    split; [reflexivity|]. split; [lia|]. split.
    + rewrite map_app, Hfs, Hfs2. reflexivity.
    + apply (f_equal length) in Hfs, Hfs2. rewrite !length_map in Hfs, Hfs2.
      rewrite length_app, Hfs, Hfs2, Hlen. lia.
  - intros _. cbn [stdout files]. unfold file in *.
    split; [reflexivity|]. split; [lia|]. split.
    + rewrite app_nil_r. exact Hfs.
    + apply (f_equal length) in Hfs. rewrite !length_map in Hfs.
      rewrite Hfs, Hlen. lia.
Qed.

Lemma files_of_a_run_witness :
  map fst (files (main "sample.RES" 1 Sample.five_degrees))
    = ["sample_pf111_uncorr.dat"] /\
  length (files (main "sample.RES" 1 Sample.five_degrees)) = 1%nat.
Proof.
  destruct (files_of_a_run "sample.RES" 1 Sample.five_degrees false 5 5)
    as (_ & _ & Hnames & Hlen).
  - reflexivity.
  - vm_compute. reflexivity.
  - vm_compute. reflexivity.
  - split; [exact Hnames | exact Hlen].
Defined.

(** What one pass writes, when it goes through: its files in the order of
    the planes, and in each the line of ring [j] and column [l] made of
    the value the block [j] after the last header line of the plane has
    at place [l]. The line numbers of the pass are not yet set when it
    starts. *)
Lemma pass_table_row infile n_pfs content step_polar step_azimuthal corr_data
    pfs_df fs df' :
  catalog_frame n_pfs pfs_df ->
  (forall i, (i < Z.to_nat n_pfs)%nat ->
     cell_at pfs_df i (head_pos corr_data + 1) = Some NaN) ->
  conversion_pass infile n_pfs content step_polar step_azimuthal corr_data
    pfs_df = (fs, Ok df') ->
  exists si np na,
    samples (8 * polar_max corr_data) step_polar = Ok si /\
    samples (polar_max corr_data) step_polar = Ok np /\
    samples 360 step_azimuthal = Ok na /\
    length fs = Z.to_nat n_pfs /\
    forall i name ls, fs !! i = Some (name, ls) ->
      exists plane k,
        planes !! i = Some plane /\
        name = outfile_name infile plane corr_data /\
        last_match (header plane (PyFloat.format_f 2 step_azimuthal)
                      (PyFloat.format_f 2 step_polar) na np) content
          = Some k /\
        length ls = (Z.to_nat np * Z.to_nat na)%nat /\
        (forall j l, (j < block_count si)%nat -> (l < Z.to_nat na)%nat ->
           exists ts v line,
             block_tokens content (Z.of_nat k + 1 + 8 * Z.of_nat j) 8 = Ok ts /\
             fill (Z.to_nat na) (concat ts) !! l = Some v /\
             ls !! (j * Z.to_nat na + l)%nat = Some line /\
             format_row (PyFloat.int_mul (Z.of_nat j) step_polar,
                         azimuthal_angle step_azimuthal l, v) = Ok line) /\
        (forall j l, (block_count si <= j < Z.to_nat np)%nat ->
           (l < Z.to_nat na)%nat ->
           exists line,
             ls !! (j * Z.to_nat na + l)%nat = Some line /\
             format_row (PyFloat.int_mul (Z.of_nat j) step_polar,
                         azimuthal_angle step_azimuthal l, zero) = Ok line).
Proof.
  intros Hcat Hnan H.
  apply conversion_pass_Ok in H as (Hget & ints & Hints & Hw).
  pose proof (get_intensities_Ok _ _ _ _ _ _ _ Hints)
    as (si & np & na & Hsi & Hnp & Hna & Hall).
  pose proof (get_intensities_shape _ _ _ _ _ _ _ _ Hints)
    as (np' & na' & Hnp' & Hna' & Hn & _ & _ & Hshape & Hws).
  assert (np' = np) by congruence. assert (na' = na) by congruence.
  subst np' na'.
  destruct (table_rows _ _ _ _ _ _ _ _ _ _ Hws Hshape Hw) as [Hlen Hrows].
  exists si, np, na. repeat (split; [assumption|]).
  intros i name ls Hf.
  assert (Hi : (i < Z.to_nat n_pfs)%nat).
  { apply lookup_lt_Some in Hf. unfold file in *. lia. }
  destruct (Hrows i name ls Hf) as ((plane & Hp & Hname) & Hls & Hcells).
  pose proof (get_meta_data_Ok _ _ _ _ _ _ _ _ _ Hget) as ([Hidx _] & _ & _).
  rewrite Hidx in Hp.
  destruct (catalog_frame_lookup _ _ _ _ Hcat Hp) as [Hpl _].
  destruct (Hall i Hi) as (Hle & k & Hk & Hblocks & Hzeros).
  apply iloc_Ok in Hk.
  change (S (head_pos corr_data)) with (1 + head_pos corr_data)%nat in Hk.
  rewrite (Nat.add_comm 1) in Hk.
  rewrite (get_meta_data_offset _ _ _ _ _ _ _ _ _ i plane
             (header plane (PyFloat.format_f 2 step_azimuthal)
                (PyFloat.format_f 2 step_polar) na np) Hcat Hget Hp) in Hk
    by (unfold header_of; rewrite Hna, Hnp; reflexivity).
  destruct (last_match _ content) as [k0|] eqn:Hlast;
    [|rewrite Hnan in Hk by assumption; discriminate].
  injection Hk as <-.
  exists plane, k0. repeat (split; [assumption|]). split.
  - intros j l Hj Hl.
    destruct (Hblocks j Hj) as (ts & Hts & _ & Hring).
    destruct (Hcells j l) as (row & v & line & Hrow & Hv & Hline & Hfmt);
      [lia | assumption |].
    rewrite Hring in Hrow. injection Hrow as <-.
    exists ts, v, line. auto.
  - intros j l Hj Hl.
    destruct (Hcells j l) as (row & v & line & Hrow & Hv & Hline & Hfmt);
      [lia | assumption |].
    rewrite (Hzeros j Hj) in Hrow. injection Hrow as <-.
    apply lookup_replicate in Hv as [-> _]. exists line. auto.
Qed.

(** X22. A line of a table, from the lines of the file. In a run that ends
    without error, the table of the plane of row [i], of uncorrected or of
    corrected intensities, has at line [j * A + l] ([A] the count of
    azimuthal angles) the integer parts of [j * step_polar] and of the
    azimuthal angle of column [l] and, with 3 decimals, the value at place
    [l] among the values of the 8 lines that start [8 * j + 1] lines after
    the last line of the file that reads as the header of the plane; for
    a ring past the last block the value is zero. *)
Theorem table_row_from_file (infile : string) (n_pfs : Z)
    (content : list string) (corr : bool) (step_polar step_azimuthal : float)
    (corr_data : bool) (i : nat) (name : string) (ls : list string) :
  Py.endswith infile ".RES" || Py.endswith infile ".res" = true ->
  sniff content = Ok (corr, step_polar, step_azimuthal) ->
  outcome (main infile n_pfs content) = Ok tt ->
  (corr_data = true -> corr = true) ->
  (i < Z.to_nat n_pfs)%nat ->
  files (main infile n_pfs content)
    !! ((if corr_data then Z.to_nat n_pfs else 0) + i)%nat = Some (name, ls) ->
  exists si np na plane k,
    samples (8 * polar_max corr_data) step_polar = Ok si /\
    samples (polar_max corr_data) step_polar = Ok np /\
    samples 360 step_azimuthal = Ok na /\
    planes !! i = Some plane /\
    name = outfile_name infile plane corr_data /\
    last_match (header plane (PyFloat.format_f 2 step_azimuthal)
                  (PyFloat.format_f 2 step_polar) na np) content = Some k /\
    length ls = (Z.to_nat np * Z.to_nat na)%nat /\
    (forall j l, (j < block_count si)%nat -> (l < Z.to_nat na)%nat ->
       exists ts v line,
         block_tokens content (Z.of_nat k + 1 + 8 * Z.of_nat j) 8 = Ok ts /\
         fill (Z.to_nat na) (concat ts) !! l = Some v /\
         ls !! (j * Z.to_nat na + l)%nat = Some line /\
         format_row (PyFloat.int_mul (Z.of_nat j) step_polar,
                     azimuthal_angle step_azimuthal l, v) = Ok line) /\
    (forall j l, (block_count si <= j < Z.to_nat np)%nat ->
       (l < Z.to_nat na)%nat ->
       exists line,
         ls !! (j * Z.to_nat na + l)%nat = Some line /\
         format_row (PyFloat.int_mul (Z.of_nat j) step_polar,
                     azimuthal_angle step_azimuthal l, zero) = Ok line).
Proof.
  intros Hext Hsniff Hok Hcd Hi. revert Hok. pass_extension_check Hext.
  rewrite Hsniff.
  destruct (conversion_pass infile n_pfs content step_polar step_azimuthal
              false _) as [fs r1] eqn:H1.
  destruct r1 as [df1|e1]; [|discriminate].
  pose proof (conversion_pass_files _ _ _ _ _ _ _ _ _ H1) as (Hn & _ & Hle & _).
  cbn [index new_frame] in Hle.
  assert (Hn6 : 0 <= n_pfs <= 6).
  { split; [assumption|]. unfold Py.slice_to in Hle.
    replace (n_pfs <? 0) with false in Hle by (symmetry; apply Z.ltb_ge; lia).
    rewrite length_take in Hle. simpl in Hle. lia. }
  pose proof (catalog_frame_new n_pfs (frame_columns corr) Hn6) as Hcat.
  pose proof (catalog_frame_length _ _ Hcat) as Hrows.
  cbn [index new_frame] in Hrows.
  assert (Hnan1 : forall i', (i' < Z.to_nat n_pfs)%nat ->
            cell_at (new_frame (Py.slice_to planes n_pfs) (frame_columns corr))
              i' (head_pos false + 1) = Some NaN).
  { intros i' Hi'. pose proof (length_frame_columns corr).
    apply cell_at_new_frame; simpl; lia. }
  destruct (pass_table_row _ _ _ _ _ false _ _ _ Hcat Hnan1 H1)
    as (si & np & na & Hsi & Hnp & Hna & Hlen & Hfiles).
  assert (Hfirst : forall fs', (fs ++ fs')%list !! (0 + i)%nat = fs !! i).
  { intros fs'. apply lookup_app_l. unfold file in *. lia. }
  destruct corr.
  - destruct (conversion_pass infile n_pfs content step_polar step_azimuthal
                true df1) as [fs2 r2] eqn:H2.
    destruct r2 as [df2|e2]; [|discriminate]. intros _. cbn [files].
    destruct corr_data.
    + intros Hf.
      replace ((fs ++ fs2)%list !! (Z.to_nat n_pfs + i)%nat) with (fs2 !! i) in Hf.
      2:{ symmetry. unfold file in *. rewrite lookup_app_r by lia.
          f_equal. lia. }
      apply conversion_pass_Ok in H1 as (Hget1 & _).
      pose proof (get_meta_data_Ok _ _ _ _ _ _ _ _ _ Hget1) as (Hs1 & _ & Ho1).
      pose proof (catalog_frame_same_shape _ _ _ Hcat Hs1) as Hcat1.
      assert (Hnan2 : forall i', (i' < Z.to_nat n_pfs)%nat ->
                cell_at df1 i' (head_pos true + 1) = Some NaN).
      { intros i' Hi'. rewrite Ho1 by (simpl; lia).
        apply cell_at_new_frame; simpl; lia. }
      destruct (pass_table_row _ _ _ _ _ true _ _ _ Hcat1 Hnan2 H2)
        as (si2 & np2 & na2 & Hsi2 & Hnp2 & Hna2 & _ & Hfiles2).
      destruct (Hfiles2 i name ls Hf) as (plane & k & ?).
      exists si2, np2, na2, plane, k. tauto.
    + rewrite Hfirst. intros Hf.
      destruct (Hfiles i name ls Hf) as (plane & k & ?).
      exists si, np, na, plane, k. tauto.
  - intros _. cbn [files].
    destruct corr_data; [specialize (Hcd eq_refl); discriminate|].
    cbn [Nat.add].
    intros Hf. destruct (Hfiles i name ls Hf) as (plane & k & ?).
    exists si, np, na, plane, k. tauto.
Qed.

Lemma table_row_from_file_witness :
  exists ls ts v,
    files (main "sample.RES" 1 Sample.uncorrected) !! (0 + 0)%nat
      = Some ("sample_pf111_uncorr.dat", ls) /\
    block_tokens Sample.uncorrected (Z.of_nat 4 + 1 + 8 * Z.of_nat 2) 8 = Ok ts /\
    fill (Z.to_nat 4) (concat ts) !! 1%nat = Some v /\
    ls !! (2 * Z.to_nat 4 + 1)%nat = Some "20 90 30.250" /\
    format_row (PyFloat.int_mul (Z.of_nat 2) 10, azimuthal_angle 90 1, v)
      = Ok "20 90 30.250".
Proof.
  assert (H : exists ls,
             files (main "sample.RES" 1 Sample.uncorrected) !! (0 + 0)%nat
               = Some ("sample_pf111_uncorr.dat", ls) /\
             ls !! (2 * Z.to_nat 4 + 1)%nat = Some "20 90 30.250")
    by (eexists; vm_compute; split; reflexivity).
  destruct H as (ls & Hf & Hl). exists ls.
  destruct (table_row_from_file "sample.RES" 1 Sample.uncorrected false 10 90
              false 0 _ ls eq_refl eq_refl eq_refl
              ltac:(discriminate) ltac:(simpl; lia) Hf)
    as (si & np & na & plane & k & Hsi & Hnp & Hna & Hp & _ & Hk & _ & Hrows
        & _).
  vm_compute in Hsi, Hnp, Hna.
  injection Hsi as <-. injection Hnp as <-. injection Hna as <-.
  injection Hp as <-. vm_compute in Hk. injection Hk as <-.
  destruct (Hrows 2%nat 1%nat) as (ts & v & line & Hts & Hv & Hline & Hfmt);
    [vm_compute; lia | simpl; lia |].
  exists ts, v. rewrite Hl in Hline. injection Hline as <-. auto.
Defined.

Section Stripped.

Variable content : list string.

Let stripped := map Py.rstrip content.

Lemma sniff_stripped : sniff stripped = sniff content.
Proof.
  unfold sniff, stripped. rewrite !index_map.
  destruct (Py.index content 2) as [line2|]; cbn [bind]; [|reflexivity].
  rewrite split_rstrip.
  destruct (Py.index (Py.split line2) 0) as [word|]; cbn [bind]; [|reflexivity].
  destruct (Py.index content 3) as [line3|]; cbn [bind]; [|reflexivity].
  rewrite split_rstrip. reflexivity.
Qed.

Lemma scan_stripped pos : forall lc df,
  scan pos stripped lc df = scan pos content lc df.
Proof.
  unfold stripped. induction content as [|line rest IH]; intros lc df;
    [reflexivity|].
  cbn [map scan]. rewrite rstrip_idempotent.
  destruct (match_line _ _ _ _ _); cbn [bind]; auto.
Qed.

Lemma get_meta_data_stripped sp sa n_pfs df sps sas corr_data :
  get_meta_data sp sa n_pfs df stripped sps sas corr_data =
  get_meta_data sp sa n_pfs df content sps sas corr_data.
Proof.
  unfold get_meta_data. destruct (foldM _ _ _); cbn [bind]; [|reflexivity].
  apply scan_stripped.
Qed.

Lemma read_line_stripped i i_pa j st k :
  read_line stripped i i_pa j st k = read_line content i i_pa j st k.
Proof.
  unfold read_line, stripped. destruct st as [arr i_pf]. rewrite index_map.
  destruct (Py.index content _) as [line|]; cbn [bind]; [|reflexivity].
  unfold parse_line. rewrite split_rstrip. reflexivity.
Qed.

Lemma get_intensities_stripped n_pfs df sp sa step corr_data :
  get_intensities stripped n_pfs df sp sa step corr_data =
  get_intensities content n_pfs df sp sa step corr_data.
Proof.
  unfold get_intensities.
  destruct (samples _ sp) as [si|]; cbn [bind]; [|reflexivity].
  destruct (samples _ sp) as [np|]; cbn [bind]; [|reflexivity].
  destruct (samples _ sa) as [na|]; cbn [bind]; [|reflexivity].
  destruct (zeros _ _ _) as [arr0|]; cbn [bind]; [|reflexivity].
  apply foldM_ext. intros arr i. unfold read_pole_figure.
  destruct (iloc _ _ _) as [c|]; cbn [bind]; [|reflexivity].
  destruct (cell_succ c) as [start|]; cbn [bind]; [|reflexivity].
  f_equal. apply foldM_ext. intros [arr1 i_pa] j. unfold read_block.
  f_equal. apply foldM_ext. intros st k. apply read_line_stripped.
Qed.

Lemma conversion_pass_stripped infile n_pfs sp sa corr_data df :
  conversion_pass infile n_pfs stripped sp sa corr_data df =
  conversion_pass infile n_pfs content sp sa corr_data df.
Proof.
  unfold conversion_pass. rewrite get_meta_data_stripped.
  destruct (get_meta_data _ _ _ _ content _ _ _) as [df'|]; [|reflexivity].
  rewrite get_intensities_stripped. reflexivity.
Qed.

Lemma main_stripped infile n_pfs :
  main infile n_pfs stripped = main infile n_pfs content.
Proof.
  unfold main. rewrite sniff_stripped.
  destruct (_ && _); [reflexivity|].
  destruct (sniff content) as [[[corr sp] sa]|]; [|reflexivity].
  rewrite conversion_pass_stripped.
  destruct (conversion_pass _ _ content _ _ false _) as [fs [df|]];
    [|reflexivity].
  rewrite conversion_pass_stripped. reflexivity.
Qed.

End Stripped.

(** X23. The run does not see the whitespace that ends a line: two files whose
    lines are the same once [rstrip] has cut them, as a file with
    [CR LF] line ends and the same file with [LF] line ends are, give
    the same output, the same files and the same end of the run. *)
Theorem trailing_space_ignored (infile : string) (n_pfs : Z)
    (content content' : list string) :
  Forall2 (fun line line' => Py.rstrip line = Py.rstrip line') content content' ->
  main infile n_pfs content' = main infile n_pfs content.
Proof.
  intros H. rewrite <- (main_stripped content), <- (main_stripped content').
  replace (map Py.rstrip content') with (map Py.rstrip content); [reflexivity|].
  induction H as [|l l' ls ls' Hl _ IH]; [reflexivity|].
  cbn [map]. rewrite Hl, IH. reflexivity.
Qed.

Lemma trailing_space_ignored_witness :
  main "sample.RES" 1
       (map (fun l => Py.rstrip l +:+ String "013" newline) Sample.uncorrected)
  = main "sample.RES" 1 Sample.uncorrected.
Proof.
  apply trailing_space_ignored.
  apply Forall2_fmap_r, Forall_Forall2_diag, Forall_forall. intros l _.
  unfold compose. rewrite rstrip_app_space by reflexivity.
  symmetry. apply rstrip_idempotent.
Defined.
